(** * Interplanetary API: the ingestion engine of [forchecktoporov]

    A shallow embedding of [data_ingestion.py], of the parts of
    [models.py] it relies on, of the endpoints of [views.py] and of the
    start-up hook of [apps.py], followed by the properties of the ingestion
    run (organisation loading, reference lookups, versioned upsert of people
    and deferred friend linking) and of what the endpoints answer.

    The Django store is a record of tables; the code runs in a state and
    exception monad over that store.  Writes are committed one by one
    (autocommit, no [atomic] block in the source), so the state reached when
    an exception is raised is the state that remains.  The length limits
    and the foreign-key checks of the columns are not modelled: the source
    relates rows only to rows it has just read or written. *)

From Stdlib Require Import ZArith NArith Ascii String List Bool Lia Sorted.
From stdpp Require Import base option list gmap strings.

Local Open Scope string_scope.
Local Open Scope list_scope.
Local Open Scope Z_scope.

(** ** Library functions used by the source

    Python and Django functions that [data_ingestion.py] calls on strings:
    [str.replace], [uuid.UUID] and [django.utils.dateparse.parse_datetime]. *)

Module Py.

(** [s.replace(' ', '')] *)
Fixpoint remove_spaces (s : string) : string :=
  match s with
  | EmptyString => EmptyString
  | String c r => if Ascii.eqb c " "%char then remove_spaces r
                  else String c (remove_spaces r)
  end.

Fixpoint drop_prefix (p s : string) : option string :=
  match p, s with
  | EmptyString, _ => Some s
  | String a p', String b s' => if Ascii.eqb a b then drop_prefix p' s' else None
  | String _ _, EmptyString => None
  end.

(** [s.replace(old, '')] for a non-empty [old]: occurrences are removed from
    left to right, without rescanning what was joined. *)
Fixpoint remove_substring (old s : string) (fuel : nat) : string :=
  match fuel with
  | O => s
  | S fuel' =>
      match drop_prefix old s with
      | Some rest => remove_substring old rest fuel'
      | None => match s with
                | EmptyString => EmptyString
                | String c r => String c (remove_substring old r fuel')
                end
      end
  end.

Definition str_remove (old s : string) : string :=
  remove_substring old s (S (String.length s)).

Definition is_brace (c : ascii) : bool :=
  Ascii.eqb c "{"%char || Ascii.eqb c "}"%char.

Fixpoint lstrip_braces (s : string) : string :=
  match s with
  | String c r => if is_brace c then lstrip_braces r else s
  | EmptyString => EmptyString
  end.

Fixpoint rstrip_braces (s : string) : string :=
  match s with
  | EmptyString => EmptyString
  | String c r =>
      match rstrip_braces r with
      | EmptyString => if is_brace c then EmptyString else String c EmptyString
      | r' => String c r'
      end
  end.

(** [s.strip('{}')] *)
Definition strip_braces (s : string) : string := rstrip_braces (lstrip_braces s).

Definition is_digit (c : ascii) : bool :=
  let n := N_of_ascii c in (48 <=? n)%N && (n <=? 57)%N.

Definition digit_value (c : ascii) : Z := Z.of_N (N_of_ascii c) - 48.

Definition hex_value (c : ascii) : option N :=
  let n := N_of_ascii c in
  if (48 <=? n)%N && (n <=? 57)%N then Some (n - 48)%N
  else if (97 <=? n)%N && (n <=? 102)%N then Some (n - 87)%N
  else if (65 <=? n)%N && (n <=? 70)%N then Some (n - 55)%N
  else None.

Fixpoint hex_to_N (acc : N) (s : string) : option N :=
  match s with
  | EmptyString => Some acc
  | String c r => match hex_value c with
                  | Some d => hex_to_N (16 * acc + d)%N r
                  | None => None
                  end
  end.

(** [uuid.UUID(hex)] on the texts written with hexadecimal digits: the
    value of a textual UUID, and [None] otherwise.  The text is taken as the
    library does ([urn:] and [uuid:] removed, braces stripped, dashes
    removed, 32 characters required); the 32 characters are read as plain
    hexadecimal digits.  Where this gives a value, [uuid.UUID] gives the
    same.  [None] is given both where [uuid.UUID] raises [ValueError] and
    for the 32 characters that Python's [int(_, 16)] reads although they
    are not all digits (a prefix [0x], a sign [+], underscores between
    digits, blanks around); a property that needs the [ValueError] states
    what makes the text one that [int(_, 16)] rejects. *)
Definition UUID (hex : string) : option N :=
  let hex := str_remove "uuid:" (str_remove "urn:" hex) in
  let hex := remove_substring "-" (strip_braces hex) (S (String.length hex)) in
  if Nat.eqb (String.length hex) 32 then hex_to_N 0 hex else None.

(** *** Timestamps *)

(** A [datetime.datetime]; [tzinfo] is the UTC offset in minutes of an aware
    value and [None] for a naive one. *)
Record datetime := mk_datetime {
  year : Z; month : Z; day : Z;
  hour : Z; minute : Z; second : Z; microsecond : Z;
  tzinfo : option Z
}.

Definition is_leap (y : Z) : bool :=
  (y mod 4 =? 0) && (negb (y mod 100 =? 0) || (y mod 400 =? 0)).

Definition days_in_month (y m : Z) : Z :=
  if m =? 2 then (if is_leap y then 29 else 28)
  else if (m =? 4) || (m =? 6) || (m =? 9) || (m =? 11) then 30 else 31.

Definition days_before_year (y : Z) : Z :=
  let p := y - 1 in p * 365 + p / 4 - p / 100 + p / 400.

Fixpoint days_before_month_aux (y : Z) (n : nat) : Z :=
  match n with
  | O => 0
  | S k => days_before_month_aux y k + days_in_month y (Z.of_nat (S k))
  end.

Definition days_before_month (y m : Z) : Z :=
  days_before_month_aux y (Z.to_nat (m - 1)).

Definition ymd2ord (y m d : Z) : Z :=
  days_before_year y + days_before_month y m + d.

(** The range checks of the [datetime] constructor and of the fixed-offset
    time zone ([timedelta] strictly between -24h and 24h). *)
Definition datetime_valid (d : datetime) : bool :=
  (1 <=? year d) && (year d <=? 9999) &&
  (1 <=? month d) && (month d <=? 12) &&
  (1 <=? day d) && (day d <=? days_in_month (year d) (month d)) &&
  (0 <=? hour d) && (hour d <=? 23) &&
  (0 <=? minute d) && (minute d <=? 59) &&
  (0 <=? second d) && (second d <=? 59) &&
  (0 <=? microsecond d) && (microsecond d <=? 999999) &&
  match tzinfo d with
  | Some off => (-1440 <? off) && (off <? 1440)
  | None => true
  end.

(** Microseconds since the start of year 1, local time minus the offset. *)
Definition instant (d : datetime) : Z :=
  let off := match tzinfo d with Some o => o | None => 0 end in
  ((((ymd2ord (year d) (month d) (day d) * 24 + hour d) * 60
      + minute d - off) * 60) + second d) * 1000000 + microsecond d.

(** [a == b] on datetimes: aware values are equal when they denote the same
    instant, naive values when their fields agree, and an aware value never
    equals a naive one. *)
Definition datetime_eqb (a b : datetime) : bool :=
  match tzinfo a, tzinfo b with
  | Some _, Some _ | None, None => instant a =? instant b
  | _, _ => false
  end.

(** Outcome of [parse_datetime]: a value, [None] when the text does not
    match the grammar, [ValueError] when it matches but is out of range. *)
Inductive parsed :=
| Parsed (d : datetime)
| NoMatch
| OutOfRange.

(** Greedy [\d{lo,hi}]: the digits read and the rest.  Every use below is
    followed by a character that is not a digit (or by the end), so the
    regular expression engine cannot succeed with fewer digits. *)
Fixpoint span_digits (hi : nat) (s : string) : string * string :=
  match hi, s with
  | S k, String c r =>
      if is_digit c then let '(ds, rest) := span_digits k r in (String c ds, rest)
      else (EmptyString, s)
  | _, _ => (EmptyString, s)
  end.

Fixpoint int_of_digits (acc : Z) (s : string) : Z :=
  match s with
  | EmptyString => acc
  | String c r => int_of_digits (10 * acc + digit_value c) r
  end.

Definition digits (lo hi : nat) (s : string) : option (Z * string) :=
  let '(ds, rest) := span_digits hi s in
  if (lo <=? String.length ds)%nat then Some (int_of_digits 0 ds, rest) else None.

Definition expect (c : ascii) (s : string) : option string :=
  match s with
  | String a r => if Ascii.eqb a c then Some r else None
  | EmptyString => None
  end.

(** [ds.ljust(6, '0')] read as an integer, for at most six digits [ds]. *)
Definition microseconds_of (ds : string) : Z :=
  int_of_digits 0 ds * 10 ^ Z.of_nat (6 - String.length ds).

(** [(?::(?P<second>\d{1,2})(?:\.(?P<microsecond>\d{1,6})\d{0,6})?)?] *)
Definition seconds_part (s : string) : Z * Z * string :=
  match expect ":" s with
  | Some s1 =>
      match digits 1 2 s1 with
      | Some (sec, s2) =>
          match expect "." s2 with
          | Some s3 =>
              let '(us, s4) := span_digits 6 s3 in
              if (1 <=? String.length us)%nat
              then let '(_, s5) := span_digits 6 s4 in (sec, microseconds_of us, s5)
              else (sec, 0, s2)
          | None => (sec, 0, s2)
          end
      | None => (0, 0, s)
      end
  | None => (0, 0, s)
  end.

(** [(?P<tzinfo>Z|[+-]\d{2}(?::?\d{2})?)?$]: the offset in minutes, or
    [None] when the text cannot be matched up to its end. *)
Definition tz_part (s : string) : option (option Z) :=
  match s with
  | EmptyString => Some None
  | String "Z" EmptyString => Some (Some 0)
  | String sg r =>
      if Ascii.eqb sg "+"%char || Ascii.eqb sg "-"%char then
        match digits 2 2 r with
        | Some (hh, r1) =>
            let r2 := match expect ":" r1 with Some x => x | None => r1 end in
            let mins :=
              match r1 with
              | EmptyString => Some 0
              | _ => match digits 2 2 r2 with
                     | Some (mm, EmptyString) => Some mm
                     | _ => None
                     end
              end in
            match mins with
            | Some mm =>
                let off := 60 * hh + mm in
                Some (Some (if Ascii.eqb sg "-"%char then - off else off))
            | None => None
            end
        | None => None
        end
      else None
  end.

(** [django.utils.dateparse.parse_datetime], after the [datetime_re] of
    Django 3.0, the first release with the [TextChoices] that [models.py]
    uses: [YYYY-M-D], then [T] or a blank, then [h:m], optional
    [:s[.ffffff]] and an optional zone [Z] or [±HH[[:]MM]], up to the end of
    the text.  Where this gives [Parsed] or [OutOfRange], the library
    returns that value or raises [ValueError].  [NoMatch] is given both
    where the library returns [None] and for texts outside this grammar
    that it reads all the same (a newline after the zone, digits that are
    not ASCII, the forms that later releases take with
    [datetime.fromisoformat]); a property that needs the [None] states the
    form of the text. *)
Definition parse_datetime (s : string) : parsed :=
  let r :=
    '(y, s) ← digits 4 4 s; s ← expect "-" s;
    '(mo, s) ← digits 1 2 s; s ← expect "-" s;
    '(d, s) ← digits 1 2 s;
    s ← match expect "T" s with Some r => Some r | None => expect " " s end;
    '(h, s) ← digits 1 2 s; s ← expect ":" s;
    '(mi, s) ← digits 1 2 s;
    let '(sec, us, s) := seconds_part s in
    tz ← tz_part s;
    Some (mk_datetime y mo d h mi sec us tz) in
  match r with
  | Some d => if datetime_valid d then Parsed d else OutOfRange
  | None => NoMatch
  end.

End Py.


(** ** Data model ([models.py]) *)

(** Storage identities are the [uuid.uuid4] defaults of the [id] fields;
    external identifiers ([guid]) are UUID values; time is the reading of
    the wall clock. *)
Definition Id := N.
Definition Guid := N.
Definition Time := N.

Module Company.
Record t := mk { id : Id; name : string }.
End Company.

Module EyeColor.
Record t := mk { id : Id; color : string }.
End EyeColor.

Module Gender.
Record t := mk { id : Id; gender : string }.
End Gender.

Module Tag.
Record t := mk { id : Id; name : string }.
End Tag.

Module Food.
Inductive FoodTypes := FRUIT | VEGETABLE | UNCLASSIFIED.

Record t := mk { id : Id; name : string; food_type : FoodTypes }.

(** [Food.__type_lookup__] *)
Definition type_lookup (n : string) : option FoodTypes :=
  if String.eqb n "orange" then Some FRUIT
  else if String.eqb n "beetroot" then Some VEGETABLE
  else if String.eqb n "strawberry" then Some FRUIT
  else if String.eqb n "cucumber" then Some VEGETABLE
  else if String.eqb n "celery" then Some VEGETABLE
  else if String.eqb n "banana" then Some FRUIT
  else if String.eqb n "carrot" then Some VEGETABLE
  else if String.eqb n "apple" then Some FRUIT
  else None.

(** The assignment made by [Food.save] before the row is written. *)
Definition classified (f : t) : t :=
  match type_lookup (name f) with
  | Some ty => mk (id f) (name f) ty
  | None => f
  end.
End Food.

Module People.
(** The columns of a person.  [balance] holds the text under which the
    stored amount is read back ([CurrencyField.from_db_value]); the three
    foreign keys, nullable in the model, are always set by the ingestion. *)
Record t := mk {
  _id : string;
  id : Id;
  guid : Guid;
  name : string;
  eye_color_id : Id;
  gender_id : Id;
  company_id : Id;
  has_died : option bool;
  balance : string;
  picture : string;
  age : Z;
  email : string;
  phone : string;
  address : string;
  about : string;
  registered : option Py.datetime;
  greeting : string;
  is_active : bool;
  created_at : Time;
  updated_at : Time
}.

(** A [People] object in memory: its field values, whether it has not been
    written yet ([_state.adding]), and the value of an attribute named
    [active] when one was set on the object.  [active] is not a field of
    the model: on the class it names the [OnlyActiveManager], the column
    is [is_active]. *)
Record instance := mk_instance {
  fields : t;
  adding : bool;
  active : option bool
}.

Definition set_updated_at (v : Time) (o : instance) : instance :=
  let f := fields o in
  mk_instance
    (mk (_id f) (id f) (guid f) (name f) (eye_color_id f) (gender_id f)
        (company_id f) (has_died f) (balance f) (picture f) (age f) (email f)
        (phone f) (address f) (about f) (registered f) (greeting f)
        (is_active f) (created_at f) v)
    (adding o) (active o).

Definition set_active (v : bool) (o : instance) : instance :=
  mk_instance (fields o) (adding o) (Some v).

Definition set_balance (v : string) (f : t) : t :=
  mk (_id f) (id f) (guid f) (name f) (eye_color_id f) (gender_id f)
     (company_id f) (has_died f) v (picture f) (age f) (email f)
     (phone f) (address f) (about f) (registered f) (greeting f)
     (is_active f) (created_at f) (updated_at f).

Definition option_eqb {A} (eqb : A -> A -> bool) (a b : option A) : bool :=
  match a, b with
  | Some x, Some y => eqb x y
  | None, None => true
  | _, _ => false
  end.

(** [People.__eq__]: the two [__dict__]s without [created_at],
    [updated_at], [id] and [_state]. *)
Definition eq (self other : instance) : bool :=
  let a := fields self in
  let b := fields other in
  String.eqb (_id a) (_id b) && N.eqb (guid a) (guid b) &&
  String.eqb (name a) (name b) &&
  N.eqb (eye_color_id a) (eye_color_id b) &&
  N.eqb (gender_id a) (gender_id b) &&
  N.eqb (company_id a) (company_id b) &&
  option_eqb Bool.eqb (has_died a) (has_died b) &&
  String.eqb (balance a) (balance b) &&
  String.eqb (picture a) (picture b) && Z.eqb (age a) (age b) &&
  String.eqb (email a) (email b) && String.eqb (phone a) (phone b) &&
  String.eqb (address a) (address b) && String.eqb (about a) (about b) &&
  option_eqb Py.datetime_eqb (registered a) (registered b) &&
  String.eqb (greeting a) (greeting b) &&
  Bool.eqb (is_active a) (is_active b) &&
  option_eqb Bool.eqb (active self) (active other).
End People.

Module IngestedFiles.
Record t := mk {
  id : Id; companyfile_hash : string; peoplefile_hash : string;
  ingested_on : Time
}.
End IngestedFiles.

(** The decoded input files. *)
Module Json.
(** An element of [companies.json]. *)
Module Company.
Record t := mk { index : Z; company : string }.
End Company.

(** An element of [people.json]; [friends] lists the [index] of each
  friend entry. *)
Module Person.
Record t := mk {
  _id : string;
  index : Z;
  guid : string;
  has_died : option bool;
  balance : string;
  picture : string;
  age : Z;
  eyeColor : string;
  name : string;
  gender : string;
  company_id : Z;
  email : string;
  phone : string;
  address : string;
  about : string;
  registered : string;
  tags : list string;
  friends : list Z;
  greeting : string;
  favouriteFood : list string
}.
End Person.
End Json.

(** A readable file: its bytes and the value [json.load] decodes from them. *)
Record DataFile (A : Type) := mk_file { file_bytes : string; file_json : A }.
Arguments mk_file {A} _ _.
Arguments file_bytes {A} _.
Arguments file_json {A} _.

(** ** The store *)

Inductive Table :=
| TCompany | TEyeColor | TGender | TTag | TFood | TPeople | TIngestedFiles
| TPeopleTags | TPeopleToFood | TPeopleToFriend.

(** The tables.  The three relation tables hold (person, target) pairs; the
    identities of their own rows are not modelled. *)
Record DB := mk_db {
  companies : list Company.t;
  eye_colors : list EyeColor.t;
  genders : list Gender.t;
  tags : list Tag.t;
  foods : list Food.t;
  people : list People.t;
  people_tags : list (Id * Id);
  people_to_food : list (Id * Id);
  people_to_friend : list (Id * Id);
  ingested_files : list IngestedFiles.t
}.

Definition empty_db : DB := mk_db [] [] [] [] [] [] [] [] [] [].

(** A statement that changes the store. *)
Inductive Write :=
| Insert (t : Table) (pk : Id)
| Update (t : Table) (pk : Id)
| RelAdd (t : Table) (source : Id) (targets : list Id)
| RelRemove (t : Table) (source : Id) (targets : list Id).

(** The state a run acts on: the store, the statements issued so far (most
    recent last), the next [uuid4] value and the clock.  [uuid4] is modelled
    as a supply of identities that never repeats, the clock as a counter
    that advances at each reading. *)
Record World := mk_world {
  db : DB;
  writes : list Write;
  next_uuid : Id;
  clock : Time
}.

Definition empty_world : World := mk_world empty_db [] 1%N 0%N.

(** ** Exceptions and the run monad *)

Inductive Exn :=
| KeyError | ValueError | AssertionError | IntegrityError
| MultipleObjectsReturned.

Inductive result (A : Type) :=
| Ok (a : A)
| Raise (e : Exn).
Arguments Ok {A} _.
Arguments Raise {A} _.

Definition M (A : Type) : Type := World -> World * result A.

Definition ret {A} (a : A) : M A := fun w => (w, Ok a).

Definition bind {A B} (m : M A) (k : A -> M B) : M B :=
  fun w => match m w with
           | (w', Ok a) => k a w'
           | (w', Raise e) => (w', Raise e)
           end.

Definition raise {A} (e : Exn) : M A := fun w => (w, Raise e).

Declare Scope run_scope.
Delimit Scope run_scope with run.
Notation "x <- m ;; k" := (bind m (fun x => k))
  (at level 100, m at next level, right associativity) : run_scope.
Notation "m ;;; k" := (bind m (fun _ => k))
  (at level 100, right associativity) : run_scope.
Local Open Scope run_scope.

Definition get_db : M DB := fun w => (w, Ok (db w)).

Definition put_db (d : DB) : M unit :=
  fun w => (mk_world d (writes w) (next_uuid w) (clock w), Ok tt).

Definition log (x : Write) : M unit :=
  fun w => (mk_world (db w) (writes w ++ [x]) (next_uuid w) (clock w), Ok tt).

(** [uuid.uuid4()] *)
Definition uuid4 : M Id :=
  fun w => (mk_world (db w) (writes w) (N.succ (next_uuid w)) (clock w),
            Ok (next_uuid w)).

(** [timezone.now()] *)
Definition timezone_now : M Time :=
  fun w => (mk_world (db w) (writes w) (next_uuid w) (N.succ (clock w)),
            Ok (clock w)).

(** [d[k]] on a dictionary. *)
Definition getitem {K V} `{Countable K} (d : gmap K V) (k : K) : M V :=
  match d !! k with
  | Some v => ret v
  | None => raise KeyError
  end.

(** [for x in l: acc = body(acc, x)] *)
Fixpoint for_each {A S} (l : list A) (body : S -> A -> M S) (acc : S) : M S :=
  match l with
  | [] => ret acc
  | x :: r => acc' <- body acc x;; for_each r body acc'
  end.

(** [[f(x) for x in l]] *)
Fixpoint comprehension {A B} (f : A -> M B) (l : list A) : M (list B) :=
  match l with
  | [] => ret []
  | x :: r => y <- f x;; ys <- comprehension f r;; ret (y :: ys)
  end.

Definition assert (b : bool) : M unit :=
  if b then ret tt else raise AssertionError.

(** ** Tables, queries and statements *)

Definition with_companies (l : list Company.t) (d : DB) : DB :=
  mk_db l (eye_colors d) (genders d) (tags d) (foods d) (people d)
        (people_tags d) (people_to_food d) (people_to_friend d) (ingested_files d).
Definition with_eye_colors (l : list EyeColor.t) (d : DB) : DB :=
  mk_db (companies d) l (genders d) (tags d) (foods d) (people d)
        (people_tags d) (people_to_food d) (people_to_friend d) (ingested_files d).
Definition with_genders (l : list Gender.t) (d : DB) : DB :=
  mk_db (companies d) (eye_colors d) l (tags d) (foods d) (people d)
        (people_tags d) (people_to_food d) (people_to_friend d) (ingested_files d).
Definition with_tags (l : list Tag.t) (d : DB) : DB :=
  mk_db (companies d) (eye_colors d) (genders d) l (foods d) (people d)
        (people_tags d) (people_to_food d) (people_to_friend d) (ingested_files d).
Definition with_foods (l : list Food.t) (d : DB) : DB :=
  mk_db (companies d) (eye_colors d) (genders d) (tags d) l (people d)
        (people_tags d) (people_to_food d) (people_to_friend d) (ingested_files d).
Definition with_people (l : list People.t) (d : DB) : DB :=
  mk_db (companies d) (eye_colors d) (genders d) (tags d) (foods d) l
        (people_tags d) (people_to_food d) (people_to_friend d) (ingested_files d).
Definition with_people_tags (l : list (Id * Id)) (d : DB) : DB :=
  mk_db (companies d) (eye_colors d) (genders d) (tags d) (foods d) (people d)
        l (people_to_food d) (people_to_friend d) (ingested_files d).
Definition with_people_to_food (l : list (Id * Id)) (d : DB) : DB :=
  mk_db (companies d) (eye_colors d) (genders d) (tags d) (foods d) (people d)
        (people_tags d) l (people_to_friend d) (ingested_files d).
Definition with_people_to_friend (l : list (Id * Id)) (d : DB) : DB :=
  mk_db (companies d) (eye_colors d) (genders d) (tags d) (foods d) (people d)
        (people_tags d) (people_to_food d) l (ingested_files d).
Definition with_ingested_files (l : list IngestedFiles.t) (d : DB) : DB :=
  mk_db (companies d) (eye_colors d) (genders d) (tags d) (foods d) (people d)
        (people_tags d) (people_to_food d) (people_to_friend d) l.

Definition has_pk {R} (pk : R -> Id) (i : Id) (l : list R) : bool :=
  existsb (fun r => N.eqb (pk r) i) l.

(** [UPDATE ... WHERE id = pk r] *)
Fixpoint replace_row {R} (pk : R -> Id) (r : R) (l : list R) : list R :=
  match l with
  | [] => []
  | x :: t => (if N.eqb (pk x) (pk r) then r else x) :: replace_row pk r t
  end.

(** A model whose rows are looked up by one natural-key field: what
    [create_lookup] needs of its [object_model] and [lookup_field]
    arguments.  [lm_new i v] is the row written for
    [Model(lookup_field=v)] with primary key [i]. *)
Class LookupModel (R : Type) := {
  lm_table : Table;
  lm_all : DB -> list R;
  lm_with : list R -> DB -> DB;
  lm_pk : R -> Id;
  lm_field : R -> string;
  lm_new : Id -> string -> R
}.

#[export] Instance Food_model : LookupModel Food.t := {|
  lm_table := TFood; lm_all := foods; lm_with := with_foods;
  lm_pk := Food.id; lm_field := Food.name;
  lm_new := fun i v => Food.classified (Food.mk i v Food.UNCLASSIFIED)
|}.

#[export] Instance Tag_model : LookupModel Tag.t := {|
  lm_table := TTag; lm_all := tags; lm_with := with_tags;
  lm_pk := Tag.id; lm_field := Tag.name; lm_new := Tag.mk
|}.

#[export] Instance Gender_model : LookupModel Gender.t := {|
  lm_table := TGender; lm_all := genders; lm_with := with_genders;
  lm_pk := Gender.id; lm_field := Gender.gender; lm_new := Gender.mk
|}.

#[export] Instance EyeColor_model : LookupModel EyeColor.t := {|
  lm_table := TEyeColor; lm_all := eye_colors; lm_with := with_eye_colors;
  lm_pk := EyeColor.id; lm_field := EyeColor.color; lm_new := EyeColor.mk
|}.

(** [Model.objects.get_or_create(lookup_field=value)].  The primary
    key of a created row is its [uuid4] default. *)
Definition get_or_create {R} `{LookupModel R} (value : string) : M (R * bool) :=
  d <- get_db;;
  match List.filter (fun r => String.eqb (lm_field r) value) (lm_all d) with
  | [r] => ret (r, false)
  | [] =>
      i <- uuid4;;
      if has_pk lm_pk i (lm_all d) then raise IntegrityError
      else
        let r := lm_new i value in
        put_db (lm_with (lm_all d ++ [r]) d);;;
        log (Insert lm_table i);;;
        ret (r, true)
  | _ => raise MultipleObjectsReturned
  end.

(** [item.save()] on an object obtained from the store. *)
Definition lm_save {R} `{LookupModel R} (r : R) : M unit :=
  d <- get_db;;
  if has_pk lm_pk (lm_pk r) (lm_all d) then
    put_db (lm_with (replace_row lm_pk r (lm_all d)) d);;;
    log (Update lm_table (lm_pk r))
  else
    put_db (lm_with (lm_all d ++ [r]) d);;;
    log (Insert lm_table (lm_pk r)).

(** [Company(name=n).save()]: an insert, refused when the primary key or the
    unique name is taken. *)
Definition Company_create (n : string) : M Company.t :=
  i <- uuid4;;
  d <- get_db;;
  if has_pk Company.id i (companies d)
     || existsb (fun c => String.eqb (Company.name c) n) (companies d)
  then raise IntegrityError
  else
    let c := Company.mk i n in
    put_db (with_companies (companies d ++ [c]) d);;;
    log (Insert TCompany i);;;
    ret c.

(** [ORDER BY name] ([Meta.ordering] of [People]); rows with equal names
    keep their table order. *)
Fixpoint insert_by_name (r : People.t) (l : list People.t) : list People.t :=
  match l with
  | [] => [r]
  | x :: t => if String.leb (People.name r) (People.name x)
              then r :: l else x :: insert_by_name r t
  end.

Definition order_by_name (l : list People.t) : list People.t :=
  fold_right insert_by_name [] l.

(** [OnlyActiveManager.get_queryset()] *)
Definition OnlyActiveManager (d : DB) : list People.t :=
  order_by_name (List.filter People.is_active (people d)).

Definition mem_guid (g : Guid) (l : list Guid) : bool := existsb (N.eqb g) l.
Definition mem_id (i : Id) (l : list Id) : bool := existsb (N.eqb i) l.

Definition pair_eqb (a b : Id * Id) : bool :=
  N.eqb (fst a) (fst b) && N.eqb (snd a) (snd b).

Definition related (rel : list (Id * Id)) (source target : Id) : bool :=
  existsb (pair_eqb (source, target)) rel.

(** [People.active.filter(guid=g)] *)
Definition active_with_guid (g : Guid) (d : DB) : list People.t :=
  List.filter (fun r => N.eqb (People.guid r) g) (OnlyActiveManager d).

(** [People.active.filter(guid__in=gs)] *)
Definition active_with_guid_in (gs : list Guid) (d : DB) : list People.t :=
  List.filter (fun r => mem_guid (People.guid r) gs) (OnlyActiveManager d).

(** [person.friends.all()]: the rows related to [source] through
    [PeopleToFriend], by the default manager [object] (no filter). *)
Definition friends_all (source : Id) (d : DB) : list People.t :=
  order_by_name
    (List.filter (fun r => related (people_to_friend d) source (People.id r))
                 (people d)).

(** [person.favourite_food.all()] and [person.tags.all()] *)
Definition favourite_food_all (source : Id) (d : DB) : list Food.t :=
  List.filter (fun r => related (people_to_food d) source (Food.id r)) (foods d).

Definition tags_all (source : Id) (d : DB) : list Tag.t :=
  List.filter (fun r => related (people_tags d) source (Tag.id r)) (tags d).

(** [set(a) == set(b)] *)
Definition set_eqb (a b : list N) : bool :=
  forallb (fun x => existsb (N.eqb x) b) a &&
  forallb (fun x => existsb (N.eqb x) a) b.

Fixpoint dedup (l : list Id) : list Id :=
  match l with
  | [] => []
  | x :: t => x :: List.filter (fun y => negb (N.eqb y x)) (dedup t)
  end.

(** The loop of [manager.set(objs)] over [objs]: an object found in
    [old_ids] is taken out of it, any other is appended to [new_objs].
    Returns what is left of [old_ids], and [new_objs]. *)
Fixpoint set_partition (old_ids objs : list Id) : list Id * list Id :=
  match objs with
  | [] => (old_ids, [])
  | obj :: r =>
      if mem_id obj old_ids
      then set_partition (List.filter (fun y => negb (N.eqb y obj)) old_ids) r
      else let '(old, new_objs) := set_partition old_ids r in (old, obj :: new_objs)
  end.

(** [manager.set(objs)] on a many-to-many relation, given the identities
    the manager currently relates to [source]: [remove] deletes the pairs
    of the targets no longer listed, [add] inserts a pair for each listed
    target not yet related, and neither issues a statement for an empty
    set. *)
Definition relation_set (t : Table) (rel : DB -> list (Id * Id))
    (with_rel : list (Id * Id) -> DB -> DB)
    (source : Id) (related_ids objs : list Id) : M unit :=
  let '(old_ids, new_objs) := set_partition (dedup related_ids) objs in
  (if old_ids is [] then ret tt
   else
     d <- get_db;;
     put_db (with_rel
       (List.filter (fun p => negb (N.eqb (fst p) source && mem_id (snd p) old_ids))
                    (rel d)) d);;;
     log (RelRemove t source old_ids));;;
  d <- get_db;;
  let missing :=
    List.filter (fun i => negb (related (rel d) source i)) (dedup new_objs) in
  if missing is [] then ret tt
  else
    put_db (with_rel (rel d ++ map (fun i => (source, i)) missing)%list d);;;
    log (RelAdd t source missing).

Definition tags_set (o : People.instance) (objs : list Id) : M unit :=
  d <- get_db;;
  relation_set TPeopleTags people_tags with_people_tags
    (People.id (People.fields o))
    (map Tag.id (tags_all (People.id (People.fields o)) d)) objs.

Definition favourite_food_set (o : People.instance) (objs : list Id) : M unit :=
  d <- get_db;;
  relation_set TPeopleToFood people_to_food with_people_to_food
    (People.id (People.fields o))
    (map Food.id (favourite_food_all (People.id (People.fields o)) d)) objs.

Definition friends_set (o : People.instance) (objs : list Id) : M unit :=
  d <- get_db;;
  relation_set TPeopleToFriend people_to_friend with_people_to_friend
    (People.id (People.fields o))
    (map People.id (friends_all (People.id (People.fields o)) d)) objs.

(** An object read from the store. *)
Definition from_db (r : People.t) : People.instance :=
  People.mk_instance r false None.

(** ** The ingestion functions ([data_ingestion.py]) *)

Section Ingestion.

(** [currency_db_text v] is the text under which a balance written as the
    text [v] is read back from the store, that is
    [CurrencyField.to_python (CurrencyField.get_db_prep_value v)], and
    [None] when [float] rejects [v].  The floating-point conversion itself
    is left open. *)
Variable currency_db_text : string -> option string.

(** [hashlib.md5(bytes).hexdigest()] *)
Variable md5_hexdigest : string -> string.

(** [People.save()]: a first save inserts, a later one updates the row of
    that primary key.  The value of [balance] goes through the currency
    field, [registered] is a non-null column, and only model fields are
    written. *)
Definition People_save (o : People.instance) : M People.instance :=
  let f := People.fields o in
  match currency_db_text (People.balance f) with
  | None => raise ValueError
  | Some b =>
      match People.registered f with
      | None => raise IntegrityError
      | Some _ =>
          d <- get_db;;
          let row := People.set_balance b f in
          let present := has_pk People.id (People.id f) (people d) in
          if People.adding o && present then raise IntegrityError
          else
            (if present then
               put_db (with_people (replace_row People.id row (people d)) d);;;
               log (Update TPeople (People.id f))
             else
               put_db (with_people (people d ++ [row]) d);;;
               log (Insert TPeople (People.id f)));;;
            ret (People.mk_instance f false (People.active o))
      end
  end.

(** *** [create_lookup] *)

(** The body of the loop: a value that is not a key of [lookup] is fetched
    or created, saved when it was created, and entered in [lookup]. *)
Definition lookup_step {R} `{LookupModel R} (lookup : gmap string R)
    (value : string) : M (gmap string R) :=
  match lookup !! value with
  | Some _ => ret lookup
  | None =>
      r <- get_or_create value;;
      let '(this_item, created) := r in
      (if created then lm_save this_item else ret tt);;;
      ret (<[value := this_item]> lookup)
  end.

(** The [lookup_field] argument is the natural-key field of the model
    instance.  A missing or empty [existing_lookup] starts from an empty
    dictionary. *)
Definition create_lookup {R} `{LookupModel R} (field_values : list string)
    (existing_lookup : option (gmap string R)) : M (gmap string R) :=
  let lookup := match existing_lookup with
                | Some l => l
                | None => ∅
                end in
  for_each field_values lookup_step lookup.

(** *** [ingest_companies] *)

Definition ingest_companies (file : DataFile (list Json.Company.t))
  : M (gmap Z Company.t) :=
  d <- get_db;;
  let company_name_lookup : gmap string Company.t :=
    fold_left (fun m company => <[Company.name company := company]> m)
              (companies d) ∅ in
  let new_companies := file_json file in
  let new_company_indexes := map Json.Company.index new_companies in
  assert (Nat.eqb (length new_companies)
                  (length (remove_dups new_company_indexes)));;;
  let new_company_names := map Json.Company.company new_companies in
  assert (Nat.eqb (length new_companies)
                  (length (remove_dups new_company_names)));;;
  for_each new_companies
    (fun (company_index_lookup : gmap Z Company.t) company =>
       this_company <-
         match company_name_lookup !! Json.Company.company company with
         | Some c => ret c
         | None => Company_create (Json.Company.company company)
         end;;
       ret (<[Json.Company.index company := this_company]> company_index_lookup))
    ∅.

(** *** [ingest_people] *)

(** [d[k] = ''] on a dictionary used as an ordered set of keys. *)
Definition add_key (k : string) (keys : list string) : list string :=
  if existsb (String.eqb k) keys then keys else (keys ++ [k])%list.

(** The dictionaries filled by the first loop. *)
Record Harvest := mk_harvest {
  eyecolors : list string;
  genders_seen : list string;
  tags_seen : list string;
  foods_seen : list string;
  people_index_uuid : gmap Z Guid
}.

Definition uuid_UUID (s : string) : M Guid :=
  match Py.UUID s with
  | Some g => ret g
  | None => raise ValueError
  end.

Definition harvest_person (h : Harvest) (person : Json.Person.t) : M Harvest :=
  g <- uuid_UUID (Json.Person.guid person);;
  ret (mk_harvest
         (add_key (Json.Person.eyeColor person) (eyecolors h))
         (add_key (Json.Person.gender person) (genders_seen h))
         (fold_left (fun acc tag => add_key tag acc)
                    (Json.Person.tags person) (tags_seen h))
         (fold_left (fun acc food => add_key food acc)
                    (Json.Person.favouriteFood person) (foods_seen h))
         (<[Json.Person.index person := g]> (people_index_uuid h))).

Definition harvest (people : list Json.Person.t) : M Harvest :=
  for_each people harvest_person (mk_harvest [] [] [] [] ∅).

(** The lookups the second loop reads. *)
Record Lookups := mk_lookups {
  company_lookup : gmap Z Company.t;
  foods_lookup : gmap string Food.t;
  tags_lookup : gmap string Tag.t;
  gender_lookup : gmap string Gender.t;
  eye_color_lookup : gmap string EyeColor.t;
  index_uuid : gmap Z Guid
}.

(** [parse_datetime(person['registered'].replace(' ', ''))] *)
Definition parse_registered (registered : string) : M (option Py.datetime) :=
  match Py.parse_datetime (Py.remove_spaces registered) with
  | Py.Parsed d => ret (Some d)
  | Py.NoMatch => ret None
  | Py.OutOfRange => raise ValueError
  end.

(** What the second loop resolves for a record before it builds the
    object: the identities of its foods and tags, the external identifiers
    of its friends, its timestamp, external identifier and foreign keys. *)
Record Resolved := mk_resolved {
  r_foods : list Id;
  r_tags : list Id;
  r_friends : list Guid;
  r_registered : option Py.datetime;
  r_guid : Guid;
  r_company : Company.t;
  r_gender : Gender.t;
  r_eye_color : EyeColor.t
}.

Definition resolve (lk : Lookups) (person : Json.Person.t) : M Resolved :=
  current_persons_foods <-
    comprehension (fun this_food => f <- getitem (foods_lookup lk) this_food;;
                                    ret (Food.id f))
                  (Json.Person.favouriteFood person);;
  current_persons_tags <-
    comprehension (fun this_tag => t <- getitem (tags_lookup lk) this_tag;;
                                   ret (Tag.id t))
                  (Json.Person.tags person);;
  current_persons_friends <-
    comprehension (fun friend => getitem (index_uuid lk) friend)
                  (Json.Person.friends person);;
  registered <- parse_registered (Json.Person.registered person);;
  guid <- uuid_UUID (Json.Person.guid person);;
  company <- getitem (company_lookup lk) (Json.Person.company_id person - 1);;
  gender <- getitem (gender_lookup lk) (Json.Person.gender person);;
  eye_color <- getitem (eye_color_lookup lk) (Json.Person.eyeColor person);;
  ret (mk_resolved current_persons_foods current_persons_tags
                   current_persons_friends registered guid company gender
                   eye_color).

(** [People] applied to the record's entries: an unsaved object; [id], [created_at] and
    [updated_at] take their defaults, [is_active] is true. *)
Definition People_init (person : Json.Person.t) (r : Resolved) : M People.instance :=
  i <- uuid4;;
  created <- timezone_now;;
  updated <- timezone_now;;
  ret (People.mk_instance
         (People.mk (Json.Person._id person) i (r_guid r) (Json.Person.name person)
                    (EyeColor.id (r_eye_color r)) (Gender.id (r_gender r))
                    (Company.id (r_company r)) (Json.Person.has_died person)
                    (Json.Person.balance person) (Json.Person.picture person)
                    (Json.Person.age person) (Json.Person.email person)
                    (Json.Person.phone person)
                    (Json.Person.address person) (Json.Person.about person)
                    (r_registered r) (Json.Person.greeting person)
                    true created updated)
         true None).

(** The comparison that decides whether the stored version stands. *)
Definition unchanged (d : DB) (current_person existing_person : People.instance)
    (r : Resolved) : bool :=
  let existing_id := People.id (People.fields existing_person) in
  let existing_foods := map Food.id (favourite_food_all existing_id d) in
  let existing_tags := map Tag.id (tags_all existing_id d) in
  let existing_friends := map People.guid (friends_all existing_id d) in
  People.eq current_person existing_person
  && set_eqb existing_foods (r_foods r)
  && set_eqb existing_friends (r_friends r)
  && set_eqb existing_tags (r_tags r).

Definition Combo : Type := People.instance * list Guid.

(** Saving a new version: the row, its tags and foods, and the entry for
    the friends to link later. *)
Definition save_new (current_person : People.instance) (r : Resolved)
    (person_friends_combos : list Combo) : M (list Combo) :=
  current_person <- People_save current_person;;
  tags_set current_person (r_tags r);;;
  favourite_food_set current_person (r_foods r);;;
  current_person <- People_save current_person;;
  ret (person_friends_combos ++ [(current_person, r_friends r)])%list.

(** Shutting out the old record: [updated_at] is stamped, the attribute
    [active] is set on the object, and the object is saved. *)
Definition shut_out (existing_person : People.instance) : M People.instance :=
  now <- timezone_now;;
  let existing_person := People.set_updated_at now existing_person in
  let existing_person := People.set_active false existing_person in
  People_save existing_person.

(** The body of the second loop. *)
Definition reconcile (lk : Lookups) (person_friends_combos : list Combo)
    (person : Json.Person.t) : M (list Combo) :=
  r <- resolve lk person;;
  current_person <- People_init person r;;
  d <- get_db;;
  match active_with_guid (People.guid (People.fields current_person)) d with
  | row :: _ =>
      let existing_person := from_db row in
      if negb (unchanged d current_person existing_person r) then
        shut_out existing_person;;;
        save_new current_person r person_friends_combos
      else ret person_friends_combos
  | [] => save_new current_person r person_friends_combos
  end.

(** The body of the last loop. *)
Definition link_friends (_ : unit) (combo : Combo) : M unit :=
  let '(person, friends) := combo in
  d <- get_db;;
  friends_set person (map People.id (active_with_guid_in friends d));;;
  People_save person;;;
  ret tt.

(** The first loop and the four calls of [create_lookup] that follow it. *)
Definition build_lookups (people : list Json.Person.t)
    (company_lookup : gmap Z Company.t) : M Lookups :=
  h <- harvest people;;
  foods_lookup <- create_lookup (R := Food.t) (foods_seen h) None;;
  tags_lookup <- create_lookup (R := Tag.t) (tags_seen h) None;;
  gender_lookup <- create_lookup (R := Gender.t) (genders_seen h) None;;
  eye_color_lookup <- create_lookup (R := EyeColor.t) (eyecolors h) None;;
  ret (mk_lookups company_lookup foods_lookup tags_lookup gender_lookup
                  eye_color_lookup (people_index_uuid h)).

Definition ingest_people (file : DataFile (list Json.Person.t))
    (company_lookup : gmap Z Company.t) : M unit :=
  let people := file_json file in
  lk <- build_lookups people company_lookup;;
  person_friends_combos <- for_each people (reconcile lk) [];;
  for_each person_friends_combos link_friends tt.

(** *** [get_hash] and [ingest_data] *)

Definition get_hash {A} (file : DataFile A) : string :=
  md5_hexdigest (file_bytes file).

Definition IngestedFiles_create (companyfile_hash peoplefile_hash : string)
  : M unit :=
  i <- uuid4;;
  t <- timezone_now;;
  d <- get_db;;
  if has_pk IngestedFiles.id i (ingested_files d) then raise IntegrityError
  else
    put_db (with_ingested_files
              (ingested_files d
                 ++ [IngestedFiles.mk i companyfile_hash peoplefile_hash t]) d);;;
    log (Insert TIngestedFiles i).

Definition ingest_data (company_file : DataFile (list Json.Company.t))
    (people_file : DataFile (list Json.Person.t)) : M unit :=
  let companyfile_hash := get_hash company_file in
  let peoplefile_hash := get_hash people_file in
  d <- get_db;;
  match List.filter
          (fun f => String.eqb (IngestedFiles.companyfile_hash f) companyfile_hash
                    && String.eqb (IngestedFiles.peoplefile_hash f) peoplefile_hash)
          (ingested_files d) with
  | [] =>
      company_lookup <- ingest_companies company_file;;
      ingest_people people_file company_lookup;;;
      IngestedFiles_create companyfile_hash peoplefile_hash
  | _ :: _ => ret tt
  end.

End Ingestion.

(** ** The endpoints ([views.py]) and the start-up hook ([apps.py]) *)

(** Further library functions: [str(uuid)], [str.split], [in] on strings
    and [str.join]. *)
Module Text.

Definition hex_digit (n : N) : ascii :=
  if (n <? 10)%N then ascii_of_N (48 + n) else ascii_of_N (87 + n).

(** The last [digits] hexadecimal digits of [n], before [acc]. *)
Fixpoint hex_of (digits : nat) (n : N) (acc : string) : string :=
  match digits with
  | O => acc
  | S k => hex_of k (n / 16)%N (String (hex_digit (n mod 16)%N) acc)
  end.

(** [str(u)] for a [uuid.UUID] of value [g]: 32 hexadecimal digits in
    groups of 8, 4, 4, 4 and 12. *)
Definition str_UUID (g : N) : string :=
  let h := hex_of 32 g EmptyString in
  String.append (substring 0 8 h) (String "-"
    (String.append (substring 8 4 h) (String "-"
      (String.append (substring 12 4 h) (String "-"
        (String.append (substring 16 4 h) (String "-" (substring 20 12 h)))))))).

(** [s.split(c)] for a one-character separator. *)
Fixpoint split (c : ascii) (s : string) : list string :=
  match s with
  | EmptyString => [EmptyString]
  | String a r =>
      if Ascii.eqb a c then EmptyString :: split c r
      else match split c r with
           | x :: xs => String a x :: xs
           | [] => [String a EmptyString]
           end
  end.

(** [needle in hay] *)
Fixpoint contains (needle hay : string) : bool :=
  match Py.drop_prefix needle hay with
  | Some _ => true
  | None => match hay with
            | EmptyString => false
            | String _ r => contains needle r
            end
  end.

(** [''.join(l)] *)
Fixpoint join (l : list string) : string :=
  match l with
  | [] => EmptyString
  | x :: r => String.append x (join r)
  end.

End Text.

Module Views.

(** The exceptions that the views do not turn into a response;
    [ValidationError] is what a [UUIDField] raises for a text that is not a
    UUID. *)
Inductive Error :=
| DoesNotExist | MultipleObjectsReturned | IndexError | ValidationError.

(** What a view does with a request: it returns a [JsonResponse], raises
    [Http404] with a message, or lets an exception through. *)
Inductive answer (A : Type) :=
| JsonResponse (payload : A)
| Http404 (message : string)
| Uncaught (e : Error).
Arguments JsonResponse {A} _.
Arguments Http404 {A} _.
Arguments Uncaught {A} _.

(** [queryset.get()] *)
Definition get {R} (rows : list R) : Error + R :=
  match rows with
  | [] => inl DoesNotExist
  | [r] => inr r
  | _ :: _ :: _ => inl MultipleObjectsReturned
  end.

(** [{'company': ..., 'employees': [{'name': ...}, ...]}] *)
Record CompanyPayload := mk_company_payload {
  company_name : string;
  employees : list string
}.

(** [company(request, company_name)] *)
Definition company (d : DB) (company_name : string) : answer CompanyPayload :=
  match get (List.filter (fun c => String.eqb (Company.name c) company_name)
                         (companies d)) with
  | inr company =>
      let employees :=
        List.filter (fun p => N.eqb (People.company_id p) (Company.id company))
                    (OnlyActiveManager d) in
      JsonResponse (mk_company_payload company_name (map People.name employees))
  | inl DoesNotExist =>
      Http404 (String.append "Company, "
                 (String.append company_name ", does not exist"))
  | inl e => Uncaught e
  end.

(** [validate_people(person_uuids)] *)
Fixpoint validate_people (d : DB) (person_uuids : list string) : answer unit :=
  match person_uuids with
  | [] => JsonResponse tt
  | person :: rest =>
      match Py.UUID person with
      | Some this_uuid =>
          match get (active_with_guid this_uuid d) with
          | inr _ => validate_people d rest
          | inl DoesNotExist =>
              Http404 (String.append "No record for person: "
                         (Text.str_UUID this_uuid))
          | inl e => Uncaught e
          end
      | None =>
          Http404 (String.append person
                     " : is not a valid guid. Check that it is not malformed")
      end
  end.

(** [UUIDField.to_python] on the texts given to a lookup on [guid]. *)
Fixpoint to_python (texts : list string) : Error + list Guid :=
  match texts with
  | [] => inr []
  | text :: rest =>
      match Py.UUID text, to_python rest with
      | Some g, inr gs => inr (g :: gs)
      | _, _ => inl ValidationError
      end
  end.

(** [{'name': ..., 'age': ..., 'address': ..., 'phone': ...}] *)
Record Individual := mk_individual {
  i_name : string;
  i_age : Z;
  i_address : string;
  i_phone : string
}.

Record CommonFriendsPayload := mk_common_friends_payload {
  individuals_details : list Individual;
  common_browneyed_alive_friends : list string
}.

(** [set(friend.guid for friend in person.friends.filter(eye_color=
    EyeColor.objects.get(color='brown'), has_died=False))] *)
Definition friend_set (d : DB) (person : People.t) : Error + list Guid :=
  match get (List.filter (fun e => String.eqb (EyeColor.color e) "brown")
                         (eye_colors d)) with
  | inr brown =>
      inr (dedup
             (map People.guid
                (List.filter
                   (fun f => N.eqb (People.eye_color_id f) (EyeColor.id brown)
                             && People.option_eqb Bool.eqb (People.has_died f)
                                                  (Some false))
                   (friends_all (People.id person) d))))
  | inl e => inl e
  end.

Fixpoint friend_sets (d : DB) (people : list People.t) : Error + list (list Guid) :=
  match people with
  | [] => inr []
  | person :: rest =>
      match friend_set d person with
      | inr s => match friend_sets d rest with
                 | inr ss => inr (s :: ss)
                 | inl e => inl e
                 end
      | inl e => inl e
      end
  end.

(** [a.intersection(b)] *)
Definition intersection (a b : list Guid) : list Guid :=
  List.filter (fun g => mem_guid g b) a.

(** [commonfriends(request, people_uuids)] *)
Definition commonfriends (d : DB) (people_uuids : string)
  : answer CommonFriendsPayload :=
  let input_uuids := Text.split ":" people_uuids in
  match validate_people d input_uuids with
  | JsonResponse _ =>
      match to_python input_uuids with
      | inr guids =>
          let people := active_with_guid_in guids d in
          match friend_sets d people with
          | inr [] => Uncaught IndexError
          | inr (first :: others) =>
              let reference_set := fold_left intersection others first in
              let common_friends :=
                map People.name (active_with_guid_in reference_set d) in
              JsonResponse
                (mk_common_friends_payload
                   (map (fun p => mk_individual (People.name p) (People.age p)
                                                (People.address p) (People.phone p))
                        people)
                   common_friends)
          | inl e => Uncaught e
          end
      | inl e => Uncaught e
      end
  | Http404 message => Http404 message
  | Uncaught e => Uncaught e
  end.

(** ['{}s'.format(FoodTypes(food.food_type).label.lower())] *)
Definition label (ty : Food.FoodTypes) : string :=
  match ty with
  | Food.FRUIT => "fruits"
  | Food.VEGETABLE => "vegetables"
  | Food.UNCLASSIFIED => "unclassifieds"
  end.

(** [if label not in d: d[label] = []] and [d[label].append(name)], on a
    dictionary kept in insertion order. *)
Fixpoint categorise (label name : string) (categorised_foods : list (string * list string))
  : list (string * list string) :=
  match categorised_foods with
  | [] => [(label, [name])]
  | (l, names) :: rest =>
      if String.eqb l label then (l, names ++ [name]) :: rest
      else (l, names) :: categorise label name rest
  end.

(** [{'name': ..., 'age': ..., category: [...], ...}] *)
Record FoodsPayload := mk_foods_payload {
  f_name : string;
  f_age : Z;
  f_categories : list (string * list string)
}.

(** [favourite_foods(request, person_uuid)] *)
Definition favourite_foods (d : DB) (person_uuid : string) : answer FoodsPayload :=
  match validate_people d [person_uuid] with
  | JsonResponse _ =>
      match Py.UUID person_uuid with
      | Some guid =>
          match get (active_with_guid guid d) with
          | inr person =>
              let categorised_foods :=
                fold_left (fun acc food =>
                             categorise (label (Food.food_type food))
                                        (Food.name food) acc)
                          (favourite_food_all (People.id person) d) [] in
              JsonResponse (mk_foods_payload (People.name person) (People.age person)
                                             categorised_foods)
          | inl e => Uncaught e
          end
      | None => Uncaught ValidationError
      end
  | Http404 message => Http404 message
  | Uncaught e => Uncaught e
  end.

End Views.

Section StartUp.

Variable currency_db_text : string -> option string.
Variable md5_hexdigest : string -> string.

(** [ForchecktoporovConfig.ready], for the command line [argv] and the two
    files of the resources directory. *)
Definition ready (argv : list string)
    (company_file : DataFile (list Json.Company.t))
    (people_file : DataFile (list Json.Person.t)) : M unit :=
  if negb (Text.contains "migrate" (Text.join argv))
     && negb (Text.contains "makemigrations" (Text.join argv))
  then ingest_data currency_db_text md5_hexdigest company_file people_file
  else ret tt.

End StartUp.

(** ** Vocabulary of the properties *)

(** Two records of the file at different positions carry the same value in
    the field [f]. *)
Definition shares {A B} (f : A -> B) (l : list A) : Prop :=
  exists i j a b, i <> j /\ l !! i = Some a /\ l !! j = Some b /\ f a = f b.

(** The texts the timestamp is written in: [YYYY-MM-DD], a separator,
    [HH:MM], a gap, and the offset [+HH:MM] or [-HH:MM], with two-digit
    fields. *)
Definition digit_char (d : Z) : ascii := ascii_of_N (Z.to_N (48 + d)).

Definition two_digits (n : Z) (rest : string) : string :=
  String (digit_char (n / 10)) (String (digit_char (n mod 10)) rest).

Definition four_digits (n : Z) (rest : string) : string :=
  String (digit_char (n / 1000))
    (String (digit_char (n / 100 mod 10)) (two_digits (n mod 100) rest)).

Definition registered_text (sep : ascii) (gap : string) (y mo d h mi : Z)
    (west : bool) (oh om : Z) : string :=
  four_digits y (String "-" (two_digits mo (String "-" (two_digits d
    (String sep (two_digits h (String ":" (two_digits mi
      (String.append gap
         (String (if west then "-" else "+")%char
            (two_digits oh (String ":" (two_digits om EmptyString)))))))))))))%char.

(** The timestamp such a text denotes. *)
Definition registered_value (y mo d h mi : Z) (west : bool) (oh om : Z)
  : Py.datetime :=
  Py.mk_datetime y mo d h mi 0 0
    (Some (if west then - (60 * oh + om) else 60 * oh + om)).

(** What the proofs need of a model: the table is read back as written, and
    a new row carries the key and the value it was made from. *)
Class LookupModelLaws (R : Type) `{LookupModel R} := {
  lm_all_with : forall l d, lm_all (lm_with l d) = l;
  lm_new_pk : forall i v, lm_pk (lm_new i v) = i;
  lm_new_field : forall i v, lm_field (lm_new i v) = v
}.

(** The values of [values] that are not in [known], each once, in order of
    first appearance. *)
Fixpoint new_values (known values : list string) : list string :=
  match values with
  | [] => []
  | v :: r => if existsb (String.eqb v) known then new_values known r
              else v :: new_values (v :: known) r
  end.

(** The natural keys held by the table of the model. *)
Definition keys {R} `{LookupModel R} (d : DB) : list string :=
  map lm_field (lm_all d).

(** The identities [uuid4] is yet to give are not in the table. *)
Definition supply_fresh {R} `{LookupModel R} (w : World) : Prop :=
  forall r, In r (lm_all (db w)) -> (lm_pk r < next_uuid w)%N.

(** The values a call already knows: those of the pre-seeded mapping and
    those of the table. *)
Definition known_values {R} `{LookupModel R}
    (existing : option (gmap string R)) (d : DB) : list string :=
  match existing with
  | Some l => map fst (map_to_list l)
  | None => []
  end ++ keys d.

(** The pairs of a relation after [relation_set]. *)
Definition relation_after (rel : list (Id * Id)) (source : Id)
    (related_ids objs : list Id) : list (Id * Id) :=
  let old_ids := fst (set_partition (dedup related_ids) objs) in
  let new_objs := snd (set_partition (dedup related_ids) objs) in
  let rel1 :=
    List.filter (fun p => negb (N.eqb (fst p) source && mem_id (snd p) old_ids)) rel in
  rel1 ++ map (fun i => (source, i))
            (List.filter (fun i => negb (related rel1 source i)) (dedup new_objs)).

(** What the queries on people read of a row. *)
Definition triple (r : People.t) : Id * Guid * bool :=
  (People.id r, People.guid r, People.is_active r).

Definition triples (d : DB) : list (Id * Guid * bool) := map triple (people d).

(** [i] is the identity of a row that [source] has as a friend. *)
Definition linked (d : DB) (source i : Id) : Prop :=
  (exists g a, In (i, g, a) (triples d)) /\ In (source, i) (people_to_friend d).

(** [i] is the identity of a row flagged active whose external identifier
    is one of [gs]. *)
Definition active_in (d : DB) (gs : list Guid) (i : Id) : Prop :=
  exists g, In (i, g, true) (triples d) /\ In g gs.

(** The rows under the identity of [o] exist and agree with [o] on the
    external identifier and the flag. *)
Definition stored (o : People.instance) (d : DB) : Prop :=
  (exists g a, In (People.id (People.fields o), g, a) (triples d))
  /\ forall g a, In (People.id (People.fields o), g, a) (triples d) ->
       g = People.guid (People.fields o)
       /\ a = People.is_active (People.fields o).

(** The identity of the person of a recorded pair. *)
Definition combo_id (c : Combo) : Id := People.id (People.fields (fst c)).

(** A computation that leaves the state of the run as it is. *)
Definition pure {A} (m : M A) : Prop := forall w, fst (m w) = w.

(** The rows of [d'] are rows of [d], under the same identities. *)
Definition refines (d' d : DB) : Prop :=
  (forall t, In t (triples d') -> In t (triples d))
  /\ (forall i, (exists g a, In (i, g, a) (triples d)) ->
                exists g a, In (i, g, a) (triples d')).

Section Vocabulary.

Variable currency_db_text : string -> option string.
Variable md5_hexdigest : string -> string.

(** The fingerprint pair of two files is on record in a store. *)
Definition recorded (company_file : DataFile (list Json.Company.t))
    (people_file : DataFile (list Json.Person.t)) (d : DB) : Prop :=
  exists f, In f (ingested_files d)
    /\ IngestedFiles.companyfile_hash f = get_hash md5_hexdigest company_file
    /\ IngestedFiles.peoplefile_hash f = get_hash md5_hexdigest people_file.

(** [o] has been saved and can be saved again. *)
Definition saveable (o : People.instance) : Prop :=
  People.adding o = false
  /\ is_Some (currency_db_text (People.balance (People.fields o)))
  /\ is_Some (People.registered (People.fields o)).

(** What the second loop maintains: identities in use are below the next
    one to be drawn, and the recorded objects are distinct, saved and
    stored. *)
Definition recording (w : World) (combos : list Combo) : Prop :=
  (forall i g a, In (i, g, a) (triples (db w)) -> (i < next_uuid w)%N)
  /\ NoDup (map combo_id combos)
  /\ forall c, In c combos ->
       (combo_id c < next_uuid w)%N /\ saveable (fst c) /\ stored (fst c) (db w).

End Vocabulary.

(** *** Statements about every outcome of a run *)

(** Whatever [m] returns or raises, the store it leaves is related by [R] to
    the one it started from, and a value it returns satisfies [Q]. *)
Definition yields {A} (R : DB -> DB -> Prop) (Q : A -> Prop) (m : M A) : Prop :=
  forall w, R (db w) (db (fst (m w))) /\ forall a, snd (m w) = Ok a -> Q a.

Definition anything {A} (_ : A) : Prop := True.

(** The effect of one statement of [ingest_companies]: a row appended to
    the table of organisations, under an identity and a name not in use. *)
Inductive company_statement : DB -> DB -> Prop :=
| cs_insert d i n :
    has_pk Company.id i (companies d) = false ->
    existsb (fun c => String.eqb (Company.name c) n) (companies d) = false ->
    company_statement d (with_companies (companies d ++ [Company.mk i n]) d).

(** The effect of one statement of [ingest_people]: a row appended to a
    lookup table, a row of people appended or rewritten by an object whose
    [is_active] is true and whose [registered] is set, or the pairs of one
    relation table replaced. *)
Inductive people_statement : DB -> DB -> Prop :=
| ps_food d i v :
    has_pk Food.id i (foods d) = false ->
    people_statement d
      (with_foods (foods d ++ [Food.classified (Food.mk i v Food.UNCLASSIFIED)]) d)
| ps_tag d i v :
    has_pk Tag.id i (tags d) = false ->
    people_statement d (with_tags (tags d ++ [Tag.mk i v]) d)
| ps_gender d i v :
    has_pk Gender.id i (genders d) = false ->
    people_statement d (with_genders (genders d ++ [Gender.mk i v]) d)
| ps_eye_color d i v :
    has_pk EyeColor.id i (eye_colors d) = false ->
    people_statement d (with_eye_colors (eye_colors d ++ [EyeColor.mk i v]) d)
| ps_insert d row :
    People.is_active row = true ->
    is_Some (People.registered row) ->
    has_pk People.id (People.id row) (people d) = false ->
    people_statement d (with_people (people d ++ [row]) d)
| ps_update d row :
    People.is_active row = true ->
    is_Some (People.registered row) ->
    people_statement d (with_people (replace_row People.id row (people d)) d)
| ps_tags d l : people_statement d (with_people_tags l d)
| ps_foods d l : people_statement d (with_people_to_food l d)
| ps_friends d l : people_statement d (with_people_to_friend l d).

(** The effect of recording a pair of fingerprints. *)
Inductive file_statement : DB -> DB -> Prop :=
| fs_insert d f :
    has_pk IngestedFiles.id (IngestedFiles.id f) (ingested_files d) = false ->
    file_statement d (with_ingested_files (ingested_files d ++ [f]) d).

(** A row appended to the table of a lookup model is a statement of
    [ingest_people]. *)
Class LookupModelStatement (R : Type) `{LookupModel R} := {
  lm_appends : forall d i v,
    has_pk lm_pk i (lm_all d) = false ->
    people_statement d (lm_with (lm_all d ++ [lm_new i v]) d);
  lm_with_all : forall d, lm_with (lm_all d) d = d
}.

(** The object has [is_active] true. *)
Definition flagged (o : People.instance) : Prop :=
  People.is_active (People.fields o) = true.

(** No row of people is flagged inactive that was not so before, and an
    identity flagged active stays flagged active. *)
Definition flags_kept (d d' : DB) : Prop :=
  (forall row, In row (people d') -> People.is_active row = false ->
     In row (people d))
  /\ (forall row, In row (people d) -> People.is_active row = true ->
        exists row', In row' (people d') /\ People.id row' = People.id row
                     /\ People.is_active row' = true).

(** The column [registered] is set in every row of people ([NOT NULL]). *)
Definition registered_not_null (d : DB) : Prop :=
  forall row, In row (people d) -> is_Some (People.registered row).

(** The dictionary [company_name_lookup] that [ingest_companies] reads from
    the store, and the body of its loop. *)
Definition company_names (d : DB) : gmap string Company.t :=
  fold_left (fun m company => <[Company.name company := company]> m)
            (companies d) ∅.

Definition company_step (names : gmap string Company.t)
    (company_index_lookup : gmap Z Company.t) (company : Json.Company.t)
  : M (gmap Z Company.t) :=
  this_company <-
    match names !! Json.Company.company company with
    | Some c => ret c
    | None => Company_create (Json.Company.company company)
    end;;
  ret (<[Json.Company.index company := this_company]> company_index_lookup).

(** The names of [names] that no organisation of the store carries, in
    their order. *)
Definition missing_names (d : DB) (names : list string) : list string :=
  List.filter
    (fun n => negb (existsb (String.eqb n) (map Company.name (companies d))))
    names.

(** The order of [Meta.ordering] on the rows of people. *)
Definition by_name (a b : People.t) : Prop :=
  String.leb (People.name a) (People.name b) = true.


(** Every entry of the [friends] of [person] is the [index] of a record
    of the file. *)
Definition friends_known (file : list Json.Person.t) (person : Json.Person.t) : bool :=
  forallb (fun i => existsb (fun q => Z.eqb (Json.Person.index q) i) file)
          (Json.Person.friends person).

(** A computation that neither reads nor changes the state. *)
Definition constant {A} (m : M A) : Prop := exists x, forall w, m w = (w, x).




(** [l'] is [l] with rows appended. *)
Definition extends {X} (l l' : list X) : Prop := exists more, l' = l ++ more.

(** The type that [Food.save] gives a row of that name. *)
Definition food_type_of (n : string) : Food.FoodTypes :=
  match Food.type_lookup n with
  | Some ty => ty
  | None => Food.UNCLASSIFIED
  end.

(** What the statements of [ingest_people] keep: the organisations and the
    recorded fingerprints; the rows of people that are not flagged active
    are old ones, and an identity flagged active stays so; the lookup
    tables only get rows appended, the foods with the type of their name. *)
Definition kept (d d' : DB) : Prop :=
  companies d' = companies d
  /\ ingested_files d' = ingested_files d
  /\ (forall row, In row (people d') -> People.is_active row = false ->
        In row (people d))
  /\ (forall row, In row (people d) -> People.is_active row = true ->
        exists row', In row' (people d') /\ People.id row' = People.id row
                     /\ People.is_active row' = true)
  /\ (exists more, foods d' = foods d ++ more
        /\ forall f, In f more -> Food.food_type f = food_type_of (Food.name f))
  /\ extends (tags d) (tags d')
  /\ extends (genders d) (genders d')
  /\ extends (eye_colors d) (eye_colors d').

(** ** Sample data *)

Module Sample.

(** A currency field on balances written in its own format, such as
    [$1,234.50]: they are read back as written. *)
Definition as_written (v : string) : option string := Some v.

(** A digest for the examples: the bytes themselves. *)
Definition digest (bytes : string) : string := bytes.

Definition guid_a : string := "00000000-0000-0000-0000-00000000000a".
Definition guid_b : string := "00000000-0000-0000-0000-00000000000b".
Definition guid_c : string := "00000000-0000-0000-0000-00000000000c".

Definition person (index : Z) (guid name : string) (company_id : Z)
    (friends : list Z) (favouriteFood tags : list string)
    (registered : string) : Json.Person.t :=
  Json.Person.mk "595eeb9b" index guid (Some false) "$2,418.59"
    "http://placehold.it/32x32" 61 "brown" name "female" company_id
    "a@earthmark.com" "+1 (910) 567-3630" "628 Sumner Place" "Non duis"
    registered tags friends "Hello" favouriteFood.

Definition stamp : string := "2016-07-13T12:29 -10:00".

Definition ingest (company_file : DataFile (list Json.Company.t))
    (people_file : DataFile (list Json.Person.t)) (w : World) : World * result unit :=
  ingest_data as_written digest company_file people_file w.

(** One organisation under index 0. *)
Definition acme : DataFile (list Json.Company.t) :=
  mk_file "companies-1" [Json.Company.mk 0 "Acme"].

(** The same, and a second organisation. *)
Definition acme_and_globex : DataFile (list Json.Company.t) :=
  mk_file "companies-2" [Json.Company.mk 0 "Acme"; Json.Company.mk 1 "Globex"].

(** One organisation under index 1. *)
Definition acme_at_1 : DataFile (list Json.Company.t) :=
  mk_file "companies-3" [Json.Company.mk 1 "Acme"].

(** Two records with the name of one organisation. *)
Definition acme_twice : DataFile (list Json.Company.t) :=
  mk_file "companies-4" [Json.Company.mk 0 "Acme"; Json.Company.mk 1 "Acme"].

(** A person, first named Al, then Bo. *)
Definition al : DataFile (list Json.Person.t) :=
  mk_file "people-al" [person 0 guid_a "Al" 1 [] ["apple"] ["x"] stamp].

Definition bo : DataFile (list Json.Person.t) :=
  mk_file "people-bo" [person 0 guid_a "Bo" 1 [] ["apple"] ["x"] stamp].

(** A person whose favourite food changes, with a friend. *)
Definition likes_apple : DataFile (list Json.Person.t) :=
  mk_file "people-apple"
    [person 0 guid_a "Al" 1 [1] ["apple"] ["x"] stamp;
     person 1 guid_b "Bea" 1 [] [] [] stamp].

Definition likes_carrot : DataFile (list Json.Person.t) :=
  mk_file "people-carrot"
    [person 0 guid_a "Al" 1 [1] ["carrot"] ["x"] stamp;
     person 1 guid_b "Bea" 1 [] [] [] stamp].

(** A person whose friend is renamed. *)
Definition friend_bea : DataFile (list Json.Person.t) :=
  mk_file "people-bea"
    [person 0 guid_a "Al" 1 [1] [] [] stamp;
     person 1 guid_b "Bea" 1 [] [] [] stamp].

Definition friend_bee : DataFile (list Json.Person.t) :=
  mk_file "people-bee"
    [person 0 guid_a "Al" 1 [1] [] [] stamp;
     person 1 guid_b "Bee" 1 [] [] [] stamp].

(** A person whose list of friends goes from two entries to one. *)
Definition two_friends : DataFile (list Json.Person.t) :=
  mk_file "people-two-friends"
    [person 0 guid_a "Al" 1 [1; 2] [] [] stamp;
     person 1 guid_b "Bea" 1 [] [] [] stamp;
     person 2 guid_c "Cy" 1 [] [] [] stamp].

Definition one_friend : DataFile (list Json.Person.t) :=
  mk_file "people-one-friend"
    [person 0 guid_a "Al" 1 [1] [] [] stamp;
     person 1 guid_b "Bea" 1 [] [] [] stamp;
     person 2 guid_c "Cy" 1 [] [] [] stamp].

(** A person registered in the form [YYYY-MM-DD HH:MM +HH:MM]. *)
Definition blank_stamp : string := "2020-01-01 00:00 +00:00".

Definition registered_with_blank : DataFile (list Json.Person.t) :=
  mk_file "people-blank" [person 0 guid_a "Al" 1 [] [] [] blank_stamp].

(** What the store shows of the rows of people, and of one row. *)
Definition versions (w : World) : list (Id * Guid * string * bool * Time) :=
  map (fun r => (People.id r, People.guid r, People.name r,
                 People.is_active r, People.updated_at r))
      (people (db w)).

Definition companies_named (w : World) (i : Id) : list string :=
  map Company.name
      (List.filter (fun c => N.eqb (Company.id c) i) (companies (db w))).

Definition employers (w : World) : list (string * list string) :=
  map (fun r => (People.name r, companies_named w (People.company_id r)))
      (people (db w)).

(** The state in which the second loop starts on a file, its lookups, and
    what the loop returns. *)
Definition staged (company_file : DataFile (list Json.Company.t))
    (people_file : DataFile (list Json.Person.t)) (w : World)
  : World * Lookups :=
  match ingest_companies company_file w with
  | (w1, Ok company_lookup) =>
      match build_lookups (file_json people_file) company_lookup w1 with
      | (w2, Ok lk) => (w2, lk)
      | (w2, Raise _) => (w2, mk_lookups ∅ ∅ ∅ ∅ ∅ ∅)
      end
  | (w1, Raise _) => (w1, mk_lookups ∅ ∅ ∅ ∅ ∅ ∅)
  end.

Definition reconciled (people_file : DataFile (list Json.Person.t))
    (start : World * Lookups) : World * list Combo :=
  match for_each (file_json people_file)
                 (reconcile as_written (snd start)) [] (fst start) with
  | (w, Ok combos) => (w, combos)
  | (w, Raise _) => (w, [])
  end.

(** The states the sample runs go through. *)
Definition after_al : World := fst (ingest acme al empty_world).
Definition after_bo : World := fst (ingest acme bo after_al).
Definition after_bo_again : World := fst (ingest acme_and_globex bo after_bo).
Definition after_apple : World := fst (ingest acme likes_apple empty_world).
Definition after_carrot : World := fst (ingest acme likes_carrot after_apple).
Definition after_bea : World := fst (ingest acme friend_bea empty_world).
Definition after_bee : World := fst (ingest acme friend_bee after_bea).
Definition after_two_friends : World := fst (ingest acme two_friends empty_world).
Definition after_one_friend : World := fst (ingest acme one_friend after_two_friends).



(** What [resolve] returns for a record, and the first active row of an
    external identifier, with stand-ins for a failure and for no row. *)
Definition no_resolution : Resolved :=
  mk_resolved [] [] [] None 0%N (Company.mk 0%N EmptyString)
    (Gender.mk 0%N EmptyString) (EyeColor.mk 0%N EmptyString).

Definition resolved (lk : Lookups) (p : Json.Person.t) (w : World) : Resolved :=
  match snd (resolve lk p w) with
  | Ok r => r
  | Raise _ => no_resolution
  end.

Definition no_row : People.t :=
  People.mk EmptyString 0%N 0%N EmptyString 0%N 0%N 0%N None EmptyString
    EmptyString 0 EmptyString EmptyString EmptyString EmptyString None
    EmptyString false 0%N 0%N.

Definition first_active (g : Guid) (w : World) : People.t :=
  hd no_row (active_with_guid g (db w)).

(** The records of the sample files. *)
Definition al_record : Json.Person.t := person 0 guid_a "Al" 1 [] ["apple"] ["x"] stamp.
Definition bo_record : Json.Person.t := person 0 guid_a "Bo" 1 [] ["apple"] ["x"] stamp.

(** The store after the first sample run, without its eye colours. *)
Definition without_eye_colours : DB := with_eye_colors [] (db after_al).

(** The rows of a store, by position. *)
Definition row_at (n : nat) (w : World) : People.t := nth n (people (db w)) no_row.

Definition first_eye_colour (w : World) : EyeColor.t :=
  hd (EyeColor.mk 0%N EmptyString) (eye_colors (db w)).

Definition first_company (w : World) : Company.t :=
  hd (Company.mk 0%N EmptyString) (companies (db w)).

(** Two records under one [index]. *)
Definition al_at_0 : Json.Person.t := person 0 guid_a "Al" 1 [] [] [] stamp.
Definition bea_at_0 : Json.Person.t := person 0 guid_b "Bea" 1 [0] [] [] stamp.

(** The lookups that a call of [build_lookups] returns. *)
Definition lookups_of (run : World * result Lookups) : Lookups :=
  match snd run with
  | Ok lk => lk
  | Raise _ => mk_lookups ∅ ∅ ∅ ∅ ∅ ∅
  end.

Definition acme_by_index : gmap Z Company.t := <[0 := Company.mk 1%N "Acme"]> ∅.

(** Records that the second loop does not resolve: a friend that is no
    record of the file, and a month that does not exist. *)
Definition with_a_stranger : Json.Person.t := person 0 guid_a "Al" 1 [7] [] [] stamp.
Definition in_month_13 : Json.Person.t :=
  person 0 guid_a "Al" 1 [] [] [] "2016-13-13T12:29 -10:00".

(** The list of friends goes from two entries to one while the friend that
    stays is renamed. *)
Definition one_friend_bee : DataFile (list Json.Person.t) :=
  mk_file "people-one-friend-bee"
    [person 0 guid_a "Al" 1 [1] [] [] stamp;
     person 1 guid_b "Bee" 1 [] [] [] stamp;
     person 2 guid_c "Cy" 1 [] [] [] stamp].

Definition after_one_friend_bee : World :=
  fst (ingest acme one_friend_bee after_two_friends).
End Sample.

(** ** Properties *)

(** *** Reasoning on runs *)

Lemma bind_Ok {A B} (m : M A) (k : A -> M B) w w' b :
  bind m k w = (w', Ok b) ->
  exists w1 a, m w = (w1, Ok a) /\ k a w1 = (w', Ok b).
Proof.
  unfold bind. destruct (m w) as [w1 [a|e]]; [eauto | discriminate].
Qed.

Lemma bind_step {A B} (m : M A) (k : A -> M B) w w1 a :
  m w = (w1, Ok a) -> bind m k w = k a w1.
Proof. unfold bind. intros ->. reflexivity. Qed.

Lemma bind_fail {A B} (m : M A) (k : A -> M B) w w1 e :
  m w = (w1, Raise e) -> bind m k w = (w1, Raise e).
Proof. unfold bind. intros ->. reflexivity. Qed.

Lemma assert_Ok b w w' u : assert b w = (w', Ok u) -> b = true /\ w' = w.
Proof. destruct b; cbn; intros [= <-]; auto. Qed.

(** A loop whose body raises on one of its elements raises. *)
Lemma for_each_raises {A S} (body : S -> A -> M S) (l : list A) (x : A) :
  In x l ->
  (forall acc w, exists w' e, body acc x w = (w', Raise e)) ->
  forall acc w, exists w' e, for_each l body acc w = (w', Raise e).
Proof.
  intros Hin Hx. induction l as [|y l IH]; [destruct Hin|].
  intros acc w. cbn [for_each]. destruct Hin as [->|Hin].
  - destruct (Hx acc w) as (w' & e & E). rewrite (bind_fail _ _ _ _ _ E). eauto.
  - unfold bind. destruct (body acc y w) as [w1 [a|e]]; [apply IH; exact Hin | eauto].
Qed.

(** *** The organisation file is validated before anything is written *)

Lemma remove_dups_length_NoDup {A} `{EqDecision A} (l : list A) :
  length (remove_dups l) = length l -> NoDup l.
Proof.
  induction l as [|x l IH]; cbn; [constructor|].
  destruct (decide_rel elem_of x l) as [Hin|Hin]; cbn.
  - intros E.
    assert (Hlen : (length (remove_dups l) <= length l)%nat).
    { clear. induction l as [|y l IH]; cbn; [lia|].
      destruct (decide_rel elem_of y l); cbn; lia. }
    lia.
  - intros [= E]. constructor; auto.
Qed.

Lemma duplicate_not_NoDup {A B} (f : A -> B) (l : list A) :
  (exists i j a b, i <> j /\ l !! i = Some a /\ l !! j = Some b /\ f a = f b) ->
  ~ NoDup (map f l).
Proof.
  intros (i & j & a & b & Hij & Hi & Hj & E) Hnd.
  apply Hij. eapply NoDup_lookup; [exact Hnd| |].
  - change (map f l) with (f <$> l). rewrite list_lookup_fmap, Hi. reflexivity.
  - change (map f l) with (f <$> l). rewrite list_lookup_fmap, Hj. cbn. congruence.
Qed.

Lemma ingest_companies_asserts file w :
  ~ NoDup (map Json.Company.index (file_json file))
  \/ ~ NoDup (map Json.Company.company (file_json file)) ->
  ingest_companies file w = (w, Raise AssertionError).
Proof.
  intros Hdup. unfold ingest_companies.
  rewrite (bind_step get_db _ w w (db w) eq_refl).
  destruct (Nat.eqb (length (file_json file))
              (length (remove_dups (map Json.Company.index (file_json file)))))
    eqn:E1.
  - rewrite (bind_step (assert true) _ w w tt eq_refl).
    destruct (Nat.eqb (length (file_json file))
                (length (remove_dups (map Json.Company.company (file_json file)))))
      eqn:E2.
    + exfalso. apply Nat.eqb_eq in E1, E2.
      destruct Hdup as [H|H]; apply H; apply remove_dups_length_NoDup;
        rewrite length_map; congruence.
    + reflexivity.
  - reflexivity.
Qed.

(** *** The registration timestamp *)

Lemma digit_char_cases d :
  0 <= d <= 9 ->
  Py.is_digit (digit_char d) = true /\ Py.digit_value (digit_char d) = d.
Proof.
  intros Hd.
  assert (E : d = 0 \/ d = 1 \/ d = 2 \/ d = 3 \/ d = 4 \/ d = 5 \/ d = 6
              \/ d = 7 \/ d = 8 \/ d = 9) by lia.
  repeat destruct E as [->|E]; try subst d; split; reflexivity.
Qed.

Lemma digits_two lo n rest :
  (lo <= 2)%nat -> 0 <= n < 100 ->
  Py.digits lo 2 (two_digits n rest) = Some (n, rest).
Proof.
  intros Hlo Hn. unfold Py.digits, two_digits. cbn [Py.span_digits].
  destruct (digit_char_cases (n / 10)) as [D1 V1];
    [pose proof (Z.div_pos n 10); assert (n / 10 < 10) by (apply Z.div_lt_upper_bound; lia); lia|].
  destruct (digit_char_cases (n mod 10)) as [D2 V2];
    [pose proof (Z.mod_pos_bound n 10); lia|].
  rewrite D1, D2. cbn [String.length Py.int_of_digits].
  rewrite V1, V2.
  replace (lo <=? 2)%nat with true by (symmetry; apply Nat.leb_le; exact Hlo).
  f_equal. f_equal. pose proof (Z.div_mod n 10). lia.
Qed.

Lemma digits_four n rest :
  0 <= n < 10000 -> Py.digits 4 4 (four_digits n rest) = Some (n, rest).
Proof.
  intros Hn. unfold Py.digits, four_digits, two_digits. cbn [Py.span_digits].
  assert (H1 : 0 <= n / 1000 <= 9).
  { pose proof (Z.div_pos n 1000).
    assert (n / 1000 < 10) by (apply Z.div_lt_upper_bound; lia). lia. }
  assert (H2 : 0 <= n / 100 mod 10 <= 9) by (pose proof (Z.mod_pos_bound (n / 100) 10); lia).
  assert (H34 : 0 <= n mod 100 < 100) by (apply Z.mod_pos_bound; lia).
  assert (H3 : 0 <= n mod 100 / 10 <= 9).
  { pose proof (Z.div_pos (n mod 100) 10).
    assert (n mod 100 / 10 < 10) by (apply Z.div_lt_upper_bound; lia). lia. }
  assert (H4 : 0 <= n mod 100 mod 10 <= 9)
    by (pose proof (Z.mod_pos_bound (n mod 100) 10); lia).
  destruct (digit_char_cases _ H1) as [D1 V1].
  destruct (digit_char_cases _ H2) as [D2 V2].
  destruct (digit_char_cases _ H3) as [D3 V3].
  destruct (digit_char_cases _ H4) as [D4 V4].
  rewrite D1, D2, D3, D4. cbn [String.length Py.int_of_digits Nat.leb].
  rewrite V1, V2, V3, V4. f_equal. f_equal.
  pose proof (Z.div_mod n 100). pose proof (Z.div_mod (n / 100) 10).
  pose proof (Z.div_mod (n mod 100) 10).
  assert (n / 100 / 10 = n / 1000) by (rewrite Z.div_div by lia; reflexivity).
  lia.
Qed.

(** With [T] between the date and the time, the text is parsed to the
    timestamp it denotes. *)
Lemma parse_datetime_T y mo d h mi west oh om :
  0 <= oh < 100 -> 0 <= om < 100 ->
  Py.datetime_valid (registered_value y mo d h mi west oh om) = true ->
  Py.parse_datetime (registered_text "T" EmptyString y mo d h mi west oh om)
  = Py.Parsed (registered_value y mo d h mi west oh om).
Proof.
  intros Hoh Hom Hvalid.
  assert (Hr : 1 <= y <= 9999 /\ 1 <= mo <= 12 /\ 1 <= d <= 31
               /\ 0 <= h <= 23 /\ 0 <= mi <= 59).
  { unfold Py.datetime_valid, registered_value in Hvalid. cbn in Hvalid.
    repeat (apply andb_true_iff in Hvalid as [Hvalid ?]).
    assert (Py.days_in_month y mo <= 31).
    { unfold Py.days_in_month.
      repeat match goal with |- context [if ?b then _ else _] => destruct b end; lia. }
    lia. }
  unfold Py.parse_datetime, registered_text.
  match goal with
  | |- context [String.append EmptyString ?x] =>
      change (String.append EmptyString x) with x
  end.
  rewrite digits_four by lia. cbn [mbind option_bind Py.expect Ascii.eqb Bool.eqb].
  cbn -[Py.digits two_digits Py.seconds_part Py.tz_part Py.datetime_valid].
  rewrite (digits_two 1 mo) by lia.
  cbn -[Py.digits two_digits Py.seconds_part Py.tz_part Py.datetime_valid].
  rewrite (digits_two 1 d) by lia.
  cbn -[Py.digits two_digits Py.seconds_part Py.tz_part Py.datetime_valid].
  rewrite (digits_two 1 h) by lia.
  cbn -[Py.digits two_digits Py.seconds_part Py.tz_part Py.datetime_valid].
  rewrite (digits_two 1 mi) by lia.
  cbn -[Py.digits two_digits Py.seconds_part Py.tz_part Py.datetime_valid].
  assert (Hsec : forall rest,
            Py.seconds_part (String (if west then "-" else "+")%char rest)
            = (0, 0, String (if west then "-" else "+")%char rest)).
  { intros rest. destruct west; reflexivity. }
  rewrite Hsec.
  assert (Htz : Py.tz_part
                  (String (if west then "-" else "+")%char
                     (two_digits oh (String ":" (two_digits om EmptyString))))
                = Some (Some (if west then - (60 * oh + om) else 60 * oh + om))).
  { unfold Py.tz_part.
    replace (Ascii.eqb (if west then "-" else "+")%char "+"
             || Ascii.eqb (if west then "-" else "+")%char "-")%char with true
      by (destruct west; reflexivity).
    assert (Hz : forall rest, String (if west then "-" else "+")%char rest
                              <> String "Z" EmptyString)
      by (intros rest; destruct west; discriminate).
    destruct west; cbn -[Py.digits two_digits];
      rewrite (digits_two 2 oh) by lia;
      cbn -[Py.digits two_digits];
      rewrite (digits_two 2 om) by lia; reflexivity. }
  rewrite Htz. cbn -[Py.datetime_valid].
  fold (registered_value y mo d h mi west oh om). rewrite Hvalid. reflexivity.
Qed.

(** *** The lookup builder *)

#[export] Instance Food_laws : LookupModelLaws Food.t.
Proof.
  split; [reflexivity| |]; intros i v; cbn; unfold Food.classified; cbn;
    destruct (Food.type_lookup v); reflexivity.
Qed.

#[export] Instance Tag_laws : LookupModelLaws Tag.t.
Proof. split; reflexivity. Qed.

#[export] Instance Gender_laws : LookupModelLaws Gender.t.
Proof. split; reflexivity. Qed.

#[export] Instance EyeColor_laws : LookupModelLaws EyeColor.t.
Proof. split; reflexivity. Qed.

Lemma existsb_eqb_In v l : existsb (String.eqb v) l = true <-> In v l.
Proof.
  rewrite existsb_exists. split.
  - intros (x & Hx & E). apply String.eqb_eq in E. congruence.
  - intros Hin. exists v. split; [exact Hin | apply String.eqb_refl].
Qed.

Lemma new_values_ext values : forall k1 k2,
  (forall x, In x k1 <-> In x k2) -> new_values k1 values = new_values k2 values.
Proof.
  induction values as [|v r IH]; intros k1 k2 Hk; cbn; [reflexivity|].
  assert (E : existsb (String.eqb v) k1 = existsb (String.eqb v) k2).
  { apply eq_true_iff_eq. rewrite !existsb_eqb_In. apply Hk. }
  rewrite E. destruct (existsb _ k2).
  - apply IH, Hk.
  - f_equal. apply IH. intros x. cbn. rewrite Hk. reflexivity.
Qed.

Lemma new_values_spec values : forall known,
  NoDup (new_values known values)
  /\ forall x, In x (new_values known values) <-> In x values /\ ~ In x known.
Proof.
  induction values as [|v r IH]; intros known; cbn.
  - split; [constructor | intros x; tauto].
  - destruct (existsb (String.eqb v) known) eqn:E.
    + destruct (IH known) as [Hnd Hin]. split; [exact Hnd|].
      apply existsb_eqb_In in E. intros x. rewrite Hin.
      split; [tauto|]. intros [[->|Hx] Hk]; tauto.
    + destruct (IH (v :: known)) as [Hnd Hin].
      assert (Hv : ~ In v known).
      { intros Hv. apply existsb_eqb_In in Hv. congruence. }
      split.
      * constructor; [|exact Hnd]. rewrite list_elem_of_In, Hin. cbn. tauto.
      * intros x. cbn. rewrite Hin. cbn. split.
        -- intros [<-|[Hx Hk]]; tauto.
        -- intros [[<-|Hx] Hk]; [tauto|].
           destruct (String.eqb_spec v x) as [->|Hne]; tauto.
Qed.

Section CreateLookup.

Context {R : Type} `{LookupModelLaws R}.

Lemma filter_key_absent (l : list R) v :
  ~ In v (map lm_field l) ->
  List.filter (fun r => String.eqb (lm_field r) v) l = [].
Proof.
  induction l as [|x l IH]; cbn; [reflexivity|]. intros Hn.
  destruct (String.eqb_spec (lm_field x) v) as [E|E]; [tauto|]. apply IH. tauto.
Qed.

Lemma filter_key_present (l : list R) v :
  NoDup (map lm_field l) -> In v (map lm_field l) ->
  exists r, List.filter (fun r => String.eqb (lm_field r) v) l = [r].
Proof.
  induction l as [|x l IH]; cbn; [tauto|]. intros Hnd Hin.
  apply NoDup_cons in Hnd as [Hx Hnd]. rewrite list_elem_of_In in Hx.
  destruct (String.eqb_spec (lm_field x) v) as [E|E].
  - exists x. rewrite filter_key_absent; [reflexivity | congruence].
  - destruct Hin as [Hin|Hin]; [tauto|]. apply IH; assumption.
Qed.

Lemma has_pk_fresh (l : list R) (i : Id) :
  (forall r, In r l -> (lm_pk r < i)%N) -> has_pk lm_pk i l = false.
Proof.
  intros Hl. unfold has_pk. apply not_true_is_false. intros E.
  apply existsb_exists in E as (r & Hr & E). apply N.eqb_eq in E.
  specialize (Hl r Hr). lia.
Qed.

Lemma has_pk_last (l : list R) (r : R) : has_pk lm_pk (lm_pk r) (l ++ [r]) = true.
Proof.
  unfold has_pk. rewrite existsb_app. cbn. rewrite N.eqb_refl.
  cbn. apply orb_true_r.
Qed.

Lemma replace_row_last (l : list R) (r : R) :
  (forall x, In x l -> lm_pk x <> lm_pk r) ->
  replace_row lm_pk r (l ++ [r]) = l ++ [r].
Proof.
  induction l as [|x l IH]; cbn; intros Hl.
  - rewrite N.eqb_refl. reflexivity.
  - destruct (N.eqb_spec (lm_pk x) (lm_pk r)) as [E|E].
    + exfalso. apply (Hl x); auto.
    + f_equal. apply IH. auto.
Qed.

Lemma create_lookup_unfold values existing :
  create_lookup values existing
  = for_each values lookup_step
      (match existing with Some l => l | None => ∅ end).
Proof. reflexivity. Qed.

(** A value that is neither in the mapping nor in the table: a row is
    inserted, then saved again. *)
Lemma lookup_step_new lookup v w :
  lookup !! v = None -> ~ In v (keys (db w)) -> supply_fresh w ->
  exists w',
    lookup_step lookup v w = (w', Ok (<[v := lm_new (next_uuid w) v]> lookup))
    /\ lm_all (db w') = lm_all (db w) ++ [lm_new (next_uuid w) v]
    /\ writes w' = writes w ++ [Insert lm_table (next_uuid w);
                                 Update lm_table (next_uuid w)]
    /\ next_uuid w' = N.succ (next_uuid w).
Proof.
  intros Hl Hv Hf. unfold lookup_step. rewrite Hl.
  unfold get_or_create, lm_save, bind, get_db, uuid4, put_db, log, ret, raise.
  cbn. rewrite (filter_key_absent _ _ Hv). cbn.
  rewrite (has_pk_fresh _ _ Hf). cbn.
  rewrite lm_all_with, lm_new_pk.
  pose proof (has_pk_last (lm_all (db w)) (lm_new (next_uuid w) v)) as Hp.
  rewrite lm_new_pk in Hp. rewrite Hp. cbn.
  eexists. split; [reflexivity|]. cbn. rewrite lm_all_with.
  split; [|split; [rewrite <- app_assoc; reflexivity | reflexivity]].
  pose proof (replace_row_last (lm_all (db w)) (lm_new (next_uuid w) v)) as Hr.
  apply Hr. intros x Hx. rewrite lm_new_pk. specialize (Hf x Hx). lia.
Qed.

(** A value that the table holds: nothing is written. *)
Lemma lookup_step_found lookup v w :
  lookup !! v = None -> NoDup (keys (db w)) -> In v (keys (db w)) ->
  exists r, lookup_step lookup v w = (w, Ok (<[v := r]> lookup)).
Proof.
  intros Hl Hnd Hv. unfold lookup_step. rewrite Hl.
  destruct (filter_key_present _ _ Hnd Hv) as (r & Hr).
  unfold get_or_create, bind, get_db, ret. cbn. rewrite Hr. cbn.
  exists r. reflexivity.
Qed.

Lemma lookup_loop values : forall (lookup : gmap string R) w known,
  (forall x, In x known <-> is_Some (lookup !! x) \/ In x (keys (db w))) ->
  NoDup (keys (db w)) -> supply_fresh w ->
  exists w' lookup',
    for_each values lookup_step lookup w = (w', Ok lookup')
    /\ keys (db w') = keys (db w) ++ new_values known values
    /\ (exists ws, writes w' = writes w ++ ws
                   /\ length ws = (2 * length (new_values known values))%nat)
    /\ NoDup (keys (db w'))
    /\ (forall x, is_Some (lookup !! x) -> is_Some (lookup' !! x))
    /\ (forall x, In x values -> is_Some (lookup' !! x)).
Proof.
  induction values as [|v r IH]; intros lookup w known Hk Hnd Hf.
  - exists w, lookup. cbn. rewrite app_nil_r.
    split; [reflexivity|]. split; [reflexivity|].
    split; [exists []; rewrite app_nil_r; auto|]. split; [exact Hnd|].
    split; [auto | tauto].
  - cbn [for_each new_values].
    destruct (existsb (String.eqb v) known) eqn:Ev.
    + (* the value is known *)
      apply existsb_eqb_In in Ev. apply Hk in Ev.
      assert (Hstep : exists lookup1,
                lookup_step lookup v w = (w, Ok lookup1)
                /\ (forall x, is_Some (lookup !! x) -> is_Some (lookup1 !! x))
                /\ is_Some (lookup1 !! v)
                /\ (forall x, is_Some (lookup1 !! x) ->
                              is_Some (lookup !! x) \/ x = v)).
      { destruct (lookup !! v) as [r0|] eqn:El.
        - exists lookup. unfold lookup_step. rewrite El.
          split; [reflexivity|]. split; [auto|]. split; [eauto | auto].
        - destruct Ev as [[? Ev]|Ev]; [discriminate|].
          destruct (lookup_step_found lookup v w El Hnd Ev) as (r0 & Hr0).
          exists (<[v := r0]> lookup). split; [exact Hr0|].
          split; [|split].
          + intros x Hx. rewrite lookup_insert. case_decide; eauto.
          + rewrite lookup_insert_eq. eauto.
          + intros x. rewrite lookup_insert. case_decide; auto. }
      destruct Hstep as (lookup1 & Hstep & Hmono & Hv1 & Hback).
      rewrite (bind_step _ _ _ _ _ Hstep).
      destruct (IH lookup1 w known) as (w' & lookup' & Hrun & Hkeys & Hws & Hnd' & Hm & Hall);
        [|exact Hnd|exact Hf|].
      { intros x. rewrite Hk. split.
        - intros [Hx|Hx]; auto.
        - intros [Hx|Hx]; [|auto]. destruct (Hback x Hx) as [Hx'| ->]; auto. }
      exists w', lookup'. split; [exact Hrun|]. split; [exact Hkeys|].
      split; [exact Hws|]. split; [exact Hnd'|]. split; [auto|].
      intros x [<-|Hx]; auto.
    + (* the value is new *)
      assert (Hv : ~ In v known).
      { intros Hv. apply existsb_eqb_In in Hv. congruence. }
      assert (Hl : lookup !! v = None).
      { destruct (lookup !! v) eqn:El; [|reflexivity].
        exfalso. apply Hv, Hk. left. rewrite El. eauto. }
      assert (Hnk : ~ In v (keys (db w))).
      { intros Hin. apply Hv, Hk. auto. }
      destruct (lookup_step_new lookup v w Hl Hnk Hf) as (w1 & Hstep & Hall1 & Hw1 & Hn1).
      rewrite (bind_step _ _ _ _ _ Hstep).
      assert (Hkeys1 : keys (db w1) = keys (db w) ++ [v]).
      { unfold keys. rewrite Hall1, map_app. cbn. rewrite lm_new_field. reflexivity. }
      destruct (IH (<[v := lm_new (next_uuid w) v]> lookup) w1 (v :: known))
        as (w' & lookup' & Hrun & Hkeys & (ws & Hws & Hlen) & Hnd' & Hm & Hall).
      { intros x. cbn. rewrite Hk, Hkeys1, in_app_iff, lookup_insert. cbn.
        case_decide as Hx; [subst x|].
        - split; [intros _; left; eauto | auto].
        - split; [intros [?|[?|?]]; [congruence|auto|auto] | intros [?|[?|[?|[]]]]; [auto|auto|congruence]]. }
      { rewrite Hkeys1. apply NoDup_app. split; [exact Hnd|].
        split; [|apply NoDup_singleton].
        intros x Hx Hx'. apply list_elem_of_In in Hx.
        apply list_elem_of_In in Hx'. destruct Hx' as [<-|[]]. tauto. }
      { intros x. rewrite Hall1, Hn1, in_app_iff. intros [Hx|[<-|[]]].
        - specialize (Hf x Hx). lia.
        - rewrite lm_new_pk. lia. }
      exists w', lookup'. split; [exact Hrun|].
      split; [rewrite Hkeys, Hkeys1, <- app_assoc; reflexivity|].
      split.
      { exists ([Insert lm_table (next_uuid w); Update lm_table (next_uuid w)] ++ ws).
        rewrite Hws, Hw1, <- app_assoc. split; [reflexivity|].
        rewrite length_app, Hlen. cbn. lia. }
      split; [exact Hnd'|]. split.
      { intros x Hx. apply Hm. rewrite lookup_insert. case_decide; eauto. }
      intros x [<-|Hx]; [|auto]. apply Hm. rewrite lookup_insert_eq. eauto.
Qed.

(** When every value is in the mapping or in the table, the loop writes
    nothing and draws no identity. *)
Lemma lookup_loop_settled values : forall (lookup : gmap string R) w,
  NoDup (keys (db w)) ->
  (forall x, In x values -> is_Some (lookup !! x) \/ In x (keys (db w))) ->
  exists lookup', for_each values lookup_step lookup w = (w, Ok lookup').
Proof.
  induction values as [|v r IH]; intros lookup w Hnd Hall; cbn [for_each].
  - exists lookup. reflexivity.
  - destruct (lookup !! v) as [r0|] eqn:El.
    + assert (Hstep : lookup_step lookup v w = (w, Ok lookup)).
      { unfold lookup_step. rewrite El. reflexivity. }
      rewrite (bind_step _ _ _ _ _ Hstep). apply IH; [exact Hnd|].
      intros x Hx. apply Hall. right. exact Hx.
    + destruct (Hall v) as [[? Hv]|Hv]; [left; reflexivity|congruence|].
      destruct (lookup_step_found lookup v w El Hnd Hv) as (r0 & Hstep).
      rewrite (bind_step _ _ _ _ _ Hstep). apply IH; [exact Hnd|].
      intros x Hx. destruct (Hall x) as [Hx'|Hx']; [right; exact Hx| |auto].
      left. rewrite lookup_insert. case_decide; eauto.
Qed.

Lemma known_values_spec existing d x :
  In x (known_values existing d) <->
  is_Some (match existing with Some l => l | None => ∅ end !! x)
  \/ In x (keys d).
Proof.
  unfold known_values. rewrite in_app_iff.
  assert (E : In x match existing with
                   | Some l => map fst (map_to_list l)
                   | None => []
                   end
              <-> is_Some (match existing with Some l => l | None => ∅ end !! x));
    [|rewrite E; reflexivity].
  destruct existing as [l|].
  - rewrite <- list_elem_of_In. change (map fst (map_to_list l)) with ((map_to_list l).*1).
    rewrite list_elem_of_fmap. split.
    + intros ([k v] & -> & Hkv). apply elem_of_map_to_list in Hkv. cbn. eauto.
    + intros [v Hv]. exists (x, v). split; [reflexivity|].
      apply elem_of_map_to_list. exact Hv.
  - cbn. rewrite lookup_empty. split; [tauto | intros [? ?]; discriminate].
Qed.

(** C9.  On a table with distinct natural keys, [create_lookup] creates one
    row for each value that is neither in the pre-seeded mapping nor in the
    table, and issues two statements for it, the insert of [get_or_create]
    and the update of the [save] that follows; it issues none for a value
    already in the mapping or in the table, and a second call with the same
    values issues none and leaves the state of the run as it is. *)
Theorem create_lookup_creates_each_new_value_once
    (values : list string) (existing : option (gmap string R)) (w : World) :
  NoDup (keys (db w)) -> supply_fresh w ->
  let news := new_values (known_values existing (db w)) values in
  (NoDup news
   /\ forall v, In v news <->
                In v values /\ ~ In v (known_values existing (db w)))
  /\ exists w' lookup,
       create_lookup values existing w = (w', Ok lookup)
       /\ keys (db w') = keys (db w) ++ news
       /\ (exists ws, writes w' = writes w ++ ws
                      /\ length ws = (2 * length news)%nat)
       /\ forall again, again = existing \/ again = Some lookup ->
            exists lookup', create_lookup values again w' = (w', Ok lookup').
Proof.
  intros Hnd Hf news. split; [apply new_values_spec|].
  rewrite create_lookup_unfold.
  destruct (lookup_loop values
              (match existing with Some l => l | None => ∅ end) w
              (known_values existing (db w)))
    as (w' & lookup & Hrun & Hkeys & Hws & Hnd' & Hmono & Hall);
    [apply known_values_spec | exact Hnd | exact Hf |].
  exists w', lookup. split; [exact Hrun|]. split; [exact Hkeys|].
  split; [exact Hws|].
  intros again Hagain. rewrite create_lookup_unfold.
  apply lookup_loop_settled; [exact Hnd'|].
  intros x Hx. destruct Hagain as [->| ->]; [|left; apply Hall; exact Hx].
  destruct (in_dec String.string_dec x (known_values existing (db w))) as [Hk|Hk].
  - apply known_values_spec in Hk as [Hk|Hk]; [left; exact Hk|].
    right. rewrite Hkeys, in_app_iff. left. exact Hk.
  - right. rewrite Hkeys, in_app_iff. right.
    apply new_values_spec. split; assumption.
Qed.

End CreateLookup.

(** *** Relations and their [set] *)

Lemma mem_id_In i l : mem_id i l = true <-> In i l.
Proof.
  unfold mem_id. rewrite existsb_exists. split.
  - intros (x & Hx & E). apply N.eqb_eq in E. subst x. exact Hx.
  - intros Hin. exists i. split; [exact Hin | apply N.eqb_refl].
Qed.

Lemma mem_guid_In g l : mem_guid g l = true <-> In g l.
Proof. apply mem_id_In. Qed.

Lemma related_In rel s t : related rel s t = true <-> In (s, t) rel.
Proof.
  unfold related. rewrite existsb_exists. split.
  - intros ([a b] & Hx & E). unfold pair_eqb in E. cbn [fst snd] in E.
    apply andb_true_iff in E as [E1 E2].
    apply N.eqb_eq in E1, E2. subst a b. exact Hx.
  - intros Hin. exists (s, t). split; [exact Hin|].
    unfold pair_eqb. cbn. rewrite !N.eqb_refl. reflexivity.
Qed.

Lemma dedup_In l x : In x (dedup l) <-> In x l.
Proof.
  induction l as [|y l IH]; cbn; [tauto|].
  rewrite filter_In, IH, negb_true_iff, N.eqb_neq.
  destruct (N.eq_dec y x); [tauto|]. split; [tauto|]. intros [?|?]; [tauto|].
  right. split; [assumption | congruence].
Qed.

Lemma set_partition_spec objs : forall old,
  (forall x, In x (fst (set_partition old objs)) <-> In x old /\ ~ In x objs)
  /\ (forall x, In x (snd (set_partition old objs)) -> In x objs)
  /\ (forall x, In x objs -> ~ In x old -> In x (snd (set_partition old objs))).
Proof.
  induction objs as [|obj r IH]; intros old; cbn.
  - split; [intros x; tauto|]. split; [tauto | tauto].
  - destruct (mem_id obj old) eqn:E.
    + apply mem_id_In in E.
      destruct (IH (List.filter (fun y => negb (N.eqb y obj)) old)) as (H1 & H2 & H3).
      split; [|split].
      * intros x. rewrite H1, filter_In, negb_true_iff, N.eqb_neq.
        split; [intros [[? ?] ?]; split; [assumption|]; intros [?|?]; [congruence|tauto]|].
        intros [? Hn]. split; [split; [assumption|]|]; intros ?; apply Hn; auto.
      * intros x Hx. right. apply H2. exact Hx.
      * intros x [<-|Hx] Hn; [tauto|]. apply H3; [exact Hx|].
        rewrite filter_In. tauto.
    + assert (Hobj : ~ In obj old).
      { intros Hin. apply mem_id_In in Hin. congruence. }
      destruct (IH old) as (H1 & H2 & H3).
      destruct (set_partition old r) as [o n] eqn:Ep. cbn in *.
      split; [|split].
      * intros x. rewrite H1. split; [|tauto].
        intros [Hx Hn]. split; [exact Hx|]. intros [<-|?]; tauto.
      * intros x [<-|Hx]; [auto|]. right. apply H2. exact Hx.
      * intros x [<-|Hx] Hn; [auto|]. right. apply H3; assumption.
Qed.

Lemma filter_all {A} (f : A -> bool) (l : list A) :
  (forall x, In x l -> f x = true) -> List.filter f l = l.
Proof.
  induction l as [|x l IH]; cbn; intros Hl; [reflexivity|].
  rewrite (Hl x) by auto. f_equal. apply IH. auto.
Qed.

Lemma relation_set_run t rel with_rel source related_ids objs w :
  (forall l d, rel (with_rel l d) = l) ->
  (forall l1 l2 d, with_rel l2 (with_rel l1 d) = with_rel l2 d) ->
  exists w',
    relation_set t rel with_rel source related_ids objs w = (w', Ok tt)
    /\ next_uuid w' = next_uuid w
    /\ clock w' = clock w
    /\ (db w' = db w \/ exists l, db w' = with_rel l (db w))
    /\ rel (db w') = relation_after (rel (db w)) source related_ids objs.
Proof.
  intros Hget Hset. unfold relation_set, relation_after.
  destruct (set_partition (dedup related_ids) objs) as [old_ids new_objs].
  cbn [fst snd].
  destruct old_ids as [|o old_ids].
  - rewrite (filter_all _ (rel (db w))) by (intros; rewrite andb_false_r; reflexivity).
    unfold bind, ret, get_db, put_db, log. cbn.
    destruct (List.filter _ (dedup new_objs)) as [|m missing]; cbn.
    + eexists. split; [reflexivity|]. rewrite app_nil_r. auto.
    + eexists. split; [reflexivity|]. cbn. rewrite Hget. eauto 6.
  - unfold bind, ret, get_db, put_db, log. cbn. rewrite !Hget.
    destruct (List.filter _ (dedup new_objs)) as [|m missing]; cbn.
    + eexists. split; [reflexivity|]. cbn. rewrite Hget, app_nil_r. eauto 6.
    + eexists. split; [reflexivity|]. cbn. rewrite Hset, Hget. eauto 6.
Qed.

(** After [set], the relation of another source is as before; for the
    source, a target the manager can see is related exactly when it is one
    of the objects given. *)
Lemma relation_after_spec rel source related_ids objs :
  (forall t, In t related_ids -> In (source, t) rel) ->
  (forall s t, s <> source ->
     (In (s, t) (relation_after rel source related_ids objs) <-> In (s, t) rel))
  /\ (forall t, (In (source, t) rel -> In t related_ids) ->
       (In (source, t) (relation_after rel source related_ids objs) <-> In t objs)).
Proof.
  intros Hids. unfold relation_after.
  destruct (set_partition_spec objs (dedup related_ids)) as (H1 & H2 & H3).
  set (old_ids := fst (set_partition (dedup related_ids) objs)) in *.
  set (new_objs := snd (set_partition (dedup related_ids) objs)) in *.
  set (rel1 := List.filter
                 (fun p => negb (N.eqb (fst p) source && mem_id (snd p) old_ids)) rel).
  assert (Hrel1 : forall s t, In (s, t) rel1 <->
                    In (s, t) rel /\ ~ (s = source /\ In t old_ids)).
  { intros s t. unfold rel1. rewrite filter_In. cbn.
    rewrite negb_true_iff, andb_false_iff, N.eqb_neq.
    rewrite <- not_true_iff_false, mem_id_In.
    destruct (N.eq_dec s source); tauto. }
  split.
  - intros s t Hs. rewrite in_app_iff, Hrel1, in_map_iff. split.
    + intros [[? ?]|(x & [= <- <-] & _)]; [assumption | congruence].
    + intros Hin. left. tauto.
  - intros t Hvis. rewrite in_app_iff, Hrel1, in_map_iff. split.
    + intros [[Hin Hn]|(x & [= <-] & Hx)].
      * destruct (in_dec N.eq_dec t objs) as [?|Hno]; [assumption|].
        exfalso. apply Hn. split; [reflexivity|]. apply H1.
        rewrite dedup_In. auto.
      * apply filter_In in Hx as [Hx _]. apply (proj1 (dedup_In _ _)) in Hx.
        apply H2. exact Hx.
    + intros Hobj.
      destruct (in_dec N.eq_dec t related_ids) as [Hr|Hr].
      * left. split; [auto|]. intros [_ Ho]. apply H1 in Ho. tauto.
      * destruct (related rel1 source t) eqn:Er.
        -- left. apply related_In, Hrel1 in Er. exact Er.
        -- right. exists t. split; [reflexivity|].
           apply filter_In. split; [|rewrite Er; reflexivity].
           apply dedup_In, H3; [exact Hobj|]. rewrite dedup_In. exact Hr.
Qed.

(** *** Rows of people *)

Lemma insert_by_name_In r l x : In x (insert_by_name r l) <-> x = r \/ In x l.
Proof.
  induction l as [|y l IH]; cbn; [intuition congruence|].
  destruct (String.leb _ _); cbn; [intuition congruence|].
  rewrite IH. intuition congruence.
Qed.

Lemma order_by_name_In l x : In x (order_by_name l) <-> In x l.
Proof.
  induction l as [|y l IH]; cbn; [tauto|].
  rewrite insert_by_name_In, IH. intuition congruence.
Qed.

Lemma in_triples d i g a :
  In (i, g, a) (triples d) <->
  exists r, In r (people d) /\ People.id r = i /\ People.guid r = g
            /\ People.is_active r = a.
Proof.
  unfold triples. rewrite in_map_iff. unfold triple. split.
  - intros (r & [= <- <- <-] & Hr). eauto.
  - intros (r & Hr & <- & <- & <-). eauto.
Qed.

Lemma friends_all_ids source d i :
  In i (map People.id (friends_all source d)) <-> linked d source i.
Proof.
  unfold friends_all, linked. rewrite in_map_iff. split.
  - intros (r & <- & Hr). apply order_by_name_In, filter_In in Hr as [Hr Hrel].
    apply related_In in Hrel. split; [|exact Hrel].
    exists (People.guid r), (People.is_active r). apply in_triples. eauto.
  - intros [(g & a & Ht) Hrel]. apply in_triples in Ht as (r & Hr & <- & _).
    exists r. split; [reflexivity|]. apply order_by_name_In, filter_In.
    split; [exact Hr | apply related_In; exact Hrel].
Qed.

Lemma active_with_guid_in_ids gs d i :
  In i (map People.id (active_with_guid_in gs d)) <-> active_in d gs i.
Proof.
  unfold active_with_guid_in, OnlyActiveManager, active_in.
  rewrite in_map_iff. split.
  - intros (r & <- & Hr). apply filter_In in Hr as [Hr Hg].
    apply order_by_name_In, filter_In in Hr as [Hr Ha].
    apply mem_guid_In in Hg. exists (People.guid r). split; [|exact Hg].
    apply in_triples. eauto.
  - intros (g & Ht & Hg). apply in_triples in Ht as (r & Hr & <- & <- & Ha).
    exists r. split; [reflexivity|]. apply filter_In.
    split; [|apply mem_guid_In; exact Hg].
    apply order_by_name_In, filter_In. auto.
Qed.

Section Properties.

Variable currency_db_text : string -> option string.
Variable md5_hexdigest : string -> string.

(** *** Duplicates stop the run at the loader *)

Lemma recorded_filter company_file people_file d :
  recorded md5_hexdigest company_file people_file d <->
  List.filter
    (fun f => String.eqb (IngestedFiles.companyfile_hash f)
                         (get_hash md5_hexdigest company_file)
              && String.eqb (IngestedFiles.peoplefile_hash f)
                            (get_hash md5_hexdigest people_file))
    (ingested_files d) <> [].
Proof.
  split.
  - intros (f & Hin & E1 & E2) Hnil.
    assert (Hf : In f []); [|destruct Hf].
    rewrite <- Hnil. apply filter_In. split; [exact Hin|].
    rewrite E1, E2, !String.eqb_refl. reflexivity.
  - intros Hne. destruct (List.filter _ _) as [|f r] eqn:E; [congruence|].
    assert (Hf : In f (f :: r)) by (left; reflexivity).
    rewrite <- E in Hf. apply filter_In in Hf as [Hin Hb].
    apply andb_true_iff in Hb as [H1 H2].
    apply String.eqb_eq in H1, H2. exists f. auto.
Qed.

(** C8.  When two records of the organisation file share an index, or two
    share a name, [ingest_companies] raises the assertion error and leaves
    the store, and the whole state of the run, as it found them; so does
    the orchestrator when it reaches the loader. *)
Theorem ingest_companies_rejects_duplicates
    (company_file : DataFile (list Json.Company.t)) (w : World) :
  shares Json.Company.index (file_json company_file)
  \/ shares Json.Company.company (file_json company_file) ->
  ingest_companies company_file w = (w, Raise AssertionError)
  /\ forall people_file,
       ~ recorded md5_hexdigest company_file people_file (db w) ->
       ingest_data currency_db_text md5_hexdigest company_file people_file w
       = (w, Raise AssertionError).
Proof.
  intros Hdup.
  assert (H : ingest_companies company_file w = (w, Raise AssertionError)).
  { apply ingest_companies_asserts.
    destruct Hdup as [Hd|Hd]; [left|right]; apply duplicate_not_NoDup; exact Hd. }
  split; [exact H|].
  intros people_file Hnew. unfold ingest_data.
  rewrite (bind_step get_db _ w w (db w) eq_refl).
  destruct (List.filter _ _) as [|f r] eqn:E.
  - rewrite (bind_fail _ _ _ _ _ H). reflexivity.
  - exfalso. apply Hnew. apply recorded_filter. rewrite E. discriminate.
Qed.

(** *** The orchestrator skips a recorded pair *)

Lemma IngestedFiles_create_Ok c p w w' u :
  IngestedFiles_create c p w = (w', Ok u) ->
  exists f, ingested_files (db w') = ingested_files (db w) ++ [f]
    /\ IngestedFiles.companyfile_hash f = c
    /\ IngestedFiles.peoplefile_hash f = p.
Proof.
  unfold IngestedFiles_create, bind, uuid4, timezone_now, get_db, put_db, log, raise, ret.
  cbn. destruct (has_pk _ _ _); [discriminate|].
  intros [= <-]. cbn. eexists. split; [reflexivity|]. cbn. auto.
Qed.

(** C4.  A run of the orchestrator that succeeds leaves the fingerprint
    pair on record, and a second run on the same two files returns at once:
    the store, the list of statements issued, the identity supply and the
    clock are those the first run left. *)
Theorem ingest_data_second_run_is_noop
    (company_file : DataFile (list Json.Company.t))
    (people_file : DataFile (list Json.Person.t)) (w w1 : World) :
  ingest_data currency_db_text md5_hexdigest company_file people_file w
  = (w1, Ok tt) ->
  recorded md5_hexdigest company_file people_file (db w1)
  /\ ingest_data currency_db_text md5_hexdigest company_file people_file w1
     = (w1, Ok tt).
Proof.
  intros Hrun.
  assert (Hrec : recorded md5_hexdigest company_file people_file (db w1)).
  { revert Hrun. unfold ingest_data.
    rewrite (bind_step get_db _ w w (db w) eq_refl).
    destruct (List.filter _ _) as [|f r] eqn:E.
    - intros Hrun.
      apply bind_Ok in Hrun as (wa & lk & _ & Hrun).
      apply bind_Ok in Hrun as (wb & u & _ & Hrun).
      apply IngestedFiles_create_Ok in Hrun as (f & Hf & E1 & E2).
      exists f. rewrite Hf. split; [apply in_or_app; right; left; reflexivity|].
      auto.
    - intros [= <-]. apply recorded_filter. rewrite E. discriminate. }
  split; [exact Hrec|].
  apply recorded_filter in Hrec. unfold ingest_data.
  rewrite (bind_step get_db _ w1 w1 (db w1) eq_refl).
  destruct (List.filter _ _) as [|f r]; [congruence | reflexivity].
Qed.

(** *** Which organisation a person is linked to *)

Lemma getitem_Ok {K V} `{Countable K} (d : gmap K V) k w w' v :
  getitem d k w = (w', Ok v) -> d !! k = Some v /\ w' = w.
Proof.
  unfold getitem. destruct (d !! k); cbn; [intros [= <- <-]; auto | discriminate].
Qed.

Lemma resolve_company lk person w w' r :
  resolve lk person w = (w', Ok r) ->
  company_lookup lk !! (Json.Person.company_id person - 1) = Some (r_company r).
Proof.
  unfold resolve. intros H.
  repeat (apply bind_Ok in H as (? & ? & ? & H)).
  injection H as <- <-. cbn.
  match goal with
  | Hc : getitem (company_lookup lk) _ _ = _ |- _ =>
      apply getitem_Ok in Hc as [Hc _]; exact Hc
  end.
Qed.

Lemma People_init_company person r w w' o :
  People_init person r w = (w', Ok o) ->
  People.company_id (People.fields o) = Company.id (r_company r).
Proof. cbn. intros [= <- <-]. reflexivity. Qed.

Lemma company_name_lookup_sound (l : list Company.t) :
  forall m0 : gmap string Company.t,
    (forall n c, m0 !! n = Some c -> Company.name c = n) ->
    forall n c,
      fold_left (fun m company => <[Company.name company := company]> m) l m0 !! n
      = Some c ->
      Company.name c = n.
Proof.
  induction l as [|x l IH]; intros m0 Hm0 n c; cbn; [apply Hm0|].
  apply IH. intros n' c'. rewrite lookup_insert.
  case_decide; [intros [= <-]; congruence | apply Hm0].
Qed.

Lemma Company_create_Ok n w w' c :
  Company_create n w = (w', Ok c) -> Company.name c = n.
Proof.
  unfold Company_create, bind, uuid4, get_db, put_db, log, raise, ret. cbn.
  destruct (_ || _); [discriminate|]. intros [= <- <-]. reflexivity.
Qed.

(** Every entry of the lookup [ingest_companies] returns comes from a
    record of the file: its key is the record's index and its organisation
    bears the record's name. *)
Lemma ingest_companies_lookup file w w' lookup :
  ingest_companies file w = (w', Ok lookup) ->
  forall i c, lookup !! i = Some c ->
    exists rec, In rec (file_json file)
      /\ Json.Company.index rec = i
      /\ Json.Company.company rec = Company.name c.
Proof.
  unfold ingest_companies. intros H.
  apply bind_Ok in H as (w0 & d & Hd & H). injection Hd as <- <-.
  apply bind_Ok in H as (w1 & u1 & _ & H).
  apply bind_Ok in H as (w2 & u2 & _ & H).
  set (names := fold_left _ (companies (db w)) ∅) in H.
  assert (Hnames : forall n c, names !! n = Some c -> Company.name c = n).
  { apply company_name_lookup_sound. intros n c. rewrite lookup_empty. discriminate. }
  set (P := fun (i : Z) (c : Company.t) =>
              exists rec, In rec (file_json file)
                /\ Json.Company.index rec = i
                /\ Json.Company.company rec = Company.name c).
  assert (Hloop : forall l acc wa wb lk,
    (forall rec, In rec l -> In rec (file_json file)) ->
    (forall i c, (acc : gmap Z Company.t) !! i = Some c -> P i c) ->
    for_each l
      (fun (company_index_lookup : gmap Z Company.t) company =>
         this_company <-
           match names !! Json.Company.company company with
           | Some c => ret c
           | None => Company_create (Json.Company.company company)
           end;;
         ret (<[Json.Company.index company := this_company]> company_index_lookup))
      acc wa = (wb, Ok lk) ->
    forall i c, lk !! i = Some c -> P i c).
  { induction l as [|x l IH]; intros acc wa wb lk Hsub Hacc Hrun.
    - cbn in Hrun. injection Hrun as <- <-. exact Hacc.
    - cbn [for_each] in Hrun.
      apply bind_Ok in Hrun as (wc & acc' & Hbody & Hrun).
      apply (IH acc' wc wb lk); [intros; apply Hsub; right; assumption| |exact Hrun].
      apply bind_Ok in Hbody as (wd & c0 & Hc0 & Hret). injection Hret as <- <-.
      intros i c. rewrite lookup_insert. case_decide as Hi; [|apply Hacc].
      intros [= <-]. exists x. split; [apply Hsub; left; reflexivity|].
      split; [exact Hi|].
      destruct (names !! Json.Company.company x) as [c1|] eqn:En.
      + injection Hc0 as <- <-. symmetry. apply Hnames. exact En.
      + symmetry. eapply Company_create_Ok. exact Hc0. }
  eapply Hloop; [intros rec Hrec; exact Hrec | | exact H].
  intros i c. rewrite lookup_empty. discriminate.
Qed.

Lemma reconcile_raises_without_company lk combos person w :
  company_lookup lk !! (Json.Person.company_id person - 1) = None ->
  exists w' e, reconcile currency_db_text lk combos person w = (w', Raise e).
Proof.
  intros Hnone. unfold reconcile.
  destruct (resolve lk person w) as [w1 [r|e]] eqn:E.
  - apply resolve_company in E. congruence.
  - rewrite (bind_fail _ _ _ _ _ E). eauto.
Qed.

(** C1.  The organisation a person record is resolved to, and whose
    identity the new [People] object carries, is the one of the
    organisation record whose index is the record's [company_id] minus one;
    when no organisation record has that index the run raises. *)
Theorem company_is_resolved_by_company_id_minus_one
    (company_file : DataFile (list Json.Company.t))
    (people_file : DataFile (list Json.Person.t))
    (w0 w1 : World) (lookup : gmap Z Company.t) :
  ingest_companies company_file w0 = (w1, Ok lookup) ->
  (forall lk person w w' r,
     company_lookup lk = lookup ->
     resolve lk person w = (w', Ok r) ->
     (exists rec, In rec (file_json company_file)
        /\ Json.Company.index rec = Json.Person.company_id person - 1
        /\ Json.Company.company rec = Company.name (r_company r))
     /\ forall w2 w3 o,
          People_init person r w2 = (w3, Ok o) ->
          People.company_id (People.fields o) = Company.id (r_company r))
  /\ (forall person,
        In person (file_json people_file) ->
        (forall rec, In rec (file_json company_file) ->
           Json.Company.index rec <> Json.Person.company_id person - 1) ->
        forall w, exists w' e,
          ingest_people currency_db_text people_file lookup w = (w', Raise e)).
Proof.
  intros Hc. split.
  - intros lk person w w' r Hlk Hr. split.
    + apply resolve_company in Hr. rewrite Hlk in Hr.
      exact (ingest_companies_lookup _ _ _ _ Hc _ _ Hr).
    + intros w2 w3 o. apply People_init_company.
  - intros person Hin Hno w.
    assert (Hnone : lookup !! (Json.Person.company_id person - 1) = None).
    { destruct (lookup !! _) as [c|] eqn:E; [|reflexivity].
      destruct (ingest_companies_lookup _ _ _ _ Hc _ _ E) as (rec & Hrec & Hi & _).
      exfalso. exact (Hno rec Hrec Hi). }
    unfold ingest_people.
    repeat match goal with
    | |- exists w' e, bind ?m ?k ?w = _ =>
        let E := fresh "E" in
        destruct (m w) as [? [?|?]] eqn:E;
        [rewrite (bind_step _ _ _ _ _ E) | rewrite (bind_fail _ _ _ _ _ E); eauto]
    end.
    match goal with
    | E : for_each _ (reconcile _ ?lk) _ ?wa = (_, Ok _),
      B : build_lookups _ _ _ = (_, Ok ?lk) |- _ =>
        assert (Hlk : company_lookup lk = lookup)
          by (clear -B; unfold build_lookups in B;
              repeat (apply bind_Ok in B as (? & ? & _ & B));
              injection B as _ <-; reflexivity);
        rewrite <- Hlk in Hnone;
        destruct (for_each_raises (reconcile currency_db_text lk) _ person Hin
                    (fun acc w => reconcile_raises_without_company lk acc person w Hnone)
                    [] wa) as (wx & ex & Ex);
        rewrite Ex in E; discriminate
    end.
Qed.

(** *** Saving a person *)

Lemma People_save_eq o w b t :
  currency_db_text (People.balance (People.fields o)) = Some b ->
  People.registered (People.fields o) = Some t ->
  People.adding o
  && has_pk People.id (People.id (People.fields o)) (people (db w)) = false ->
  People_save currency_db_text o w
  = (mk_world
       (with_people
          (if has_pk People.id (People.id (People.fields o)) (people (db w))
           then replace_row People.id (People.set_balance b (People.fields o))
                            (people (db w))
           else people (db w) ++ [People.set_balance b (People.fields o)])
          (db w))
       (writes w ++
          [if has_pk People.id (People.id (People.fields o)) (people (db w))
           then Update TPeople (People.id (People.fields o))
           else Insert TPeople (People.id (People.fields o))])
       (next_uuid w) (clock w),
     Ok (People.mk_instance (People.fields o) false (People.active o))).
Proof.
  intros Hb Ht Ha. unfold People_save. rewrite Hb, Ht.
  unfold bind, get_db, put_db, log, ret. cbn. rewrite Ha.
  destruct (has_pk _ _ _); reflexivity.
Qed.

Lemma People_save_inv o w w' o' :
  People_save currency_db_text o w = (w', Ok o') ->
  exists b t,
    currency_db_text (People.balance (People.fields o)) = Some b
    /\ People.registered (People.fields o) = Some t
    /\ People.adding o
       && has_pk People.id (People.id (People.fields o)) (people (db w)) = false.
Proof.
  unfold People_save.
  destruct (currency_db_text _) as [b|]; [|discriminate].
  destruct (People.registered _) as [t|]; [|discriminate].
  unfold bind, get_db, raise. cbn.
  destruct (People.adding o && _) eqn:E; [discriminate|]. eauto.
Qed.

Lemma has_pk_In {X} (pk : X -> Id) i (l : list X) :
  has_pk pk i l = true <-> exists r, In r l /\ pk r = i.
Proof.
  unfold has_pk. rewrite existsb_exists. split.
  - intros (r & Hr & E). apply N.eqb_eq in E. eauto.
  - intros (r & Hr & E). exists r. split; [exact Hr | apply N.eqb_eq; exact E].
Qed.

Lemma triple_set_balance b f : triple (People.set_balance b f) = triple f.
Proof. reflexivity. Qed.

Lemma replace_row_ids r l :
  map People.id (replace_row People.id r l) = map People.id l.
Proof.
  induction l as [|x l IH]; cbn; [reflexivity|].
  destruct (N.eqb_spec (People.id x) (People.id r)) as [E|E]; cbn; congruence.
Qed.

Lemma replace_row_triples r l :
  (forall x, In x l -> People.id x = People.id r -> triple x = triple r) ->
  map triple (replace_row People.id r l) = map triple l.
Proof.
  induction l as [|x l IH]; cbn; intros Hl; [reflexivity|].
  rewrite IH by auto. f_equal.
  destruct (N.eqb_spec (People.id x) (People.id r)) as [E|E]; [|reflexivity].
  symmetry. apply Hl; auto.
Qed.

Lemma stored_triples o d d' : triples d' = triples d -> stored o d -> stored o d'.
Proof. unfold stored. intros ->. auto. Qed.

(** Saving a stored object again leaves every row with its identity,
    external identifier and flag. *)
Lemma People_save_stored o w :
  saveable currency_db_text o -> stored o (db w) ->
  exists w',
    People_save currency_db_text o w = (w', Ok o)
    /\ triples (db w') = triples (db w)
    /\ people_to_friend (db w') = people_to_friend (db w)
    /\ next_uuid w' = next_uuid w.
Proof.
  intros (Ha & [b Hb] & [t Ht]) [(g & a & Hex) Hall].
  assert (Hp : has_pk People.id (People.id (People.fields o)) (people (db w)) = true).
  { apply has_pk_In. apply in_triples in Hex as (r & Hr & E & _). eauto. }
  rewrite (People_save_eq o w b t Hb Ht) by (rewrite Ha; reflexivity).
  rewrite Hp. eexists. split.
  { f_equal. destruct o as [f ad ac]. cbn in *. subst ad. reflexivity. }
  cbn. split; [|auto]. unfold triples. cbn.
  apply replace_row_triples. intros x Hx E.
  rewrite triple_set_balance. cbn in E.
  destruct (Hall (People.guid x) (People.is_active x)) as [Eg Ea].
  { apply in_triples. eauto. }
  unfold triple. rewrite E, Eg, Ea. reflexivity.
Qed.

Lemma replace_row_hit {X} (pk : X -> Id) (x r : X) (l : list X) :
  In r (replace_row pk x l) -> pk r = pk x -> r = x.
Proof.
  induction l as [|y l IH]; cbn; [tauto|].
  intros [E|Hin] Hpk; [|auto].
  destruct (N.eqb_spec (pk y) (pk x)) as [Ey|Ey]; [congruence|].
  subst r. congruence.
Qed.

(** Shutting out a stored version stamps its [updated_at] and leaves its
    [is_active] as it was: the attribute [active] set on the object is not
    written. *)
Lemma shut_out_leaves_is_active row w w' o' :
  In row (people (db w)) ->
  shut_out currency_db_text (from_db row) w = (w', Ok o') ->
  forall r, In r (people (db w')) -> People.id r = People.id row ->
    People.is_active r = People.is_active row
    /\ People.updated_at r = clock w.
Proof.
  intros Hrow. unfold shut_out.
  rewrite (bind_step timezone_now _ w _ (clock w) eq_refl).
  set (w1 := mk_world (db w) (writes w) (next_uuid w) (N.succ (clock w))).
  set (o := People.set_active false (People.set_updated_at (clock w) (from_db row))).
  intros Hsave. pose proof (People_save_inv _ _ _ _ Hsave) as (b & t & Hb & Ht & Ha).
  rewrite (People_save_eq o w1 b t Hb Ht Ha) in Hsave.
  assert (Hp : has_pk People.id (People.id (People.fields o)) (people (db w1)) = true).
  { apply has_pk_In. exists row. split; [exact Hrow | reflexivity]. }
  rewrite Hp in Hsave. injection Hsave as <- _. cbn [db people with_people].
  intros r Hr Hid.
  apply replace_row_hit in Hr; [subst r; split; reflexivity | exact Hid].
Qed.

(** A record that equals the version it is compared with leaves the store
    and the list of statements as they are, and records nothing. *)
Lemma reconcile_leaves_matching_record lk combos person w r row rest :
  resolve lk person w = (w, Ok r) ->
  active_with_guid (r_guid r) (db w) = row :: rest ->
  (forall w1 o, People_init person r w = (w1, Ok o) ->
     unchanged (db w) o (from_db row) r = true) ->
  exists w1,
    reconcile currency_db_text lk combos person w = (w1, Ok combos)
    /\ db w1 = db w /\ writes w1 = writes w.
Proof.
  intros Hres Hq Hsame. unfold reconcile.
  rewrite (bind_step _ _ _ _ _ Hres).
  destruct (People_init person r w) as [w1 [o|e]] eqn:Ei; [|discriminate].
  specialize (Hsame w1 o eq_refl).
  rewrite (bind_step _ _ _ _ _ Ei).
  rewrite (bind_step get_db _ w1 w1 (db w1) eq_refl).
  cbn in Ei. injection Ei as <- <-. cbn [db People.fields People.guid].
  rewrite Hq, Hsame. cbn. eexists. split; [reflexivity|]. split; reflexivity.
Qed.

(** *** Linking friends *)

Lemma friends_set_run o objs w :
  exists w',
    friends_set o objs w = (w', Ok tt)
    /\ next_uuid w' = next_uuid w
    /\ people (db w') = people (db w)
    /\ people_to_friend (db w')
       = relation_after (people_to_friend (db w)) (People.id (People.fields o))
           (map People.id (friends_all (People.id (People.fields o)) (db w)))
           objs.
Proof.
  unfold friends_set.
  rewrite (bind_step get_db _ w w (db w) eq_refl).
  destruct (relation_set_run TPeopleToFriend people_to_friend with_people_to_friend
              (People.id (People.fields o))
              (map People.id (friends_all (People.id (People.fields o)) (db w)))
              objs w)
    as (w' & Hrun & Hn & _ & Hdb & Hrel); [reflexivity | reflexivity |].
  exists w'. split; [exact Hrun|]. split; [exact Hn|]. split; [|exact Hrel].
  destruct Hdb as [-> | [l ->]]; reflexivity.
Qed.

(** One turn of the last loop. *)
Lemma link_friends_step person friends w :
  saveable currency_db_text person -> stored person (db w) ->
  exists w',
    link_friends currency_db_text tt (person, friends) w = (w', Ok tt)
    /\ triples (db w') = triples (db w)
    /\ next_uuid w' = next_uuid w
    /\ (forall s t, s <> People.id (People.fields person) ->
         (In (s, t) (people_to_friend (db w'))
          <-> In (s, t) (people_to_friend (db w))))
    /\ (forall i, linked (db w') (People.id (People.fields person)) i
                  <-> active_in (db w) friends i).
Proof.
  intros Hs Hst. unfold link_friends.
  rewrite (bind_step get_db _ w w (db w) eq_refl).
  destruct (friends_set_run person
              (map People.id (active_with_guid_in friends (db w))) w)
    as (w1 & Hrun1 & Hn1 & Hp1 & Hrel1).
  rewrite (bind_step _ _ _ _ _ Hrun1).
  assert (Ht1 : triples (db w1) = triples (db w)).
  { unfold triples. rewrite Hp1. reflexivity. }
  destruct (People_save_stored person w1 Hs (stored_triples _ _ _ Ht1 Hst))
    as (w2 & Hrun2 & Ht2 & Hf2 & Hn2).
  rewrite (bind_step _ _ _ _ _ Hrun2).
  exists w2. split; [reflexivity|].
  split; [congruence|]. split; [congruence|].
  destruct (relation_after_spec (people_to_friend (db w))
              (People.id (People.fields person))
              (map People.id (friends_all (People.id (People.fields person)) (db w)))
              (map People.id (active_with_guid_in friends (db w))))
    as [Hother Hself].
  { intros t Ht. apply friends_all_ids in Ht as [_ Ht]. exact Ht. }
  split.
  - intros s t Hne. rewrite Hf2, Hrel1. apply Hother. exact Hne.
  - intros i. unfold linked. rewrite Hf2, Hrel1, Ht2, Ht1. split.
    + intros [Hrow Hin]. apply active_with_guid_in_ids.
      apply Hself; [|exact Hin].
      intros Hpair. apply friends_all_ids. split; assumption.
    + intros Hact. split.
      * destruct Hact as (g & Hg & _). eauto.
      * apply Hself; [|apply active_with_guid_in_ids; exact Hact].
        intros Hpair. apply friends_all_ids. split; [|exact Hpair].
        destruct Hact as (g & Hg & _). eauto.
Qed.

Lemma active_in_triples d d' gs i :
  triples d' = triples d -> (active_in d' gs i <-> active_in d gs i).
Proof. unfold active_in. intros ->. reflexivity. Qed.

(** The last loop: every recorded person ends with exactly the active rows
    of its friends' external identifiers as friends. *)
Lemma link_friends_loop combos : forall w,
  NoDup (map combo_id combos) ->
  (forall c, In c combos -> saveable currency_db_text (fst c) /\ stored (fst c) (db w)) ->
  exists w',
    for_each combos (link_friends currency_db_text) tt w = (w', Ok tt)
    /\ triples (db w') = triples (db w)
    /\ (forall s t, ~ In s (map combo_id combos) ->
         (In (s, t) (people_to_friend (db w'))
          <-> In (s, t) (people_to_friend (db w))))
    /\ (forall person friends, In (person, friends) combos ->
         forall i, linked (db w') (People.id (People.fields person)) i
                   <-> active_in (db w') friends i).
Proof.
  induction combos as [|[person friends] combos IH]; intros w Hnd Hall.
  - exists w. cbn. split; [reflexivity|]. split; [reflexivity|].
    split; [tauto | intros ? ? []].
  - cbn [for_each]. cbn [map] in Hnd. apply NoDup_cons in Hnd as [Hhead Hnd].
    rewrite list_elem_of_In in Hhead.
    destruct (Hall (person, friends)) as [Hs Hst]; [left; reflexivity|].
    destruct (link_friends_step person friends w Hs Hst)
      as (w1 & Hrun1 & Ht1 & _ & Hother1 & Hself1).
    rewrite (bind_step _ _ _ _ _ Hrun1).
    destruct (IH w1 Hnd) as (w' & Hrun & Ht & Hother & Hrest).
    { intros c Hc. destruct (Hall c) as [? ?]; [right; exact Hc|].
      split; [assumption|]. eapply stored_triples; eassumption. }
    exists w'. split; [exact Hrun|]. split; [congruence|]. split.
    + intros s t Hs'. cbn in Hs'. rewrite Hother by tauto.
      apply Hother1. intros ->. apply Hs'. left. reflexivity.
    + intros p fr [[= <- <-]|Hin] i; [|apply Hrest; exact Hin].
      rewrite (active_in_triples _ _ _ _ (eq_trans Ht Ht1)).
      rewrite <- Hself1. unfold linked. rewrite Ht, (Hother _ _ Hhead).
      reflexivity.
Qed.

(** *** The second loop records objects that are stored *)

Lemma pure_ret {A} (a : A) : pure (ret a).
Proof. intros w. reflexivity. Qed.

Lemma pure_raise {A} e : pure (raise (A := A) e).
Proof. intros w. reflexivity. Qed.

Lemma pure_bind {A B} (m : M A) (k : A -> M B) :
  pure m -> (forall a, pure (k a)) -> pure (bind m k).
Proof.
  intros Hm Hk w. unfold bind. specialize (Hm w).
  destruct (m w) as [w1 [a|e]]; cbn in *; subst w1; [apply Hk | reflexivity].
Qed.

Lemma pure_getitem {K V} `{Countable K} (d : gmap K V) k : pure (getitem d k).
Proof. unfold getitem. destruct (d !! k); [apply pure_ret | apply pure_raise]. Qed.

Lemma pure_comprehension {A B} (f : A -> M B) l :
  (forall x, pure (f x)) -> pure (comprehension f l).
Proof.
  intros Hf. induction l as [|x l IH]; cbn; [apply pure_ret|].
  apply pure_bind; [apply Hf|]. intros y.
  apply pure_bind; [exact IH|]. intros ys. apply pure_ret.
Qed.

Lemma pure_resolve lk person : pure (resolve lk person).
Proof.
  unfold resolve.
  repeat first
    [ apply pure_ret
    | apply pure_getitem
    | apply pure_comprehension; intros ?
    | apply pure_bind; [|intros ?] ].
  - unfold parse_registered.
    destruct (Py.parse_datetime _); [apply pure_ret | apply pure_ret | apply pure_raise].
  - unfold uuid_UUID. destruct (Py.UUID _); [apply pure_ret | apply pure_raise].
Qed.

Lemma stored_refines o d d' : refines d' d -> stored o d -> stored o d'.
Proof. intros [H1 H2] [Hex Hall]. split; [apply H2; exact Hex | auto]. Qed.

Lemma replace_row_refines r row l :
  In row l -> triple r = triple row ->
  (forall t, In t (map triple (replace_row People.id r l)) -> In t (map triple l))
  /\ (forall i, (exists g a, In (i, g, a) (map triple l)) ->
                exists g a, In (i, g, a) (map triple (replace_row People.id r l))).
Proof.
  intros Hrow Et. split.
  - intros t Ht. apply in_map_iff in Ht as (x & <- & Hx).
    assert (Hx' : exists y, In y l /\ x = (if N.eqb (People.id y) (People.id r) then r else y)).
    { clear -Hx. induction l as [|y l IH]; cbn in Hx; [destruct Hx|].
      destruct Hx as [<-|Hx]; [exists y; split; [left|]; reflexivity|].
      destruct (IH Hx) as (z & Hz & E). exists z. split; [right; exact Hz | exact E]. }
    destruct Hx' as (y & Hy & ->).
    destruct (N.eqb _ _); [rewrite Et|]; apply in_map; assumption.
  - intros i (g & a & Hi). apply in_map_iff in Hi as (x & Ex & Hx).
    assert (Hid : In i (map People.id (replace_row People.id r l))).
    { rewrite replace_row_ids. apply in_map_iff. exists x. split; [|exact Hx].
      unfold triple in Ex. congruence. }
    apply in_map_iff in Hid as (y & <- & Hy).
    exists (People.guid y), (People.is_active y).
    apply in_map_iff. exists y. split; [reflexivity | exact Hy].
Qed.

Lemma shut_out_refines row w w' o' :
  In row (people (db w)) ->
  shut_out currency_db_text (from_db row) w = (w', Ok o') ->
  refines (db w') (db w) /\ next_uuid w' = next_uuid w.
Proof.
  intros Hrow. unfold shut_out.
  rewrite (bind_step timezone_now _ w _ (clock w) eq_refl).
  set (w1 := mk_world (db w) (writes w) (next_uuid w) (N.succ (clock w))).
  set (o := People.set_active false (People.set_updated_at (clock w) (from_db row))).
  intros Hsave. pose proof (People_save_inv _ _ _ _ Hsave) as (b & t & Hb & Ht & Ha).
  rewrite (People_save_eq o w1 b t Hb Ht Ha) in Hsave.
  assert (Hp : has_pk People.id (People.id (People.fields o)) (people (db w1)) = true).
  { apply has_pk_In. exists row. split; [exact Hrow | reflexivity]. }
  rewrite Hp in Hsave. injection Hsave as <- _. cbn. split; [|reflexivity].
  unfold refines, triples. cbn.
  apply (replace_row_refines _ row); [exact Hrow | reflexivity].
Qed.

Lemma tags_set_run o objs w :
  exists w', tags_set o objs w = (w', Ok tt)
    /\ next_uuid w' = next_uuid w /\ people (db w') = people (db w).
Proof.
  unfold tags_set. rewrite (bind_step get_db _ w w (db w) eq_refl).
  destruct (relation_set_run TPeopleTags people_tags with_people_tags
              (People.id (People.fields o))
              (map Tag.id (tags_all (People.id (People.fields o)) (db w))) objs w)
    as (w' & Hrun & Hn & _ & Hdb & _); [reflexivity | reflexivity |].
  exists w'. split; [exact Hrun|]. split; [exact Hn|].
  destruct Hdb as [-> | [l ->]]; reflexivity.
Qed.

Lemma favourite_food_set_run o objs w :
  exists w', favourite_food_set o objs w = (w', Ok tt)
    /\ next_uuid w' = next_uuid w /\ people (db w') = people (db w).
Proof.
  unfold favourite_food_set. rewrite (bind_step get_db _ w w (db w) eq_refl).
  destruct (relation_set_run TPeopleToFood people_to_food with_people_to_food
              (People.id (People.fields o))
              (map Food.id (favourite_food_all (People.id (People.fields o)) (db w)))
              objs w)
    as (w' & Hrun & Hn & _ & Hdb & _); [reflexivity | reflexivity |].
  exists w'. split; [exact Hrun|]. split; [exact Hn|].
  destruct Hdb as [-> | [l ->]]; reflexivity.
Qed.

Lemma save_new_recording o r combos w w' combos' :
  People.adding o = true ->
  (forall i g a, In (i, g, a) (triples (db w)) -> (i < People.id (People.fields o))%N) ->
  (People.id (People.fields o) < next_uuid w)%N ->
  NoDup (map combo_id combos) ->
  (forall c, In c combos ->
     (combo_id c < People.id (People.fields o))%N
     /\ saveable currency_db_text (fst c) /\ stored (fst c) (db w)) ->
  save_new currency_db_text o r combos w = (w', Ok combos') ->
  recording currency_db_text w' combos'.
Proof.
  intros Hadd Hfresh Hlt Hnd Hall. unfold save_new. intros H.
  apply bind_Ok in H as (w1 & o1 & Hs1 & H).
  pose proof (People_save_inv _ _ _ _ Hs1) as (b & t & Hb & Ht & Ha).
  rewrite (People_save_eq o w b t Hb Ht Ha) in Hs1.
  rewrite Hadd in Ha. cbn in Ha. rewrite Ha in Hs1.
  injection Hs1 as <- <-.
  destruct (tags_set_run (People.mk_instance (People.fields o) false (People.active o))
              (r_tags r)
              (mk_world (with_people (people (db w) ++ [People.set_balance b (People.fields o)]) (db w))
                        (writes w ++ [Insert TPeople (People.id (People.fields o))])
                        (next_uuid w) (clock w)))
    as (w2 & Hrun2 & Hn2 & Hp2).
  rewrite (bind_step _ _ _ _ _ Hrun2) in H.
  destruct (favourite_food_set_run
              (People.mk_instance (People.fields o) false (People.active o))
              (r_foods r) w2)
    as (w3 & Hrun3 & Hn3 & Hp3).
  rewrite (bind_step _ _ _ _ _ Hrun3) in H.
  apply bind_Ok in H as (w4 & o4 & Hs4 & H). injection H as <- <-.
  pose proof (People_save_inv _ _ _ _ Hs4) as (b4 & t4 & Hb4 & Ht4 & Ha4).
  rewrite (People_save_eq _ w3 b4 t4 Hb4 Ht4 Ha4) in Hs4.
  cbn [People.fields People.active] in *.
  assert (E : b4 = b) by congruence. subst b4.
  assert (Hp : has_pk People.id (People.id (People.fields o)) (people (db w3)) = true).
  { apply has_pk_In. rewrite Hp3, Hp2. cbn.
    exists (People.set_balance b (People.fields o)).
    split; [apply in_or_app; right; left; reflexivity | reflexivity]. }
  rewrite Hp in Hs4. injection Hs4 as <- <-.
  assert (Htr : triples
                  (with_people
                     (replace_row People.id (People.set_balance b (People.fields o))
                                  (people (db w3))) (db w3))
                = triples (db w) ++ [triple (People.fields o)]).
  { unfold triples. cbn. rewrite replace_row_triples.
    - rewrite Hp3, Hp2. cbn. rewrite map_app. reflexivity.
    - intros x Hx Ex. rewrite Hp3, Hp2 in Hx. cbn in Hx.
      apply in_app_iff in Hx as [Hx|[<-|[]]]; [|reflexivity].
      exfalso. cbn in Ex.
      assert (Hlt' : (People.id x < People.id (People.fields o))%N).
      { apply (Hfresh _ (People.guid x) (People.is_active x)).
        apply in_triples. eauto. }
      lia. }
  unfold recording, stored. cbn [db next_uuid].
  rewrite Htr, Hn3, Hn2. cbn [next_uuid].
  split; [|split].
  - intros i g a Hi. apply in_app_iff in Hi as [Hi|[[= <- _ _]|[]]]; [|exact Hlt].
    specialize (Hfresh _ _ _ Hi). lia.
  - rewrite map_app. cbn. apply NoDup_app. split; [exact Hnd|].
    split; [|apply NoDup_singleton].
    intros x Hx Hx'. apply list_elem_of_In in Hx.
    apply list_elem_of_In in Hx'. destruct Hx' as [<-|[]].
    apply in_map_iff in Hx as (c & Ec & Hc).
    destruct (Hall c Hc) as [Hc' _]. unfold combo_id in *. cbn in Ec. lia.
  - intros c Hc. apply in_app_iff in Hc as [Hc|[<-|[]]].
    + destruct (Hall c Hc) as (Hc1 & Hc2 & [Hex Hun]).
      split; [lia|]. split; [exact Hc2|]. split.
      * destruct Hex as (g & a & Hex). exists g, a. apply in_app_iff. auto.
      * intros g a Hi. apply in_app_iff in Hi as [Hi|[[= E _ _]|[]]]; [auto|].
        unfold combo_id in Hc1. lia.
    + unfold combo_id. cbn. split; [exact Hlt|]. split.
      * split; [reflexivity|]. cbn. rewrite Hb, Ht. eauto.
      * split.
        -- exists (People.guid (People.fields o)), (People.is_active (People.fields o)).
           apply in_app_iff. right. left. reflexivity.
        -- intros g a Hi. apply in_app_iff in Hi as [Hi|[[= <- <-]|[]]]; [|auto].
           specialize (Hfresh _ _ _ Hi). lia.
Qed.

Lemma recording_supply w w' combos :
  db w' = db w -> (next_uuid w <= next_uuid w')%N ->
  recording currency_db_text w combos -> recording currency_db_text w' combos.
Proof.
  intros Ed Hn (Hf & Hnd & Hall). unfold recording. rewrite Ed.
  split; [|split; [exact Hnd|]].
  - intros i g a Hi. specialize (Hf _ _ _ Hi). lia.
  - intros c Hc. destruct (Hall c Hc) as (? & ? & ?). split; [lia | auto].
Qed.

Lemma active_with_guid_In g d row :
  In row (active_with_guid g d) -> In row (people d).
Proof.
  unfold active_with_guid, OnlyActiveManager. intros H.
  apply filter_In in H as [H _].
  apply order_by_name_In, filter_In in H as [H _]. exact H.
Qed.

Lemma reconcile_recording lk combos person w w' combos' :
  recording currency_db_text w combos ->
  reconcile currency_db_text lk combos person w = (w', Ok combos') ->
  recording currency_db_text w' combos'.
Proof.
  intros Hrec. unfold reconcile. intros H.
  apply bind_Ok in H as (w1 & r & Hr & H).
  assert (E1 : w1 = w).
  { pose proof (pure_resolve lk person w) as Hp. rewrite Hr in Hp. exact Hp. }
  subst w1. clear Hr.
  apply bind_Ok in H as (w2 & o & Ho & H).
  cbn in Ho. injection Ho as <- <-.
  apply bind_Ok in H as (w3 & d & Hd & H). injection Hd as <- <-.
  cbn [People.fields People.guid] in H.
  set (o := People.mk_instance _ true None) in H.
  set (w2 := mk_world (db w) (writes w) (N.succ (next_uuid w)) (N.succ (N.succ (clock w)))) in H.
  assert (Hid : People.id (People.fields o) = next_uuid w) by reflexivity.
  destruct Hrec as (Hf & Hnd & Hall).
  assert (Hnew : forall w3,
            refines (db w3) (db w) -> next_uuid w3 = N.succ (next_uuid w) ->
            save_new currency_db_text o r combos w3 = (w', Ok combos') ->
            recording currency_db_text w' combos').
  { intros w3 [Hsub Hids] Hn3 Hsave.
    apply (save_new_recording o r combos w3 w' combos'); try assumption.
    - reflexivity.
    - intros i g a Hi. rewrite Hid. apply (Hf i g a). apply Hsub. exact Hi.
    - rewrite Hid, Hn3. lia.
    - intros c Hc. destruct (Hall c Hc) as (Hc1 & Hc2 & Hc3).
      rewrite Hid. split; [exact Hc1|]. split; [exact Hc2|].
      apply (stored_refines _ (db w)); [split; assumption | exact Hc3]. }
  destruct (active_with_guid _ _) as [|row rest] eqn:Eq.
  - apply (Hnew w2); [split; auto | reflexivity | exact H].
  - assert (Hrow : In row (people (db w2))).
    { apply (active_with_guid_In (r_guid r)). cbn. rewrite Eq. left. reflexivity. }
    destruct (negb _).
    + apply bind_Ok in H as (w3 & o3 & Hshut & H).
      destruct (shut_out_refines row w2 w3 o3 Hrow Hshut) as [Href Hn3].
      apply (Hnew w3); [exact Href | exact Hn3 | exact H].
    + injection H as <- <-.
      apply (recording_supply w w2); [reflexivity | cbn; lia |].
      split; [exact Hf | split; assumption].
Qed.

Lemma reconcile_loop_recording lk people : forall combos w w' combos',
  recording currency_db_text w combos ->
  for_each people (reconcile currency_db_text lk) combos w = (w', Ok combos') ->
  recording currency_db_text w' combos'.
Proof.
  induction people as [|person people IH]; intros combos w w' combos' Hrec H.
  - cbn in H. injection H as <- <-. exact Hrec.
  - cbn [for_each] in H. apply bind_Ok in H as (w1 & combos1 & Hstep & H).
    eapply IH; [|exact H]. eapply reconcile_recording; eassumption.
Qed.

(** *** Parsing the registration timestamp *)

(** C2.  A [registered] text that, once its blanks are removed, reads
    [YYYY-MM-DDTHH:MM+HH:MM] or [YYYY-MM-DDTHH:MM-HH:MM], the date and the
    time joined by the letter [T], is parsed by the second loop to the
    timestamp it denotes, and nothing is raised. *)
Theorem registered_joined_by_T_is_parsed
    (registered : string) (y mo d h mi : Z) (west : bool) (oh om : Z)
    (w : World) :
  Py.remove_spaces registered = registered_text "T" EmptyString y mo d h mi west oh om ->
  0 <= oh < 100 -> 0 <= om < 100 ->
  Py.datetime_valid (registered_value y mo d h mi west oh om) = true ->
  parse_registered registered w
  = (w, Ok (Some (registered_value y mo d h mi west oh om))).
Proof.
  intros Htext Hoh Hom Hvalid. unfold parse_registered.
  rewrite Htext, parse_datetime_T by assumption. reflexivity.
Qed.

End Properties.

(** ** Further properties *)

(** *** Every outcome of a run *)

Lemma yields_ret {A} (R : DB -> DB -> Prop) `{!Reflexive R} (Q : A -> Prop) a :
  Q a -> yields R Q (ret a).
Proof. intros Ha w. cbn. split; [reflexivity | intros ? [= <-]; exact Ha]. Qed.

Lemma yields_raise {A} (R : DB -> DB -> Prop) `{!Reflexive R} (Q : A -> Prop) e :
  yields R Q (raise e).
Proof. intros w. cbn. split; [reflexivity | discriminate]. Qed.

Lemma yields_bind {A B} (R : DB -> DB -> Prop) `{!Transitive R}
    (P : A -> Prop) (Q : B -> Prop) (m : M A) (k : A -> M B) :
  yields R P m -> (forall a, P a -> yields R Q (k a)) -> yields R Q (bind m k).
Proof.
  intros Hm Hk w. unfold bind. specialize (Hm w).
  destruct (m w) as [w1 [a|e]]; cbn in Hm; destruct Hm as [H1 H2].
  - destruct (Hk a (H2 a eq_refl) w1) as [H3 H4]. split; [|exact H4].
    etransitivity; eassumption.
  - cbn. split; [exact H1 | discriminate].
Qed.

Lemma yields_weaken {A} (R : DB -> DB -> Prop) (P Q : A -> Prop) (m : M A) :
  (forall a, P a -> Q a) -> yields R P m -> yields R Q m.
Proof. intros HPQ Hm w. destruct (Hm w) as [H1 H2]. split; auto. Qed.

Lemma yields_pure {A} (R : DB -> DB -> Prop) `{!Reflexive R} (m : M A) :
  pure m -> yields R anything m.
Proof. intros Hm w. rewrite Hm. split; [reflexivity | intros; exact I]. Qed.

Lemma yields_for_each {A S} (R : DB -> DB -> Prop) `{!PreOrder R}
    (I : S -> Prop) (body : S -> A -> M S) (l : list A) :
  (forall acc x, In x l -> I acc -> yields R I (body acc x)) ->
  forall acc, I acc -> yields R I (for_each l body acc).
Proof.
  induction l as [|x l IH]; intros Hb acc Hacc; cbn [for_each].
  - apply yields_ret; [apply _ | exact Hacc].
  - apply (yields_bind R I); [apply Hb; [left; reflexivity | exact Hacc] |].
    intros acc' Hacc'. apply IH; [|exact Hacc'].
    intros a y Hy. apply Hb. right. exact Hy.
Qed.

Lemma pure_get_db : pure get_db.
Proof. intros w. reflexivity. Qed.

Lemma yields_get_db (R : DB -> DB -> Prop) `{!Reflexive R} : yields R anything get_db.
Proof. apply yields_pure; [apply _ | apply pure_get_db]. Qed.

Lemma yields_put_db (R : DB -> DB -> Prop) (d' : DB) :
  (forall d, R d d') -> yields R anything (put_db d').
Proof. intros H w. cbn. split; [apply H | intros; exact I]. Qed.

Lemma yields_log (R : DB -> DB -> Prop) `{!Reflexive R} x : yields R anything (log x).
Proof. intros w. cbn. split; [reflexivity | intros; exact I]. Qed.

Lemma yields_uuid4 (R : DB -> DB -> Prop) `{!Reflexive R} : yields R anything uuid4.
Proof. intros w. cbn. split; [reflexivity | intros; exact I]. Qed.

Lemma yields_timezone_now (R : DB -> DB -> Prop) `{!Reflexive R} :
  yields R anything timezone_now.
Proof. intros w. cbn. split; [reflexivity | intros; exact I]. Qed.

(** A statement issued on the store just read. *)
Lemma yields_statement {A} (R : DB -> DB -> Prop) (f : DB -> DB) (x : Write)
    (Q : A -> Prop) (a : A) (w : World) :
  R (db w) (f (db w)) -> Q a ->
  R (db w) (db (fst ((put_db (f (db w));;; log x;;; ret a) w)))
  /\ forall a', snd ((put_db (f (db w));;; log x;;; ret a) w) = Ok a' -> Q a'.
Proof. intros HR HQ. cbn. split; [exact HR | intros ? [= <-]; exact HQ]. Qed.

(** *** The statements of a run *)

#[export] Instance Food_statement : LookupModelStatement Food.t.
Proof. split; [intros d i v Hi; exact (ps_food d i v Hi) | intros []; reflexivity]. Qed.

#[export] Instance Tag_statement : LookupModelStatement Tag.t.
Proof. split; [intros d i v Hi; exact (ps_tag d i v Hi) | intros []; reflexivity]. Qed.

#[export] Instance Gender_statement : LookupModelStatement Gender.t.
Proof. split; [intros d i v Hi; exact (ps_gender d i v Hi) | intros []; reflexivity]. Qed.

#[export] Instance EyeColor_statement : LookupModelStatement EyeColor.t.
Proof. split; [intros d i v Hi; exact (ps_eye_color d i v Hi) | intros []; reflexivity]. Qed.

Lemma has_pk_false_In {X} (pk : X -> Id) i (l : list X) :
  has_pk pk i l = false -> forall x, In x l -> pk x <> i.
Proof.
  intros Hf x Hx E. assert (has_pk pk i l = true) as Ht.
  { apply has_pk_In. exists x. auto. }
  congruence.
Qed.

Section LookupStatements.

Context {R : Type} `{LookupModelLaws R} `{!LookupModelStatement R}.

Lemma lookup_step_statements (lookup : gmap string R) (v : string) :
  yields (rtc people_statement) anything (lookup_step lookup v).
Proof.
  intros w. unfold lookup_step. destruct (lookup !! v) as [r|]; cbn.
  { split; [reflexivity | intros; exact I]. }
  unfold get_or_create, bind, get_db, uuid4. cbn.
  destruct (List.filter _ (lm_all (db w))) as [|r [|r2 l]]; cbn.
  - destruct (has_pk lm_pk (next_uuid w) (lm_all (db w))) eqn:Hpk; cbn.
    { split; [reflexivity | discriminate]. }
    unfold lm_save, bind, get_db, put_db, log, ret. cbn.
    rewrite lm_all_with, lm_new_pk.
    pose proof (has_pk_last (lm_all (db w)) (lm_new (next_uuid w) v)) as Hl.
    rewrite lm_new_pk in Hl. rewrite Hl. cbn.
    rewrite replace_row_last.
    2:{ intros x Hx. rewrite lm_new_pk. exact (has_pk_false_In _ _ _ Hpk x Hx). }
    split; [|intros; exact I].
    replace (lm_with _ (lm_with _ (db w)))
      with (lm_with (lm_all (db w) ++ [lm_new (next_uuid w) v]) (db w)).
    + apply rtc_once. apply lm_appends. exact Hpk.
    + set (d1 := lm_with _ (db w)).
      rewrite <- (lm_all_with (lm_all (db w) ++ [lm_new (next_uuid w) v]) (db w)).
      fold d1. symmetry. apply lm_with_all.
  - split; [reflexivity | intros; exact I].
  - split; [reflexivity | discriminate].
Qed.

Lemma create_lookup_statements (values : list string)
    (existing : option (gmap string R)) :
  yields (rtc people_statement) anything (create_lookup values existing).
Proof.
  unfold create_lookup. apply yields_for_each; [apply _ | | exact I].
  intros acc x _ _. apply lookup_step_statements.
Qed.

End LookupStatements.

Lemma pure_for_each {A S} (body : S -> A -> M S) (l : list A) :
  (forall acc x, pure (body acc x)) -> forall acc, pure (for_each l body acc).
Proof.
  intros Hb. induction l as [|x l IH]; intros acc; cbn [for_each].
  - apply pure_ret.
  - apply pure_bind; [apply Hb | exact IH].
Qed.

Lemma pure_uuid_UUID s : pure (uuid_UUID s).
Proof. unfold uuid_UUID. destruct (Py.UUID s); [apply pure_ret | apply pure_raise]. Qed.

Lemma pure_harvest people : pure (harvest people).
Proof.
  unfold harvest. apply pure_for_each. intros h p. unfold harvest_person.
  apply pure_bind; [apply pure_uuid_UUID | intros; apply pure_ret].
Qed.

Lemma build_lookups_statements people company_lookup :
  yields (rtc people_statement) anything (build_lookups people company_lookup).
Proof.
  unfold build_lookups.
  apply (yields_bind _ anything); [apply yields_pure; [apply _ | apply pure_harvest] |].
  intros h _.
  apply (yields_bind _ anything); [apply create_lookup_statements |]. intros ? _.
  apply (yields_bind _ anything); [apply create_lookup_statements |]. intros ? _.
  apply (yields_bind _ anything); [apply create_lookup_statements |]. intros ? _.
  apply (yields_bind _ anything); [apply create_lookup_statements |]. intros ? _.
  apply yields_ret; [apply _ | exact I].
Qed.

Lemma relation_set_statements t rel with_rel source related_ids objs :
  (forall d l, people_statement d (with_rel l d)) ->
  yields (rtc people_statement) anything
    (relation_set t rel with_rel source related_ids objs).
Proof.
  intros Hs. unfold relation_set.
  destruct (set_partition (dedup related_ids) objs) as [old_ids new_objs].
  apply (yields_bind _ anything).
  - destruct old_ids.
    + apply yields_ret; [apply _ | exact I].
    + intros w. cbn. split; [apply rtc_once, Hs | intros; exact I].
  - intros _ _ w. cbn.
    destruct (List.filter _ (dedup new_objs)); cbn.
    + split; [reflexivity | intros; exact I].
    + split; [apply rtc_once, Hs | intros; exact I].
Qed.

Lemma tags_set_statements o objs :
  yields (rtc people_statement) anything (tags_set o objs).
Proof.
  unfold tags_set. apply (yields_bind _ anything); [apply yields_get_db; apply _ |].
  intros d _. apply relation_set_statements. intros; apply ps_tags.
Qed.

Lemma favourite_food_set_statements o objs :
  yields (rtc people_statement) anything (favourite_food_set o objs).
Proof.
  unfold favourite_food_set.
  apply (yields_bind _ anything); [apply yields_get_db; apply _ |].
  intros d _. apply relation_set_statements. intros; apply ps_foods.
Qed.

Lemma friends_set_statements o objs :
  yields (rtc people_statement) anything (friends_set o objs).
Proof.
  unfold friends_set. apply (yields_bind _ anything); [apply yields_get_db; apply _ |].
  intros d _. apply relation_set_statements. intros; apply ps_friends.
Qed.

Section Statements.

Variable currency_db_text : string -> option string.
Variable md5_hexdigest : string -> string.

Lemma People_save_statements o :
  flagged o ->
  yields (rtc people_statement) (fun o' => People.fields o' = People.fields o)
    (People_save currency_db_text o).
Proof.
  intros Ho w. unfold People_save.
  destruct (currency_db_text _) as [b|]; [|cbn; split; [reflexivity | discriminate]].
  destruct (People.registered _) as [t|] eqn:Ht;
    [|cbn; split; [reflexivity | discriminate]].
  assert (is_Some (People.registered (People.set_balance b (People.fields o))))
    as Hreg by (cbn; rewrite Ht; eauto).
  cbn. destruct (has_pk People.id _ (people (db w))) eqn:Hpk.
  - destruct (People.adding o); cbn; [split; [reflexivity | discriminate] |].
    split; [|intros ? [= <-]; reflexivity].
    apply rtc_once. apply ps_update; [exact Ho | exact Hreg].
  - rewrite andb_false_r. cbn.
    split; [|intros ? [= <-]; reflexivity].
    apply rtc_once. apply ps_insert; [exact Ho | exact Hreg | exact Hpk].
Qed.

Lemma save_new_statements o r combos :
  flagged o -> (forall c, In c combos -> flagged (fst c)) ->
  yields (rtc people_statement) (fun combos' => forall c, In c combos' -> flagged (fst c))
    (save_new currency_db_text o r combos).
Proof.
  intros Ho Hc. unfold save_new.
  eapply yields_bind; [apply _ | apply People_save_statements; exact Ho |].
  intros o1 H1. cbn beta in H1.
  apply (yields_bind _ anything); [apply tags_set_statements |]. intros _ _.
  apply (yields_bind _ anything); [apply favourite_food_set_statements |]. intros _ _.
  eapply yields_bind; [apply _ | apply People_save_statements | ].
  { unfold flagged. rewrite H1. exact Ho. }
  intros o2 H2. cbn beta in H2. apply yields_ret; [apply _ |].
  intros c [Hin | [<- | []]]%in_app_or; [apply Hc; exact Hin |].
  unfold flagged. cbn. rewrite H2, H1. exact Ho.
Qed.

Lemma active_with_guid_flagged g d row :
  In row (active_with_guid g d) -> People.is_active row = true.
Proof.
  unfold active_with_guid, OnlyActiveManager. intros Hin.
  apply filter_In in Hin as [Hin _].
  apply (proj1 (order_by_name_In _ _)) in Hin.
  apply filter_In in Hin as [_ Hin]. exact Hin.
Qed.

Lemma shut_out_statements row :
  People.is_active row = true ->
  yields (rtc people_statement) anything (shut_out currency_db_text (from_db row)).
Proof.
  intros Hrow. unfold shut_out.
  apply (yields_bind _ anything); [apply yields_timezone_now; apply _ |].
  intros now _. eapply yields_weaken; [|apply People_save_statements].
  - intros; exact I.
  - exact Hrow.
Qed.

Lemma People_init_flagged person r :
  yields (rtc people_statement) flagged (People_init person r).
Proof. intros w. cbn. split; [reflexivity | intros ? [= <-]; reflexivity]. Qed.

Lemma reconcile_statements lk combos person :
  (forall c, In c combos -> flagged (fst c)) ->
  yields (rtc people_statement) (fun combos' => forall c, In c combos' -> flagged (fst c))
    (reconcile currency_db_text lk combos person).
Proof.
  intros Hc. unfold reconcile.
  apply (yields_bind _ anything); [apply yields_pure; [apply _ | apply pure_resolve] |].
  intros r _.
  apply (yields_bind _ flagged); [apply People_init_flagged |]. intros o Ho.
  apply (yields_bind _ anything); [apply yields_get_db; apply _ |]. intros d _.
  destruct (active_with_guid _ d) as [|row rest] eqn:E.
  - apply save_new_statements; assumption.
  - destruct (negb _).
    + apply (yields_bind _ anything).
      * apply shut_out_statements.
        apply (active_with_guid_flagged (People.guid (People.fields o)) d).
        rewrite E. left. reflexivity.
      * intros _ _. apply save_new_statements; assumption.
    + apply yields_ret; [apply _ | exact Hc].
Qed.

Lemma link_friends_statements person friends :
  flagged person ->
  yields (rtc people_statement) anything
    (link_friends currency_db_text tt (person, friends)).
Proof.
  intros Hp. unfold link_friends.
  apply (yields_bind _ anything); [apply yields_get_db; apply _ |]. intros d _.
  apply (yields_bind _ anything); [apply friends_set_statements |]. intros _ _.
  eapply yields_bind; [apply _ | apply People_save_statements; exact Hp |].
  intros _ _. apply yields_ret; [apply _ | exact I].
Qed.

Lemma ingest_people_statements file company_lookup :
  yields (rtc people_statement) anything
    (ingest_people currency_db_text file company_lookup).
Proof.
  unfold ingest_people.
  apply (yields_bind _ anything); [apply build_lookups_statements |]. intros lk _.
  eapply yields_bind; [apply _ | |].
  - apply (yields_for_each _ (fun combos => forall c, In c combos -> flagged (fst c))).
    + intros acc x _ Hacc. apply reconcile_statements. exact Hacc.
    + intros c [].
  - intros combos Hc. cbn beta in Hc.
    apply (yields_for_each _ anything); [|exact I].
    intros [] [person friends] Hin _. apply link_friends_statements.
    exact (Hc _ Hin).
Qed.

Lemma Company_create_statements n :
  yields (rtc company_statement) anything (Company_create n).
Proof.
  intros w. unfold Company_create. cbn.
  destruct (has_pk _ _ _ || existsb _ _) eqn:E; cbn.
  - split; [reflexivity | discriminate].
  - apply orb_false_elim in E as [E1 E2].
    split; [apply rtc_once, cs_insert; assumption | intros; exact I].
Qed.

Lemma ingest_companies_statements file :
  yields (rtc company_statement) anything (ingest_companies file).
Proof.
  unfold ingest_companies.
  apply (yields_bind _ anything); [apply yields_get_db; apply _ |]. intros d _.
  apply (yields_bind _ anything).
  { destruct (Nat.eqb _ _); [apply yields_ret | apply yields_raise]; try apply _.
    exact I. }
  intros _ _. apply (yields_bind _ anything).
  { destruct (Nat.eqb _ _); [apply yields_ret | apply yields_raise]; try apply _.
    exact I. }
  intros _ _. apply (yields_for_each _ anything); [|exact I].
  intros acc x _ _. apply (yields_bind _ anything).
  - destruct (_ !! _); [apply yields_ret; [apply _ | exact I] |].
    apply Company_create_statements.
  - intros c _. apply yields_ret; [apply _ | exact I].
Qed.

End Statements.

(** *** What the statements keep *)

Lemma replace_row_In_inv {X} (pk : X -> Id) (r x : X) (l : list X) :
  In x (replace_row pk r l) -> x = r \/ In x l.
Proof.
  induction l as [|y l IH]; cbn; [tauto|].
  intros [E | Hin].
  - destruct (N.eqb (pk y) (pk r)); [left | right; left]; congruence.
  - destruct (IH Hin); auto.
Qed.

Lemma replace_row_In {X} (pk : X -> Id) (r x : X) (l : list X) :
  In x l -> In (if N.eqb (pk x) (pk r) then r else x) (replace_row pk r l).
Proof.
  induction l as [|y l IH]; cbn; [tauto|].
  intros [-> | Hin]; [left; reflexivity | right; auto].
Qed.

Lemma classified_food_type i v :
  Food.food_type (Food.classified (Food.mk i v Food.UNCLASSIFIED)) = food_type_of v
  /\ Food.name (Food.classified (Food.mk i v Food.UNCLASSIFIED)) = v
  /\ Food.id (Food.classified (Food.mk i v Food.UNCLASSIFIED)) = i.
Proof.
  unfold Food.classified, food_type_of. cbn.
  destruct (Food.type_lookup v); cbn; auto.
Qed.

Lemma extends_refl {X} (l : list X) : extends l l.
Proof. exists []. symmetry. apply app_nil_r. Qed.

Lemma extends_trans {X} (l1 l2 l3 : list X) :
  extends l1 l2 -> extends l2 l3 -> extends l1 l3.
Proof. intros [a ->] [b ->]. exists (a ++ b). symmetry. apply app_assoc. Qed.

Lemma kept_refl d : kept d d.
Proof.
  repeat split; auto using extends_refl.
  - intros row Hin Ha. exists row. auto.
  - exists []. split; [symmetry; apply app_nil_r | intros ? []].
Qed.

Lemma kept_trans d1 d2 d3 : kept d1 d2 -> kept d2 d3 -> kept d1 d3.
Proof.
  intros (A1 & A2 & A3 & A4 & (m1 & A5 & A5') & A6 & A7 & A8)
         (B1 & B2 & B3 & B4 & (m2 & B5 & B5') & B6 & B7 & B8).
  repeat split; eauto using extends_trans; try congruence.
  - intros row Hin Ha. destruct (A4 row Hin Ha) as (row' & H1 & H2 & H3).
    destruct (B4 row' H1 H3) as (row'' & H4 & H5 & H6).
    exists row''. repeat split; congruence.
  - exists (m1 ++ m2). split.
    + rewrite B5, A5. symmetry. apply app_assoc.
    + intros f [Hf | Hf]%in_app_or; auto.
Qed.

Lemma people_statement_kept d d' : people_statement d d' -> kept d d'.
Proof.
  assert (forall X (l : list X), exists more : list X, l = l ++ more) as Hnil.
  { intros. exists []. symmetry. apply app_nil_r. }
  assert (forall l : list Food.t, exists more, l = l ++ more
            /\ forall f, In f more -> Food.food_type f = food_type_of (Food.name f))
    as Hfood.
  { intros. exists []. split; [symmetry; apply app_nil_r | intros ? []]. }
  assert (forall row, In row (people d) -> People.is_active row = true ->
            exists row', In row' (people d) /\ People.id row' = People.id row
                         /\ People.is_active row' = true) as Hsame.
  { intros row Hin Ha. exists row. auto. }
  destruct 1; unfold kept, extends; cbn;
    repeat match goal with |- _ /\ _ => split end;
    auto; try (eexists; reflexivity).
  - eexists. split; [reflexivity|].
    intros f [<- | []]. destruct (classified_food_type i v) as (-> & -> & _).
    reflexivity.
  - intros r [Hin | [<- | []]]%in_app_or Hr; [exact Hin | congruence].
  - intros r Hin Hr. exists r. split; [apply in_or_app; left; exact Hin | auto].
  - intros r Hin Hr.
    destruct (replace_row_In_inv _ _ _ _ Hin) as [-> | Hin']; [congruence | exact Hin'].
  - intros r Hin Hr. pose proof (replace_row_In People.id row r _ Hin) as Hin'.
    destruct (N.eqb (People.id r) (People.id row)) eqn:E.
    + exists row. apply N.eqb_eq in E. auto.
    + exists r. auto.
Qed.

Lemma people_statements_kept d d' : rtc people_statement d d' -> kept d d'.
Proof.
  induction 1 as [d | d1 d2 d3 H12 _ IH]; [apply kept_refl|].
  exact (kept_trans _ _ _ (people_statement_kept _ _ H12) IH).
Qed.

(** What the statements of [ingest_companies] keep: rows are appended to
    the table of organisations, names stay distinct, and the other tables
    are as they were. *)
Lemma company_statements_kept d d' :
  rtc company_statement d d' ->
  (exists more, d' = with_companies (companies d ++ more) d)
  /\ (NoDup (map Company.name (companies d)) ->
      NoDup (map Company.name (companies d'))).
Proof.
  induction 1 as [d | d1 d2 d3 H12 _ [[more IH] IH2]].
  - split; [|auto]. exists []. rewrite app_nil_r. destruct d; reflexivity.
  - destruct H12 as [d i n Hpk Hname]. split.
    + exists (Company.mk i n :: more). rewrite IH. cbn.
      rewrite <- app_assoc. reflexivity.
    + intros Hnd. apply IH2. cbn. rewrite map_app. cbn.
      apply NoDup_app. split; [exact Hnd|]. split; [|apply NoDup_singleton].
      intros x Hx%list_elem_of_In ->%list_elem_of_singleton.
      apply in_map_iff in Hx as (c & Hc & Hin).
      assert (existsb (fun c => String.eqb (Company.name c) n) (companies d) = true)
        as Ht; [|congruence].
      apply existsb_exists. exists c. split; [exact Hin|].
      apply String.eqb_eq. exact Hc.
Qed.

Lemma people_statements_registered d d' :
  rtc people_statement d d' -> registered_not_null d -> registered_not_null d'.
Proof.
  induction 1 as [d | d1 d2 d3 H12 _ IH]; [auto|].
  intros Hd. apply IH. clear IH. unfold registered_not_null in *.
  destruct H12; cbn; auto.
  - intros r [Hin | [<- | []]]%in_app_or; auto.
  - intros r Hin. destruct (replace_row_In_inv _ _ _ _ Hin) as [-> | Hin']; auto.
Qed.

Lemma flags_kept_refl d : flags_kept d d.
Proof. split; [auto | intros row Hin Ha; exists row; auto]. Qed.

Lemma flags_kept_trans d1 d2 d3 :
  flags_kept d1 d2 -> flags_kept d2 d3 -> flags_kept d1 d3.
Proof.
  intros [A1 A2] [B1 B2]. split; [auto|].
  intros row Hin Ha. destruct (A2 row Hin Ha) as (row' & H1 & H2 & H3).
  destruct (B2 row' H1 H3) as (row'' & H4 & H5 & H6).
  exists row''. repeat split; congruence.
Qed.

Lemma flags_kept_same d d' : people d' = people d -> flags_kept d d'.
Proof. intros E. unfold flags_kept. rewrite E. apply flags_kept_refl. Qed.

Section Frames.

Variable currency_db_text : string -> option string.
Variable md5_hexdigest : string -> string.

Lemma ingest_companies_appends (file : DataFile (list Json.Company.t)) (w : World) :
  exists more,
    db (fst (ingest_companies file w))
    = with_companies (companies (db w) ++ more) (db w).
Proof.
  destruct (ingest_companies_statements file w) as [Hs _].
  apply company_statements_kept in Hs as [Hs _]. exact Hs.
Qed.

(** X1: whatever [ingest_companies] returns or raises, the store it leaves
    is the one it started from with rows appended to the table of
    organisations: no other table is written, and no organisation is
    changed or removed. *)
Theorem ingest_companies_only_appends_organisations
    (file : DataFile (list Json.Company.t)) (w : World) :
  exists more,
    db (fst (ingest_companies file w))
    = with_companies (companies (db w) ++ more) (db w).
Proof. exact (ingest_companies_appends file w). Qed.

(** X2: whatever [ingest_people] returns or raises, it leaves the
    organisations and the recorded fingerprints as they were, and the
    tables of foods, tags, genders and eye colours with rows appended
    only. *)
Theorem ingest_people_leaves_organisations_and_appends_lookups
    (file : DataFile (list Json.Person.t)) (company_lookup : gmap Z Company.t)
    (w : World) :
  let d' := db (fst (ingest_people currency_db_text file company_lookup w)) in
  companies d' = companies (db w)
  /\ ingested_files d' = ingested_files (db w)
  /\ extends (foods (db w)) (foods d')
  /\ extends (tags (db w)) (tags d')
  /\ extends (genders (db w)) (genders d')
  /\ extends (eye_colors (db w)) (eye_colors d').
Proof.
  destruct (ingest_people_statements currency_db_text file company_lookup w)
    as [Hs _].
  apply people_statements_kept in Hs
    as (H1 & H2 & _ & _ & (more & H5 & _) & H6 & H7 & H8).
  cbn zeta. repeat split; try assumption. exists more. exact H5.
Qed.

(** X3: every row that [ingest_people] adds to the table of foods, on any
    outcome, has the type that [Food.save] reads off its name: the type of
    [__type_lookup__] for the eight names listed there, unclassified for
    any other. *)
Theorem ingested_foods_are_classified_by_name
    (file : DataFile (list Json.Person.t)) (company_lookup : gmap Z Company.t)
    (w : World) :
  exists more,
    foods (db (fst (ingest_people currency_db_text file company_lookup w)))
    = foods (db w) ++ more
    /\ forall f, In f more ->
         Food.food_type f
         = match Food.type_lookup (Food.name f) with
           | Some ty => ty
           | None => Food.UNCLASSIFIED
           end.
Proof.
  destruct (ingest_people_statements currency_db_text file company_lookup w)
    as [Hs _].
  apply people_statements_kept in Hs as (_ & _ & _ & _ & H5 & _).
  exact H5.
Qed.

Lemma IngestedFiles_create_files c p w :
  people (db (fst (IngestedFiles_create c p w))) = people (db w).
Proof.
  unfold IngestedFiles_create. cbn.
  destruct (has_pk _ _ _); reflexivity.
Qed.

Lemma ingest_data_flags company_file people_file w :
  flags_kept (db w)
    (db (fst (ingest_data currency_db_text md5_hexdigest company_file people_file w))).
Proof.
  unfold ingest_data. unfold bind at 1. cbn.
  destruct (List.filter _ _); [|apply flags_kept_refl].
  unfold bind at 1.
  destruct (ingest_companies_appends company_file w) as [more Hc].
  destruct (ingest_companies company_file w) as [w1 [lookup|e]]; cbn in Hc.
  2:{ cbn. apply flags_kept_same. rewrite Hc. reflexivity. }
  apply (flags_kept_trans _ (db w1)).
  { apply flags_kept_same. rewrite Hc. reflexivity. }
  unfold bind.
  destruct (ingest_people_statements currency_db_text people_file lookup w1)
    as [Hs _].
  apply people_statements_kept in Hs as (_ & _ & H3 & H4 & _).
  destruct (ingest_people _ _ _ w1) as [w2 [[]|e]]; cbn in H3, H4.
  2:{ split; assumption. }
  apply (flags_kept_trans _ (db w2)); [split; assumption|].
  apply flags_kept_same. apply IngestedFiles_create_files.
Qed.

(** X4: no run of [ingest_data], completed or failed, takes a person out
    of the active set: a row that is flagged inactive after the run was in
    the table, as it is, before the run, and every identity flagged active
    before the run is still flagged active after it. *)
Theorem ingest_data_never_deactivates
    (company_file : DataFile (list Json.Company.t))
    (people_file : DataFile (list Json.Person.t)) (w : World) :
  let d' := db (fst (ingest_data currency_db_text md5_hexdigest
                       company_file people_file w)) in
  (forall row, In row (people d') -> People.is_active row = false ->
     In row (people (db w)))
  /\ (forall row, In row (people (db w)) -> People.is_active row = true ->
        exists row', In row' (people d') /\ People.id row' = People.id row
                     /\ People.is_active row' = true).
Proof. exact (ingest_data_flags company_file people_file w). Qed.

(** X5: a run of [ingest_data] on a pair of files that is not on record
    records the pair exactly when it completes: a completed run appends one
    row with the two fingerprints to [IngestedFiles], and a run that raises
    leaves that table as it was, so that the same files are taken up again
    by the next run. *)
Theorem ingest_data_records_completed_runs_only
    (company_file : DataFile (list Json.Company.t))
    (people_file : DataFile (list Json.Person.t)) (w w' : World)
    (res : result unit) :
  ~ recorded md5_hexdigest company_file people_file (db w) ->
  ingest_data currency_db_text md5_hexdigest company_file people_file w
  = (w', res) ->
  match res with
  | Ok _ =>
      exists f, ingested_files (db w') = ingested_files (db w) ++ [f]
        /\ IngestedFiles.companyfile_hash f = get_hash md5_hexdigest company_file
        /\ IngestedFiles.peoplefile_hash f = get_hash md5_hexdigest people_file
  | Raise _ =>
      ingested_files (db w') = ingested_files (db w)
      /\ ~ recorded md5_hexdigest company_file people_file (db w')
  end.
Proof.
  intros Hnot. unfold ingest_data. unfold bind at 1. cbn.
  destruct (List.filter _ _) eqn:Hf.
  2:{ exfalso. apply Hnot. apply recorded_filter. rewrite Hf. discriminate. }
  unfold bind at 1.
  destruct (ingest_companies_appends company_file w) as [more Hc].
  destruct (ingest_companies company_file w) as [w1 [lookup|e]]; cbn in Hc.
  2:{ intros [= <- <-]. assert (ingested_files (db w1) = ingested_files (db w)) as E.
      { rewrite Hc. reflexivity. }
      split; [exact E|]. unfold recorded. rewrite E. exact Hnot. }
  assert (ingested_files (db w1) = ingested_files (db w)) as E1.
  { rewrite Hc. reflexivity. }
  unfold bind.
  destruct (ingest_people_statements currency_db_text people_file lookup w1)
    as [Hs _].
  apply people_statements_kept in Hs as (_ & E2 & _).
  destruct (ingest_people _ _ _ w1) as [w2 [[]|e]]; cbn in E2.
  2:{ intros [= <- <-]. split; [congruence|]. unfold recorded.
      rewrite E2, E1. exact Hnot. }
  destruct res as [[]|e]; intros Hrun.
  - apply IngestedFiles_create_Ok in Hrun as (f & Hf1 & Hf2 & Hf3).
    exists f. rewrite Hf1, E2, E1. auto.
  - revert Hrun. unfold IngestedFiles_create. cbn.
    destruct (has_pk _ _ _); [|discriminate].
    intros [= <- <-]. cbn. split; [congruence|]. unfold recorded. cbn.
    rewrite E2, E1. exact Hnot.
Qed.

End Frames.

(** *** A badly formed external identifier *)




Section BadGuid.

Variable currency_db_text : string -> option string.
Variable md5_hexdigest : string -> string.


End BadGuid.

(** *** Timestamps written with a blank *)

Lemma digit_char_plain d :
  0 <= d <= 9 ->
  Ascii.eqb (digit_char d) " " = false /\ Ascii.eqb (digit_char d) "T" = false.
Proof.
  intros Hd.
  assert (d = 0 \/ d = 1 \/ d = 2 \/ d = 3 \/ d = 4 \/ d = 5 \/ d = 6 \/ d = 7
          \/ d = 8 \/ d = 9) as Hc by lia.
  repeat (destruct Hc as [-> | Hc]; [split; reflexivity|]).
  subst d. split; reflexivity.
Qed.

Lemma remove_spaces_cons c r :
  Ascii.eqb c " " = false ->
  Py.remove_spaces (String c r) = String c (Py.remove_spaces r).
Proof. intros E. cbn [Py.remove_spaces]. rewrite E. reflexivity. Qed.

Lemma two_digits_bounds n :
  0 <= n < 100 -> 0 <= n / 10 <= 9 /\ 0 <= n mod 10 <= 9.
Proof.
  intros Hn. pose proof (Z.div_pos n 10). pose proof (Z.mod_pos_bound n 10).
  assert (n / 10 < 10) by (apply Z.div_lt_upper_bound; lia). lia.
Qed.

Lemma remove_spaces_two n rest :
  0 <= n < 100 ->
  Py.remove_spaces (two_digits n rest) = two_digits n (Py.remove_spaces rest).
Proof.
  intros Hn. destruct (two_digits_bounds n Hn) as [H1 H2]. unfold two_digits.
  rewrite !remove_spaces_cons by (apply digit_char_plain; assumption).
  reflexivity.
Qed.

Lemma remove_spaces_four n rest :
  0 <= n < 10000 ->
  Py.remove_spaces (four_digits n rest) = four_digits n (Py.remove_spaces rest).
Proof.
  intros Hn. unfold four_digits.
  assert (0 <= n / 1000 <= 9) as H1.
  { pose proof (Z.div_pos n 1000).
    assert (n / 1000 < 10) by (apply Z.div_lt_upper_bound; lia). lia. }
  assert (0 <= n / 100 mod 10 <= 9) as H2.
  { pose proof (Z.mod_pos_bound (n / 100) 10). lia. }
  rewrite !remove_spaces_cons by (apply digit_char_plain; assumption).
  rewrite remove_spaces_two by (pose proof (Z.mod_pos_bound n 100); lia).
  reflexivity.
Qed.

Lemma blank_separator_NoMatch (gap : string) (y mo d h mi : Z) (west : bool)
    (oh om : Z) :
  0 <= y < 10000 -> 0 <= mo < 100 -> 0 <= d < 100 -> 0 <= h < 100 ->
  Py.parse_datetime
    (Py.remove_spaces (registered_text " " gap y mo d h mi west oh om))
  = Py.NoMatch.
Proof.
  intros Hy Hmo Hd Hh.
  unfold registered_text.
  rewrite remove_spaces_four by assumption.
  rewrite (remove_spaces_cons "-") by reflexivity.
  rewrite remove_spaces_two by assumption.
  rewrite (remove_spaces_cons "-") by reflexivity.
  rewrite remove_spaces_two by assumption.
  change (Py.remove_spaces (String " " ?r)) with (Py.remove_spaces r).
  rewrite remove_spaces_two by assumption.
  unfold Py.parse_datetime.
  rewrite digits_four by assumption.
  cbn -[Py.digits two_digits Py.seconds_part Py.tz_part Py.datetime_valid
        Py.remove_spaces].
  rewrite (digits_two 1 mo) by lia.
  cbn -[Py.digits two_digits Py.seconds_part Py.tz_part Py.datetime_valid
        Py.remove_spaces].
  rewrite (digits_two 1 d) by lia.
  destruct (two_digits_bounds h Hh) as [H1 _].
  destruct (digit_char_plain (h / 10) H1) as [E1 E2].
  unfold two_digits at 1.
  cbn -[Py.digits two_digits Py.seconds_part Py.tz_part Py.datetime_valid
        Py.remove_spaces digit_char].
  rewrite E1, E2. reflexivity.
Qed.

(** X7: a timestamp written [YYYY-MM-DD HH:MM], with a blank between the
    date and the time, is read as [None], whatever follows the hour: the
    blank is removed with the others before [parse_datetime] is called, and
    the text that is left has no separator for it to match. *)
Theorem registered_with_a_blank_separator_is_read_as_None
    (gap : string) (y mo d h mi : Z) (west : bool) (oh om : Z) (w : World) :
  0 <= y < 10000 -> 0 <= mo < 100 -> 0 <= d < 100 -> 0 <= h < 100 ->
  parse_registered (registered_text " " gap y mo d h mi west oh om) w
  = (w, Ok None).
Proof.
  intros Hy Hmo Hd Hh. unfold parse_registered.
  rewrite blank_separator_NoMatch by assumption. reflexivity.
Qed.

Lemma resolve_registered lk person w w' r :
  resolve lk person w = (w', Ok r) ->
  Py.parse_datetime (Py.remove_spaces (Json.Person.registered person))
  = match r_registered r with
    | Some t => Py.Parsed t
    | None => Py.NoMatch
    end.
Proof.
  unfold resolve. intros H.
  repeat (apply bind_Ok in H as (? & ? & ? & H)).
  injection H as <- <-. cbn.
  match goal with
  | Hp : parse_registered _ _ = _ |- _ =>
      unfold parse_registered in Hp;
      destruct (Py.parse_datetime _); inversion Hp; reflexivity
  end.
Qed.

(** A loop whose body raises on one of its elements raises, when what the
    body needs of the state and of the accumulator is kept by the rounds
    before. *)
Lemma for_each_raises_under {A S} (Inv : World -> S -> Prop)
    (body : S -> A -> M S) (l : list A) (x : A) :
  In x l ->
  (forall acc y w w' acc',
     Inv w acc -> body acc y w = (w', Ok acc') -> Inv w' acc') ->
  (forall acc w, Inv w acc -> exists w' e, body acc x w = (w', Raise e)) ->
  forall acc w, Inv w acc -> exists w' e, for_each l body acc w = (w', Raise e).
Proof.
  intros Hin Hkeep Hx. induction l as [|y l IH]; [destruct Hin|].
  intros acc w Hinv. cbn [for_each]. destruct Hin as [->|Hin].
  - destruct (Hx acc w Hinv) as (w' & e & E).
    rewrite (bind_fail _ _ _ _ _ E). eauto.
  - unfold bind. destruct (body acc y w) as [w1 [a|e]] eqn:E; [|eauto].
    apply IH; [exact Hin|]. exact (Hkeep _ _ _ _ _ Hinv E).
Qed.

Section Unparsed.

Variable currency_db_text : string -> option string.

Lemma People_save_unregistered o w :
  People.registered (People.fields o) = None ->
  exists e, People_save currency_db_text o w = (w, Raise e).
Proof.
  intros Hr. unfold People_save. rewrite Hr.
  destruct (currency_db_text _); eauto.
Qed.

Lemma save_new_unregistered o r combos w :
  People.registered (People.fields o) = None ->
  exists w' e, save_new currency_db_text o r combos w = (w', Raise e).
Proof.
  intros Hr. destruct (People_save_unregistered o w Hr) as [e E].
  unfold save_new. rewrite (bind_fail _ _ _ _ _ E). eauto.
Qed.

Lemma reconcile_raises_on_unparsed lk combos person w :
  Py.parse_datetime (Py.remove_spaces (Json.Person.registered person)) = Py.NoMatch ->
  registered_not_null (db w) ->
  exists w' e, reconcile currency_db_text lk combos person w = (w', Raise e).
Proof.
  intros Hparse Hnn. unfold reconcile.
  destruct (resolve lk person w) as [w1 [r|e]] eqn:Er.
  2:{ rewrite (bind_fail _ _ _ _ _ Er). eauto. }
  pose proof (pure_resolve lk person w) as Hw. rewrite Er in Hw. cbn in Hw. subst w1.
  pose proof (resolve_registered _ _ _ _ _ Er) as Hreg. rewrite Hparse in Hreg.
  destruct (r_registered r) as [t|] eqn:Et; [discriminate|].
  rewrite (bind_step _ _ _ _ _ Er). unfold People_init, bind, uuid4, timezone_now, get_db, ret.
  cbn -[save_new shut_out unchanged active_with_guid]. rewrite Et.
  match goal with
  | |- context [save_new _ ?o _ _] => set (cand := o)
  end.
  assert (People.registered (People.fields cand) = None) as Hc by reflexivity.
  destruct (active_with_guid (r_guid r) _) as [|row rest] eqn:E.
  - apply save_new_unregistered. exact Hc.
  - assert (unchanged (db w) cand (from_db row) r = false) as ->.
    { assert (In row (people (db w))) as Hin.
      { apply (active_with_guid_In (r_guid r)). cbn in E. rewrite E. left. reflexivity. }
      destruct (Hnn row Hin) as [t Ht].
      unfold unchanged, People.eq. cbn. rewrite Ht. cbn.
      rewrite ?andb_false_r. reflexivity. }
    cbn [negb].
    destruct (shut_out _ _ _) as [w2 [o2|e]]; [|eauto].
    apply save_new_unregistered. exact Hc.
Qed.

(** X8: a file with a record whose [registered] is written
    [YYYY-MM-DD HH:MM], with a blank between the date and the time, is
    never ingested: on a store whose rows of people all have their
    [registered] set, as the column requires, [ingest_people] raises. *)
Theorem blank_separated_registered_stops_ingest_people
    (people_file : DataFile (list Json.Person.t)) (person : Json.Person.t)
    (company_lookup : gmap Z Company.t) (w : World)
    (gap : string) (y mo d h mi : Z) (west : bool) (oh om : Z) :
  In person (file_json people_file) ->
  Json.Person.registered person = registered_text " " gap y mo d h mi west oh om ->
  0 <= y < 10000 -> 0 <= mo < 100 -> 0 <= d < 100 -> 0 <= h < 100 ->
  registered_not_null (db w) ->
  exists w' e,
    ingest_people currency_db_text people_file company_lookup w = (w', Raise e).
Proof.
  intros Hin Htext Hy Hmo Hd Hh Hnn.
  assert (Py.parse_datetime (Py.remove_spaces (Json.Person.registered person))
          = Py.NoMatch) as Hparse.
  { rewrite Htext. apply blank_separator_NoMatch; assumption. }
  unfold ingest_people.
  destruct (build_lookups_statements (file_json people_file) company_lookup w)
    as [Hs _].
  destruct (build_lookups _ _ w) as [w1 [lk|e]] eqn:Eb.
  2:{ rewrite (bind_fail _ _ _ _ _ Eb). eauto. }
  rewrite (bind_step _ _ _ _ _ Eb). cbn in Hs.
  apply people_statements_registered in Hs; [|exact Hnn].
  destruct (for_each_raises_under
              (fun w combos => registered_not_null (db w)
                               /\ forall c, In c combos -> flagged (fst c))
              (reconcile currency_db_text lk) (file_json people_file) person Hin)
    with (acc := @nil Combo) (w := w1) as (w2 & e & E).
  - intros acc y0 w0 w' acc' [H1 H2] Hrun.
    destruct (reconcile_statements currency_db_text lk acc y0 H2 w0) as [HR HQ].
    rewrite Hrun in HR, HQ. cbn in HR, HQ. split.
    + exact (people_statements_registered _ _ HR H1).
    + exact (HQ _ eq_refl).
  - intros acc w0 [H1 _]. apply reconcile_raises_on_unparsed; assumption.
  - split; [exact Hs | intros c []].
  - rewrite (bind_fail _ _ _ _ _ E). eauto.
Qed.

End Unparsed.

(** *** What [create_lookup] returns *)

Section LookupSound.

Context {R : Type} `{LookupModelLaws R}.

Lemma lookup_step_sound (lookup : gmap string R) (v : string) w w' lookup' :
  lookup_step lookup v w = (w', Ok lookup') ->
  extends (lm_all (db w)) (lm_all (db w'))
  /\ (forall k r, lookup !! k = Some r -> lookup' !! k = Some r)
  /\ (exists r, lookup' !! v = Some r)
  /\ (forall k r, lookup' !! k = Some r ->
        lookup !! k = Some r
        \/ (k = v /\ In r (lm_all (db w')) /\ lm_field r = v)).
Proof.
  unfold lookup_step. destruct (lookup !! v) as [r0|] eqn:Ev.
  { intros [= <- <-]. split; [apply extends_refl|]. split; [auto|].
    split; [eauto | auto]. }
  assert (forall (r : R) (l' : gmap string R),
            l' = <[v := r]> lookup ->
            (forall k r', lookup !! k = Some r' -> l' !! k = Some r')
            /\ (exists r', l' !! v = Some r')
            /\ (forall k r', l' !! k = Some r' ->
                  lookup !! k = Some r' \/ (k = v /\ r' = r))) as Hins.
  { intros r l' ->. split; [|split].
    - intros k r' Hk. rewrite lookup_insert_ne; [exact Hk | congruence].
    - exists r. apply lookup_insert_eq.
    - intros k r' Hk. destruct (decide (v = k)) as [<- | Hne].
      + rewrite lookup_insert_eq in Hk. right. split; congruence.
      + rewrite lookup_insert_ne in Hk by exact Hne. left. exact Hk. }
  unfold get_or_create, bind, get_db, uuid4. cbn.
  destruct (List.filter _ (lm_all (db w))) as [|r [|r2 l]] eqn:Ef; cbn.
  - destruct (has_pk lm_pk (next_uuid w) (lm_all (db w))) eqn:Hpk; cbn;
      [discriminate|].
    unfold lm_save, bind, get_db, put_db, log, ret. cbn.
    rewrite lm_all_with, lm_new_pk.
    pose proof (has_pk_last (lm_all (db w)) (lm_new (next_uuid w) v)) as Hl.
    rewrite lm_new_pk in Hl. rewrite Hl. cbn.
    rewrite replace_row_last.
    2:{ intros x Hx. rewrite lm_new_pk. exact (has_pk_false_In _ _ _ Hpk x Hx). }
    intros [= <- <-]. cbn. rewrite lm_all_with.
    destruct (Hins (lm_new (next_uuid w) v) _ eq_refl) as (H1 & H2 & H3).
    split; [eexists; reflexivity|]. split; [exact H1|]. split; [exact H2|].
    intros k r' Hk. destruct (H3 k r' Hk) as [Hold | [-> ->]]; [left; exact Hold|].
    right. split; [reflexivity|]. split; [|apply lm_new_field].
    apply in_or_app. right. left. reflexivity.
  - intros [= <- <-].
    destruct (Hins r _ eq_refl) as (H1 & H2 & H3).
    split; [apply extends_refl|]. split; [exact H1|]. split; [exact H2|].
    intros k r' Hk. destruct (H3 k r' Hk) as [Hold | [-> ->]]; [left; exact Hold|].
    right. split; [reflexivity|].
    assert (In r (List.filter (fun r => String.eqb (lm_field r) v) (lm_all (db w))))
      as Hin by (rewrite Ef; left; reflexivity).
    apply filter_In in Hin as [Hin Hf]. apply String.eqb_eq in Hf. auto.
  - discriminate.
Qed.

Lemma lookup_loop_sound values : forall (lookup : gmap string R) w w' lookup',
  for_each values lookup_step lookup w = (w', Ok lookup') ->
  extends (lm_all (db w)) (lm_all (db w'))
  /\ (forall k r, lookup !! k = Some r -> lookup' !! k = Some r)
  /\ (forall v, In v values -> exists r, lookup' !! v = Some r)
  /\ (forall k r, lookup' !! k = Some r ->
        lookup !! k = Some r
        \/ (In k values /\ In r (lm_all (db w')) /\ lm_field r = k)).
Proof.
  induction values as [|v values IH]; intros lookup w w' lookup'; cbn [for_each].
  - intros [= <- <-]. split; [apply extends_refl|]. split; [auto|].
    split; [intros ? [] | auto].
  - intros Hrun. apply bind_Ok in Hrun as (w1 & lookup1 & Hstep & Hrest).
    apply lookup_step_sound in Hstep as (A1 & A2 & A3 & A4).
    apply IH in Hrest as (B1 & B2 & B3 & B4).
    split; [exact (extends_trans _ _ _ A1 B1)|]. split; [auto|]. split.
    + intros x [<- | Hx]; [|auto]. destruct A3 as [r Hr]. exists r. auto.
    + intros k r Hk. destruct (B4 k r Hk) as [Hk1 | (Hin & Hrow & Hf)].
      * destruct (A4 k r Hk1) as [Hold | (-> & Hrow & Hf)]; [left; exact Hold|].
        right. split; [left; reflexivity|]. split; [|exact Hf].
        destruct B1 as [more ->]. apply in_or_app. left. exact Hrow.
      * right. split; [right; exact Hin | auto].
Qed.

(** X9: when [create_lookup] returns, the mapping has an entry for each of
    the values it was given; an entry is either one of the pre-seeded
    mapping, returned as it was given, or a row of the table whose natural
    key is the value it stands under; and the table has only had rows
    appended. *)
Theorem create_lookup_maps_each_value_to_its_row
    (values : list string) (existing : option (gmap string R))
    (w w' : World) (lookup : gmap string R) :
  create_lookup values existing w = (w', Ok lookup) ->
  let given := match existing with Some l => l | None => ∅ end in
  (forall v, In v values -> exists r, lookup !! v = Some r)
  /\ (forall v r, given !! v = Some r -> lookup !! v = Some r)
  /\ (forall v r, lookup !! v = Some r ->
        given !! v = Some r
        \/ (In v values /\ In r (lm_all (db w')) /\ lm_field r = v))
  /\ extends (lm_all (db w)) (lm_all (db w')).
Proof.
  rewrite create_lookup_unfold. intros Hrun. cbn zeta.
  apply lookup_loop_sound in Hrun as (H1 & H2 & H3 & H4). auto.
Qed.

End LookupSound.

(** *** The organisations a run creates *)

Lemma remove_dups_NoDup_id {A} `{EqDecision A} (l : list A) :
  NoDup l -> remove_dups l = l.
Proof.
  induction 1 as [|x l Hx Hl IH]; cbn; [reflexivity|].
  destruct (decide_rel elem_of x l); [contradiction | congruence].
Qed.

Lemma ingest_companies_unfold file w :
  NoDup (map Json.Company.index (file_json file)) ->
  NoDup (map Json.Company.company (file_json file)) ->
  ingest_companies file w
  = for_each (file_json file) (company_step (company_names (db w))) ∅ w.
Proof.
  intros H1 H2. unfold ingest_companies.
  rewrite (bind_step get_db _ w w (db w) eq_refl).
  rewrite (remove_dups_NoDup_id _ H1), (remove_dups_NoDup_id _ H2), !length_map.
  rewrite Nat.eqb_refl. reflexivity.
Qed.

Lemma ingest_companies_Ok_unfold file w w' lookup :
  ingest_companies file w = (w', Ok lookup) ->
  NoDup (map Json.Company.index (file_json file))
  /\ NoDup (map Json.Company.company (file_json file))
  /\ for_each (file_json file) (company_step (company_names (db w))) ∅ w
     = (w', Ok lookup).
Proof.
  intros Hrun.
  assert (NoDup (map Json.Company.index (file_json file))
          /\ NoDup (map Json.Company.company (file_json file))) as [H1 H2].
  { destruct (decide (NoDup (map Json.Company.index (file_json file)))) as [H1|H1].
    - destruct (decide (NoDup (map Json.Company.company (file_json file))))
        as [H2|H2]; [auto|].
      rewrite (ingest_companies_asserts file w (or_intror H2)) in Hrun.
      discriminate.
    - rewrite (ingest_companies_asserts file w (or_introl H1)) in Hrun.
      discriminate. }
  split; [exact H1|]. split; [exact H2|].
  rewrite <- ingest_companies_unfold; assumption.
Qed.

Lemma company_names_fold (l : list Company.t) : forall (m0 : gmap string Company.t) n,
  fold_left (fun m company => <[Company.name company := company]> m) l m0 !! n
  = match List.filter (fun c => String.eqb (Company.name c) n) (rev l) with
    | c :: _ => Some c
    | [] => m0 !! n
    end.
Proof.
  induction l as [|x l IH]; intros m0 n; cbn [fold_left rev]; [reflexivity|].
  rewrite IH, List.filter_app. cbn [List.filter].
  destruct (List.filter _ (rev l)) as [|c rest]; cbn [app].
  - destruct (String.eqb (Company.name x) n) eqn:E.
    + apply String.eqb_eq in E. subst n. apply lookup_insert_eq.
    + apply String.eqb_neq in E. apply lookup_insert_ne. exact E.
  - reflexivity.
Qed.

Lemma company_names_Some d n c :
  company_names d !! n = Some c -> Company.name c = n /\ In c (companies d).
Proof.
  unfold company_names. rewrite company_names_fold.
  destruct (List.filter _ _) as [|c0 rest] eqn:E; [rewrite lookup_empty; discriminate|].
  intros [= <-].
  assert (In c0 (List.filter (fun c => String.eqb (Company.name c) n)
                             (rev (companies d)))) as Hin
    by (rewrite E; left; reflexivity).
  apply filter_In in Hin as [Hin Hn]. apply String.eqb_eq in Hn.
  split; [exact Hn | apply in_rev; exact Hin].
Qed.

Lemma company_names_None d n :
  company_names d !! n = None <-> ~ In n (map Company.name (companies d)).
Proof.
  unfold company_names. rewrite company_names_fold. split.
  - destruct (List.filter _ _) as [|c0 rest] eqn:E; [|discriminate].
    intros _ Hin. apply in_map_iff in Hin as (c & Hc & Hin).
    assert (In c (List.filter (fun c => String.eqb (Company.name c) n)
                              (rev (companies d)))) as Hf.
    { apply filter_In. split; [apply in_rev in Hin; exact Hin|].
      apply String.eqb_eq. exact Hc. }
    rewrite E in Hf. destruct Hf.
  - intros Hn. destruct (List.filter _ _) as [|c0 rest] eqn:E;
      [apply lookup_empty|].
    exfalso. apply Hn.
    assert (In c0 (List.filter (fun c => String.eqb (Company.name c) n)
                               (rev (companies d)))) as Hin
      by (rewrite E; left; reflexivity).
    apply filter_In in Hin as [Hin Hc]. apply String.eqb_eq in Hc.
    apply in_map_iff. exists c0. split; [exact Hc | apply in_rev; exact Hin].
Qed.

Lemma Company_create_inv n w w' c :
  Company_create n w = (w', Ok c) ->
  c = Company.mk (next_uuid w) n
  /\ w' = mk_world (with_companies (companies (db w) ++ [c]) (db w))
                   (writes w ++ [Insert TCompany (next_uuid w)])
                   (N.succ (next_uuid w)) (clock w).
Proof.
  unfold Company_create. cbn.
  destruct (has_pk _ _ _ || existsb _ _); cbn; [discriminate|].
  intros [= <- <-]. auto.
Qed.

Lemma Company_create_run n w :
  (forall c, In c (companies (db w)) -> (Company.id c < next_uuid w)%N) ->
  ~ In n (map Company.name (companies (db w))) ->
  exists w', Company_create n w = (w', Ok (Company.mk (next_uuid w) n)).
Proof.
  intros Hfresh Hn. unfold Company_create. cbn.
  assert (has_pk Company.id (next_uuid w) (companies (db w)) = false) as ->.
  { destruct (has_pk _ _ _) eqn:E; [|reflexivity].
    apply has_pk_In in E as (c & Hc & Hi). specialize (Hfresh c Hc). lia. }
  assert (existsb (fun c => String.eqb (Company.name c) n) (companies (db w)) = false)
    as ->.
  { destruct (existsb _ _) eqn:E; [|reflexivity]. exfalso. apply Hn.
    apply existsb_exists in E as (c & Hc & E). apply String.eqb_eq in E.
    apply in_map_iff. eauto. }
  cbn. eauto.
Qed.

Lemma company_loop_inv names (l : list Json.Company.t) : forall acc w w' lk,
  for_each l (company_step names) acc w = (w', Ok lk) ->
  NoDup (map Json.Company.index l) ->
  (forall n c, names !! n = Some c ->
     Company.name c = n /\ In c (companies (db w))) ->
  exists new,
    db w' = with_companies (companies (db w) ++ new) (db w)
    /\ map Company.name new
       = List.filter (fun n => match names !! n with Some _ => false | None => true end)
                     (map Json.Company.company l)
    /\ writes w' = writes w ++ map (fun c => Insert TCompany (Company.id c)) new
    /\ (forall rec, In rec l ->
          exists c, lk !! Json.Company.index rec = Some c
            /\ Company.name c = Json.Company.company rec
            /\ In c (companies (db w) ++ new))
    /\ (forall i, ~ In i (map Json.Company.index l) -> lk !! i = acc !! i).
Proof.
  induction l as [|x l IH]; intros acc w w' lk Hrun Hnd Hnames.
  - cbn in Hrun. injection Hrun as <- <-. exists [].
    rewrite app_nil_r. split; [destruct (db w); reflexivity|].
    split; [reflexivity|]. split; [symmetry; apply app_nil_r|].
    split; [intros ? [] | reflexivity].
  - cbn [for_each] in Hrun. apply bind_Ok in Hrun as (w1 & acc1 & Hstep & Hrun).
    cbn [map] in Hnd. apply NoDup_cons in Hnd as [Hx Hnd].
    unfold company_step in Hstep.
    apply bind_Ok in Hstep as (w0 & c0 & Hc0 & Hret). injection Hret as <- <-.
    destruct (names !! Json.Company.company x) as [c1|] eqn:En.
    + injection Hc0 as <- <-.
      destruct (IH _ _ _ _ Hrun Hnd Hnames) as (new & H1 & H2 & H3 & H4 & H5).
      exists new. split; [exact H1|]. split.
      { cbn [map List.filter]. rewrite En. exact H2. }
      split; [exact H3|]. split.
      * intros rec [<- | Hrec]; [|auto].
        exists c1. rewrite H5 by (rewrite <- list_elem_of_In; exact Hx).
        rewrite lookup_insert_eq. destruct (Hnames _ _ En) as [Hn Hin].
        split; [reflexivity|]. split; [exact Hn|]. apply in_or_app. left. exact Hin.
      * intros i Hi. rewrite H5 by (intros Hin; apply Hi; right; exact Hin).
        apply lookup_insert_ne. intros E. apply Hi. left. exact E.
    + apply Company_create_inv in Hc0 as [Hc ->].
      assert (forall n c, names !! n = Some c ->
                Company.name c = n
                /\ In c (companies (db (mk_world
                     (with_companies (companies (db w) ++ [c0]) (db w))
                     (writes w ++ [Insert TCompany (next_uuid w)])
                     (N.succ (next_uuid w)) (clock w))))) as Hnames1.
      { intros n c Hn. destruct (Hnames n c Hn) as [E Hin]. split; [exact E|].
        cbn. apply in_or_app. left. exact Hin. }
      destruct (IH _ _ _ _ Hrun Hnd Hnames1) as (new & H1 & H2 & H3 & H4 & H5).
      cbn in H1, H3, H4. exists (c0 :: new). split.
      { rewrite H1. rewrite <- app_assoc. reflexivity. }
      split.
      { cbn [map List.filter]. rewrite En. cbn [map]. rewrite H2. subst c0. reflexivity. }
      split.
      { rewrite H3. cbn [map]. rewrite <- app_assoc. subst c0. reflexivity. }
      split.
      * intros rec [<- | Hrec].
        -- exists c0. rewrite H5 by (rewrite <- list_elem_of_In; exact Hx).
           rewrite lookup_insert_eq. split; [reflexivity|]. split; [subst c0; reflexivity|].
           apply in_or_app. right. left. reflexivity.
        -- destruct (H4 rec Hrec) as (c & Hc1 & Hc2 & Hc3). exists c.
           split; [exact Hc1|]. split; [exact Hc2|].
           rewrite <- app_assoc in Hc3. exact Hc3.
      * intros i Hi. rewrite H5 by (intros Hin; apply Hi; right; exact Hin).
        apply lookup_insert_ne. intros E. apply Hi. left. exact E.
Qed.

Lemma company_loop_runs names (l : list Json.Company.t) : forall acc w,
  NoDup (map Json.Company.company l) ->
  (forall c, In c (companies (db w)) -> (Company.id c < next_uuid w)%N) ->
  (forall rec, In rec l -> names !! Json.Company.company rec = None ->
     ~ In (Json.Company.company rec) (map Company.name (companies (db w)))) ->
  exists w' lk, for_each l (company_step names) acc w = (w', Ok lk).
Proof.
  induction l as [|x l IH]; intros acc w Hnd Hfresh Hmiss; cbn [for_each].
  { cbn. eauto. }
  cbn [map] in Hnd. apply NoDup_cons in Hnd as [Hx Hnd].
  unfold company_step at 1.
  destruct (names !! Json.Company.company x) as [c1|] eqn:En.
  - cbn. apply IH; [exact Hnd | exact Hfresh |].
    intros rec Hrec. apply Hmiss. right. exact Hrec.
  - destruct (Company_create_run (Json.Company.company x) w Hfresh) as [w1 Hc].
    { apply Hmiss; [left; reflexivity | exact En]. }
    pose proof (Company_create_inv _ _ _ _ Hc) as [_ Hw1].
    rewrite (bind_step _ _ _ _ _ (bind_step _ _ _ _ _ Hc)).
    apply IH; [exact Hnd | |].
    + subst w1. cbn. intros c [Hin | [<- | []]]%in_app_or.
      * specialize (Hfresh c Hin). lia.
      * cbn. lia.
    + subst w1. cbn. intros rec Hrec Hn. rewrite map_app. cbn.
      intros [Hin | [E | []]]%in_app_or.
      * apply (Hmiss rec); [right; exact Hrec | exact Hn | exact Hin].
      * apply Hx. rewrite E. apply list_elem_of_In. apply in_map. exact Hrec.
Qed.

Lemma company_loop_settled names (l : list Json.Company.t) :
  (forall rec, In rec l -> is_Some (names !! Json.Company.company rec)) ->
  NoDup (map Json.Company.index l) ->
  forall acc w, exists lk,
    for_each l (company_step names) acc w = (w, Ok lk)
    /\ (forall rec, In rec l ->
          lk !! Json.Company.index rec = names !! Json.Company.company rec)
    /\ (forall i, ~ In i (map Json.Company.index l) -> lk !! i = acc !! i).
Proof.
  induction l as [|x l IH]; intros Hall Hnd acc w; cbn [for_each].
  { exists acc. split; [reflexivity|]. split; [intros ? [] | reflexivity]. }
  cbn [map] in Hnd. apply NoDup_cons in Hnd as [Hx Hnd].
  unfold company_step at 1.
  destruct (Hall x (or_introl eq_refl)) as [c Hc]. rewrite Hc. cbn.
  destruct (IH (fun rec Hrec => Hall rec (or_intror Hrec)) Hnd
              (<[Json.Company.index x := c]> acc) w) as (lk & H1 & H2 & H3).
  exists lk. split; [exact H1|]. split.
  - intros rec [<- | Hrec]; [|auto].
    rewrite H3 by (rewrite <- list_elem_of_In; exact Hx).
    rewrite lookup_insert_eq. symmetry. exact Hc.
  - intros i Hi. rewrite H3 by (intros Hin; apply Hi; right; exact Hin).
    apply lookup_insert_ne. intros E. apply Hi. left. exact E.
Qed.

Lemma NoDup_map_inj {A B} (f : A -> B) (l : list A) a b :
  NoDup (map f l) -> In a l -> In b l -> f a = f b -> a = b.
Proof.
  induction l as [|x l IH]; cbn; [tauto|].
  intros [Hx Hnd]%NoDup_cons [-> | Ha] [-> | Hb] E; auto.
  - exfalso. apply Hx. rewrite E. apply list_elem_of_In, in_map. exact Hb.
  - exfalso. apply Hx. rewrite <- E. apply list_elem_of_In, in_map. exact Ha.
Qed.

Lemma missing_names_filter d names :
  List.filter (fun n => match company_names d !! n with
                        | Some _ => false
                        | None => true
                        end) names
  = missing_names d names.
Proof.
  unfold missing_names. apply filter_ext. intros n.
  destruct (company_names d !! n) as [c|] eqn:E.
  - destruct (existsb _ _) eqn:Ex; [reflexivity|]. exfalso.
    assert (company_names d !! n <> None) as Hne by congruence.
    apply Hne. apply company_names_None. intros Hin.
    apply existsb_eqb_In in Hin. congruence.
  - apply company_names_None in E.
    destruct (existsb _ _) eqn:Ex; [|reflexivity].
    exfalso. apply E. apply existsb_eqb_In. exact Ex.
Qed.

(** X10: on a file whose indexes and whose names are distinct,
    [ingest_companies] returns: it inserts one organisation for each name
    of the file that no stored organisation carries, in the order of the
    file and with no other statement, and the mapping it returns sends the
    index of every record to a stored organisation with the name of that
    record. *)
Theorem ingest_companies_creates_the_missing_organisations
    (file : DataFile (list Json.Company.t)) (w : World) :
  NoDup (map Json.Company.index (file_json file)) ->
  NoDup (map Json.Company.company (file_json file)) ->
  (forall c, In c (companies (db w)) -> (Company.id c < next_uuid w)%N) ->
  exists w' lookup new,
    ingest_companies file w = (w', Ok lookup)
    /\ db w' = with_companies (companies (db w) ++ new) (db w)
    /\ map Company.name new
       = missing_names (db w) (map Json.Company.company (file_json file))
    /\ writes w' = writes w ++ map (fun c => Insert TCompany (Company.id c)) new
    /\ forall rec, In rec (file_json file) ->
         exists c, lookup !! Json.Company.index rec = Some c
           /\ Company.name c = Json.Company.company rec
           /\ In c (companies (db w')).
Proof.
  intros Hi Hn Hfresh. rewrite (ingest_companies_unfold file w Hi Hn).
  destruct (company_loop_runs (company_names (db w)) (file_json file) ∅ w Hn Hfresh)
    as (w' & lookup & Hrun).
  { intros rec _ Hnone. apply company_names_None. exact Hnone. }
  exists w', lookup.
  destruct (company_loop_inv _ _ _ _ _ _ Hrun Hi (company_names_Some (db w)))
    as (new & H1 & H2 & H3 & H4 & _).
  exists new. split; [exact Hrun|]. split; [exact H1|].
  split; [rewrite H2; apply missing_names_filter|]. split; [exact H3|].
  intros rec Hrec. destruct (H4 rec Hrec) as (c & Hc1 & Hc2 & Hc3).
  exists c. rewrite H1. auto.
Qed.

(** X11: [ingest_companies] is idempotent on a store whose organisations
    have distinct names: called again on the same file in the state its
    first call left, it returns the same mapping and leaves the state,
    the statements issued included, as it is. *)
Theorem ingest_companies_again_changes_nothing
    (file : DataFile (list Json.Company.t)) (w w' : World)
    (lookup : gmap Z Company.t) :
  NoDup (map Company.name (companies (db w))) ->
  ingest_companies file w = (w', Ok lookup) ->
  ingest_companies file w' = (w', Ok lookup).
Proof.
  intros Hstore Hrun.
  destruct (ingest_companies_statements file w) as [Hs _].
  rewrite Hrun in Hs. cbn in Hs.
  apply company_statements_kept in Hs as [_ Hnd']. specialize (Hnd' Hstore).
  apply ingest_companies_Ok_unfold in Hrun as (Hi & Hn & Hrun).
  destruct (company_loop_inv _ _ _ _ _ _ Hrun Hi (company_names_Some (db w)))
    as (new & H1 & _ & _ & H4 & H5).
  rewrite (ingest_companies_unfold file w' Hi Hn).
  assert (forall rec, In rec (file_json file) ->
            is_Some (company_names (db w') !! Json.Company.company rec)) as Hall.
  { intros rec Hrec. destruct (H4 rec Hrec) as (c & _ & Hc2 & Hc3).
    destruct (company_names (db w') !! Json.Company.company rec) eqn:E; [eauto|].
    exfalso. apply company_names_None in E. apply E. rewrite H1. cbn.
    rewrite <- Hc2. apply in_map. exact Hc3. }
  destruct (company_loop_settled _ _ Hall Hi ∅ w') as (lookup' & Hrun' & H4' & H5').
  rewrite Hrun'. f_equal. f_equal.
  apply map_eq. intros i.
  destruct (in_dec Z.eq_dec i (map Json.Company.index (file_json file)))
    as [Hin | Hout].
  - apply in_map_iff in Hin as (rec & <- & Hrec).
    destruct (H4 rec Hrec) as (c & -> & Hc2 & Hc3).
    rewrite (H4' rec Hrec).
    destruct (Hall rec Hrec) as [c' Hc']. rewrite Hc'. f_equal.
    apply company_names_Some in Hc' as [Hn' Hin'].
    apply (NoDup_map_inj Company.name (companies (db w'))); try assumption.
    + rewrite H1. exact Hc3.
    + congruence.
  - rewrite H5' by exact Hout. rewrite H5 by exact Hout. reflexivity.
Qed.

(** *** The versions of a person *)

Lemma replace_row_same {X} (pk : X -> Id) (r : X) (l : list X) :
  (forall x, In x l -> pk x = pk r -> x = r) -> replace_row pk r l = l.
Proof.
  induction l as [|y l IH]; intros Hl; cbn; [reflexivity|].
  rewrite IH by (intros x Hx; apply Hl; right; exact Hx).
  destruct (N.eqb (pk y) (pk r)) eqn:E; [|reflexivity].
  apply N.eqb_eq in E. rewrite (Hl y (or_introl eq_refl) E). reflexivity.
Qed.

Lemma tags_set_full o objs w :
  exists w',
    tags_set o objs w = (w', Ok tt)
    /\ next_uuid w' = next_uuid w /\ clock w' = clock w
    /\ db w' = with_people_tags
                 (relation_after (people_tags (db w)) (People.id (People.fields o))
                    (map Tag.id (tags_all (People.id (People.fields o)) (db w)))
                    objs)
                 (db w).
Proof.
  unfold tags_set. rewrite (bind_step get_db _ w w (db w) eq_refl).
  destruct (relation_set_run TPeopleTags people_tags with_people_tags
              (People.id (People.fields o))
              (map Tag.id (tags_all (People.id (People.fields o)) (db w))) objs w)
    as (w' & Hrun & Hn & Hc & Hdb & Hrel); [reflexivity | reflexivity |].
  exists w'. split; [exact Hrun|]. split; [exact Hn|]. split; [exact Hc|].
  rewrite <- Hrel. destruct Hdb as [-> | [l ->]]; [destruct (db w)|]; reflexivity.
Qed.

Lemma favourite_food_set_full o objs w :
  exists w',
    favourite_food_set o objs w = (w', Ok tt)
    /\ next_uuid w' = next_uuid w /\ clock w' = clock w
    /\ db w' = with_people_to_food
                 (relation_after (people_to_food (db w)) (People.id (People.fields o))
                    (map Food.id
                       (favourite_food_all (People.id (People.fields o)) (db w)))
                    objs)
                 (db w).
Proof.
  unfold favourite_food_set. rewrite (bind_step get_db _ w w (db w) eq_refl).
  destruct (relation_set_run TPeopleToFood people_to_food with_people_to_food
              (People.id (People.fields o))
              (map Food.id (favourite_food_all (People.id (People.fields o)) (db w)))
              objs w)
    as (w' & Hrun & Hn & Hc & Hdb & Hrel); [reflexivity | reflexivity |].
  exists w'. split; [exact Hrun|]. split; [exact Hn|]. split; [exact Hc|].
  rewrite <- Hrel. destruct Hdb as [-> | [l ->]]; [destruct (db w)|]; reflexivity.
Qed.

Section Versions.

Variable currency_db_text : string -> option string.

Lemma save_new_inv o r combos w w' combos' :
  People.adding o = true ->
  save_new currency_db_text o r combos w = (w', Ok combos') ->
  let i := People.id (People.fields o) in
  exists b,
    currency_db_text (People.balance (People.fields o)) = Some b
    /\ has_pk People.id i (people (db w)) = false
    /\ people (db w') = people (db w) ++ [People.set_balance b (People.fields o)]
    /\ people_tags (db w')
       = relation_after (people_tags (db w)) i (map Tag.id (tags_all i (db w)))
           (r_tags r)
    /\ people_to_food (db w')
       = relation_after (people_to_food (db w)) i
           (map Food.id (favourite_food_all i (db w))) (r_foods r)
    /\ people_to_friend (db w') = people_to_friend (db w)
    /\ combos' = combos ++ [(People.mk_instance (People.fields o) false (People.active o),
                             r_friends r)]
    /\ next_uuid w' = next_uuid w /\ clock w' = clock w.
Proof.
  intros Hadd Hrun i. unfold save_new in Hrun.
  apply bind_Ok in Hrun as (w1 & o1 & Hs1 & Hrun).
  pose proof (People_save_inv _ _ _ _ _ Hs1) as (b & t & Hb & Ht & Ha).
  rewrite (People_save_eq _ o w b t Hb Ht Ha) in Hs1.
  rewrite Hadd in Ha. cbn in Ha. rewrite Ha in Hs1. injection Hs1 as <- <-.
  set (row := People.set_balance b (People.fields o)) in *.
  set (o1 := People.mk_instance (People.fields o) false (People.active o)) in *.
  match type of Hrun with bind _ _ ?w = _ => set (w1 := w) in * end.
  destruct (tags_set_full o1 (r_tags r) w1) as (w2 & H2 & N2 & C2 & D2).
  rewrite (bind_step _ _ _ _ _ H2) in Hrun.
  destruct (favourite_food_set_full o1 (r_foods r) w2) as (w3 & H3 & N3 & C3 & D3).
  rewrite (bind_step _ _ _ _ _ H3) in Hrun.
  apply bind_Ok in Hrun as (w4 & o2 & Hs2 & Hret). injection Hret as <- <-.
  assert (people (db w3) = people (db w) ++ [row]) as Hp3.
  { rewrite D3, D2. reflexivity. }
  assert (has_pk People.id (People.id (People.fields o1)) (people (db w3)) = true)
    as Hpk3.
  { rewrite Hp3. apply has_pk_In. exists row. split; [|reflexivity].
    apply in_or_app. right. left. reflexivity. }
  rewrite (People_save_eq _ o1 w3 b t Hb Ht) in Hs2 by reflexivity.
  rewrite Hpk3 in Hs2. injection Hs2 as <- <-.
  exists b. split; [exact Hb|]. split; [exact Ha|]. cbn.
  fold row. rewrite Hp3. rewrite replace_row_same.
  2:{ intros x [Hx | [<- | []]]%in_app_or E; [|reflexivity].
      exfalso. apply (has_pk_false_In _ _ _ Ha x Hx). exact E. }
  rewrite D3, D2, N3, N2, C3, C2. cbn. repeat split; reflexivity.
Qed.

Lemma shut_out_inv row w w' o' :
  In row (people (db w)) ->
  shut_out currency_db_text (from_db row) w = (w', Ok o') ->
  exists b,
    people (db w')
    = replace_row People.id
        (People.set_balance b
           (People.fields (People.set_updated_at (clock w) (from_db row))))
        (people (db w))
    /\ people_tags (db w') = people_tags (db w)
    /\ people_to_food (db w') = people_to_food (db w)
    /\ people_to_friend (db w') = people_to_friend (db w)
    /\ tags (db w') = tags (db w) /\ foods (db w') = foods (db w)
    /\ next_uuid w' = next_uuid w /\ clock w' = N.succ (clock w).
Proof.
  intros Hrow. unfold shut_out.
  rewrite (bind_step timezone_now _ w _ (clock w) eq_refl).
  set (w1 := mk_world (db w) (writes w) (next_uuid w) (N.succ (clock w))).
  set (o := People.set_active false (People.set_updated_at (clock w) (from_db row))).
  intros Hsave. pose proof (People_save_inv _ _ _ _ _ Hsave) as (b & t & Hb & Ht & Ha).
  rewrite (People_save_eq _ o w1 b t Hb Ht Ha) in Hsave.
  assert (Hp : has_pk People.id (People.id (People.fields o)) (people (db w1)) = true).
  { apply has_pk_In. exists row. split; [exact Hrow | reflexivity]. }
  rewrite Hp in Hsave. injection Hsave as <- _. exists b. cbn.
  repeat split; reflexivity.
Qed.

Lemma People_init_inv person r w w' o :
  People_init person r w = (w', Ok o) ->
  People.id (People.fields o) = next_uuid w
  /\ People.guid (People.fields o) = r_guid r
  /\ People.is_active (People.fields o) = true
  /\ People.name (People.fields o) = Json.Person.name person
  /\ People.adding o = true
  /\ db w' = db w /\ next_uuid w' = N.succ (next_uuid w)
  /\ clock w' = N.succ (N.succ (clock w)).
Proof. cbn. intros [= <- <-]. cbn. repeat split; reflexivity. Qed.

End Versions.

Lemma People_init_value person r w w' o :
  People_init person r w = (w', Ok o) ->
  o = People.mk_instance
        (People.mk (Json.Person._id person) (next_uuid w) (r_guid r)
           (Json.Person.name person) (EyeColor.id (r_eye_color r))
           (Gender.id (r_gender r)) (Company.id (r_company r))
           (Json.Person.has_died person) (Json.Person.balance person)
           (Json.Person.picture person) (Json.Person.age person)
           (Json.Person.email person) (Json.Person.phone person)
           (Json.Person.address person) (Json.Person.about person)
           (r_registered r) (Json.Person.greeting person) true
           (clock w) (N.succ (clock w)))
        true None.
Proof. cbn. intros [= <- <-]. reflexivity. Qed.

Section Reconcile.

Variable currency_db_text : string -> option string.




(** X13: a record that differs from the active row it is compared with
    leaves two rows flagged active under its external identifier.  When the
    round returns, the compared row is still in the table under its
    identity, still flagged active, with [updated_at] set to the time of
    the change, and a row with a new identity, the same external
    identifier and [is_active] true has been appended. *)
Theorem changed_record_leaves_two_active_versions
    (lk : Lookups) (combos combos' : list Combo) (person : Json.Person.t)
    (w w' : World) (r : Resolved) (row : People.t) (rest : list People.t) :
  resolve lk person w = (w, Ok r) ->
  active_with_guid (r_guid r) (db w) = row :: rest ->
  (forall w1 o, People_init person r w = (w1, Ok o) ->
     unchanged (db w) o (from_db row) r = false) ->
  reconcile currency_db_text lk combos person w = (w', Ok combos') ->
  exists old new,
    In old (people (db w')) /\ In new (people (db w'))
    /\ People.id old = People.id row /\ People.id new = next_uuid w
    /\ People.id old <> People.id new
    /\ People.guid old = r_guid r /\ People.guid new = r_guid r
    /\ People.is_active old = true /\ People.is_active new = true
    /\ People.updated_at old = N.succ (N.succ (clock w))
    /\ length (people (db w')) = S (length (people (db w))).
Proof.
  intros Hres Hact Hchanged. unfold reconcile.
  rewrite (bind_step _ _ _ _ _ Hres).
  destruct (People_init person r w) as [w1 [o|e]] eqn:Hinit; [|discriminate Hinit].
  pose proof (People_init_inv _ _ _ _ _ Hinit)
    as (Hid & Hg & Hflag & _ & Hadd & Hd1 & Hn1 & Hc1).
  rewrite (bind_step _ _ _ _ _ Hinit).
  rewrite (bind_step get_db _ w1 w1 (db w1) eq_refl).
  rewrite Hg, Hd1, Hact. rewrite (Hchanged _ _ eq_refl). cbn [negb].
  intros Hrun. apply bind_Ok in Hrun as (w2 & o2 & Hshut & Hrun).
  assert (In row (active_with_guid (r_guid r) (db w))) as Hrow
    by (rewrite Hact; left; reflexivity).
  pose proof (active_with_guid_flagged _ _ _ Hrow) as Hrow_active.
  assert (People.guid row = r_guid r) as Hrow_guid.
  { apply filter_In in Hrow as [_ E]. apply N.eqb_eq in E. exact E. }
  apply active_with_guid_In in Hrow.
  assert (In row (people (db w1))) as Hrow1 by (rewrite Hd1; exact Hrow).
  destruct (shut_out_inv currency_db_text _ _ _ _ Hrow1 Hshut)
    as (b & Hp2 & _ & _ & _ & _ & _ & _ & _).
  pose proof (save_new_inv currency_db_text _ _ _ _ _ _ Hadd Hrun)
    as (b' & _ & Hpk & Hp & _).
  cbn zeta in Hpk, Hp.
  set (old := People.set_balance b
                (People.fields (People.set_updated_at (clock w1) (from_db row)))) in *.
  exists old, (People.set_balance b' (People.fields o)).
  assert (In old (people (db w2))) as Hold.
  { rewrite Hp2. pose proof (replace_row_In People.id old row _ Hrow1) as H.
    change (People.id old) with (People.id row) in H.
    rewrite N.eqb_refl in H. exact H. }
  split; [rewrite Hp; apply in_or_app; left; exact Hold|].
  split; [rewrite Hp; apply in_or_app; right; left; reflexivity|].
  split; [reflexivity|]. split; [exact Hid|]. split.
  { cbn. intros E. apply (has_pk_false_In _ _ _ Hpk old Hold). exact E. }
  split; [exact Hrow_guid|]. split; [exact Hg|]. split; [exact Hrow_active|].
  split; [exact Hflag|]. split; [cbn; exact Hc1|].
  rewrite Hp, length_app, Hp2. cbn.
  rewrite <- (length_map People.id (replace_row _ _ _)), replace_row_ids, length_map.
  rewrite Hd1. lia.
Qed.

End Reconcile.

(** *** The manager of the active rows *)

Lemma insert_by_name_Permutation r l : Permutation (insert_by_name r l) (r :: l).
Proof.
  induction l as [|x l IH]; cbn; [reflexivity|].
  destruct (String.leb _ _); [reflexivity|].
  rewrite IH. apply perm_swap.
Qed.

Lemma order_by_name_Permutation l : Permutation (order_by_name l) l.
Proof.
  induction l as [|x l IH]; cbn; [reflexivity|].
  rewrite insert_by_name_Permutation, IH. reflexivity.
Qed.

Lemma insert_by_name_Sorted r l :
  Sorted by_name l -> Sorted by_name (insert_by_name r l).
Proof.
  induction 1 as [|x l Hl IH Hx]; cbn.
  - repeat constructor.
  - destruct (String.leb (People.name r) (People.name x)) eqn:E.
    + constructor; [constructor; assumption | constructor; exact E].
    + constructor; [exact IH|].
      assert (by_name x r) as Hxr.
      { destruct (String.leb_total (People.name r) (People.name x)) as [H|H];
          [congruence | exact H]. }
      destruct l as [|y l]; cbn; [constructor; exact Hxr|].
      destruct (String.leb (People.name r) (People.name y));
        constructor; [exact Hxr|].
      inversion Hx; assumption.
Qed.

Lemma order_by_name_Sorted l : Sorted by_name (order_by_name l).
Proof.
  induction l as [|x l IH]; cbn; [constructor|].
  apply insert_by_name_Sorted. exact IH.
Qed.

(** X14: [People.active] yields the rows flagged active, each as often as
    it is stored and no other, in non-decreasing order of [name]. *)
Theorem the_active_manager_yields_the_flagged_rows_by_name (d : DB) :
  Permutation (OnlyActiveManager d) (List.filter People.is_active (people d))
  /\ Sorted by_name (OnlyActiveManager d).
Proof.
  unfold OnlyActiveManager.
  split; [apply order_by_name_Permutation | apply order_by_name_Sorted].
Qed.

(** *** The endpoints *)

Lemma two_in_list {X} (a b : X) (l : list X) :
  In a l -> In b l -> a <> b -> exists x y rest, l = x :: y :: rest.
Proof.
  destruct l as [|x [|y rest]]; cbn; [tauto | | eauto].
  intros [<- | []] [<- | []] Hne. congruence.
Qed.

Lemma active_with_guid_spec g d row :
  In row (active_with_guid g d)
  <-> In row (people d) /\ People.is_active row = true /\ People.guid row = g.
Proof.
  unfold active_with_guid, OnlyActiveManager.
  rewrite filter_In, order_by_name_In, filter_In, N.eqb_eq. tauto.
Qed.

Lemma two_active_versions g d old new :
  In old (people d) -> In new (people d) ->
  People.id old <> People.id new ->
  People.guid old = g -> People.guid new = g ->
  People.is_active old = true -> People.is_active new = true ->
  Views.get (active_with_guid g d) = inl Views.MultipleObjectsReturned.
Proof.
  intros H1 H2 Hne G1 G2 A1 A2.
  destruct (two_in_list old new (active_with_guid g d)) as (x & y & rest & ->).
  - apply active_with_guid_spec. auto.
  - apply active_with_guid_spec. auto.
  - congruence.
  - reflexivity.
Qed.

(** X15: an external identifier with two rows flagged active, under
    different identities, cannot be served: [validate_people] lets
    [MultipleObjectsReturned] through for a list that starts with it, and
    so do [favourite_foods] for that person and [commonfriends] for a
    request that names the person first. *)
Theorem two_active_versions_break_the_person_endpoints
    (d : DB) (text : string) (g : Guid) (old new : People.t) :
  Py.UUID text = Some g ->
  In old (people d) -> In new (people d) ->
  People.id old <> People.id new ->
  People.guid old = g -> People.guid new = g ->
  People.is_active old = true -> People.is_active new = true ->
  (forall rest,
     Views.validate_people d (text :: rest)
     = Views.Uncaught Views.MultipleObjectsReturned)
  /\ Views.favourite_foods d text = Views.Uncaught Views.MultipleObjectsReturned
  /\ forall people_uuids rest,
       Text.split ":" people_uuids = text :: rest ->
       Views.commonfriends d people_uuids
       = Views.Uncaught Views.MultipleObjectsReturned.
Proof.
  intros Hg H1 H2 Hne G1 G2 A1 A2.
  pose proof (two_active_versions g d old new H1 H2 Hne G1 G2 A1 A2) as Hget.
  assert (forall rest, Views.validate_people d (text :: rest)
                       = Views.Uncaught Views.MultipleObjectsReturned) as Hv.
  { intros rest. cbn [Views.validate_people]. rewrite Hg, Hget. reflexivity. }
  split; [exact Hv|]. split.
  - unfold Views.favourite_foods. rewrite Hv. reflexivity.
  - intros people_uuids rest Hs. unfold Views.commonfriends.
    rewrite Hs, Hv. reflexivity.
Qed.

Lemma filter_none {X} (p : X -> bool) (l : list X) :
  (forall x, In x l -> p x = false) -> List.filter p l = [].
Proof.
  induction l as [|x l IH]; intros H; cbn; [reflexivity|].
  rewrite (H x (or_introl eq_refl)). apply IH. intros y Hy. apply H. right. exact Hy.
Qed.

Lemma filter_unique {X} (f : X -> string) (c : X) (l : list X) :
  NoDup (map f l) -> In c l ->
  List.filter (fun x => String.eqb (f x) (f c)) l = [c].
Proof.
  induction l as [|x l IH]; cbn [map List.filter In]; [tauto|].
  intros [Hx Hnd]%NoDup_cons [-> | Hin].
  - rewrite String.eqb_refl. f_equal.
    apply filter_none. intros y Hy. apply String.eqb_neq. intros E. apply Hx.
    rewrite <- E. apply list_elem_of_In, in_map. exact Hy.
  - destruct (String.eqb (f x) (f c)) eqn:E; [|auto].
    apply String.eqb_eq in E. exfalso. apply Hx. rewrite E.
    apply list_elem_of_In, in_map. exact Hin.
Qed.

Lemma string_compare_trans (a : string) : forall b c,
  String.compare a b <> Gt -> String.compare b c <> Gt -> String.compare a c <> Gt.
Proof.
  induction a as [|x a IH]; intros [|y b] [|z c]; cbn; try congruence.
  unfold Ascii.compare.
  destruct (N.compare_spec (N_of_ascii x) (N_of_ascii y)) as [Exy | Lxy | Gxy];
    destruct (N.compare_spec (N_of_ascii y) (N_of_ascii z)) as [Eyz | Lyz | Gyz];
    destruct (N.compare_spec (N_of_ascii x) (N_of_ascii z)) as [Exz | Lxz | Gxz];
    try congruence; try lia.
  apply IH.
Qed.

Lemma string_leb_trans a b c :
  String.leb a b = true -> String.leb b c = true -> String.leb a c = true.
Proof.
  unfold String.leb. intros H1 H2.
  pose proof (string_compare_trans a b c) as H.
  destruct (String.compare a b), (String.compare b c), (String.compare a c);
    try reflexivity; try discriminate; exfalso; apply H; congruence.
Qed.

Lemma StronglySorted_filter {X} (R : X -> X -> Prop) (p : X -> bool) (l : list X) :
  StronglySorted R l -> StronglySorted R (List.filter p l).
Proof.
  induction 1 as [|x l Hl IH Hx]; cbn; [constructor|].
  destruct (p x); [|exact IH]. constructor; [exact IH|].
  rewrite List.Forall_forall in *. intros y Hy. apply Hx.
  apply filter_In in Hy as [Hy _]. exact Hy.
Qed.

Lemma StronglySorted_names (l : list People.t) :
  StronglySorted by_name l ->
  StronglySorted (fun a b => String.leb a b = true) (map People.name l).
Proof.
  induction 1 as [|x l Hl IH Hx]; cbn; constructor; [exact IH|].
  rewrite List.Forall_forall in *. intros n Hn.
  apply in_map_iff in Hn as (y & <- & Hy). exact (Hx y Hy).
Qed.

Lemma OnlyActiveManager_StronglySorted d : StronglySorted by_name (OnlyActiveManager d).
Proof.
  apply Sorted_StronglySorted.
  - intros a b c. unfold by_name. apply string_leb_trans.
  - apply order_by_name_Sorted.
Qed.

Lemma Permutation_filter {X} (p : X -> bool) (l l' : list X) :
  Permutation l l' -> Permutation (List.filter p l) (List.filter p l').
Proof.
  induction 1 as [|x l l' _ IH|x y l|l1 l2 l3 _ IH1 _ IH2]; cbn.
  - constructor.
  - destruct (p x); [constructor|]; exact IH.
  - destruct (p x), (p y); try reflexivity. apply perm_swap.
  - etransitivity; eassumption.
Qed.

Lemma filter_filter {X} (p q : X -> bool) (l : list X) :
  List.filter p (List.filter q l) = List.filter (fun x => q x && p x) l.
Proof.
  induction l as [|x l IH]; cbn; [reflexivity|].
  destruct (q x); cbn; [destruct (p x)|]; rewrite IH; reflexivity.
Qed.

(** X16: on a store whose organisations have distinct names, the company
    endpoint answers 404, with the name in the message, exactly for a name
    that no organisation carries; for the name of an organisation it lists
    the names of the rows of people that are flagged active and linked to
    that organisation, each row once, in non-decreasing order. *)
Theorem company_lists_the_active_employees_by_name (d : DB) (name : string) :
  NoDup (map Company.name (companies d)) ->
  ((forall c, In c (companies d) -> Company.name c <> name) ->
   Views.company d name
   = Views.Http404 (String.append "Company, " (String.append name ", does not exist")))
  /\ forall c, In c (companies d) -> Company.name c = name ->
       exists employees,
         Views.company d name
         = Views.JsonResponse (Views.mk_company_payload name employees)
         /\ Permutation employees
              (map People.name
                 (List.filter
                    (fun p => People.is_active p
                              && N.eqb (People.company_id p) (Company.id c))
                    (people d)))
         /\ StronglySorted (fun a b => String.leb a b = true) employees.
Proof.
  intros Hnd. split.
  - intros Hnone. unfold Views.company. rewrite filter_none; [reflexivity|].
    intros c Hc. apply String.eqb_neq. apply Hnone. exact Hc.
  - intros c Hc <-. unfold Views.company.
    rewrite (filter_unique Company.name c _ Hnd Hc). cbn [Views.get].
    eexists. split; [reflexivity|]. split.
    + apply Permutation_map. rewrite <- filter_filter.
      apply Permutation_filter. apply order_by_name_Permutation.
    + apply StronglySorted_names. apply StronglySorted_filter.
      apply OnlyActiveManager_StronglySorted.
Qed.






Lemma split_cons c s : exists x xs, Text.split c s = x :: xs.
Proof.
  induction s as [|a s (x & xs & IH)]; cbn; [eauto|].
  destruct (Ascii.eqb a c); [eauto|]. rewrite IH. eauto.
Qed.

Lemma validate_people_Ok d texts u :
  Views.validate_people d texts = Views.JsonResponse u ->
  exists guids,
    Views.to_python texts = inr guids
    /\ length guids = length texts
    /\ forall g, In g guids -> exists row, active_with_guid g d = [row].
Proof.
  induction texts as [|text texts IH]; cbn [Views.validate_people Views.to_python].
  - intros _. exists []. split; [reflexivity|]. split; [reflexivity | intros ? []].
  - destruct (Py.UUID text) as [g|]; [|discriminate].
    destruct (active_with_guid g d) as [|row [|row2 rest]] eqn:E; cbn [Views.get];
      try discriminate.
    intros H. destruct (IH H) as (guids & -> & Hlen & Hall).
    exists (g :: guids). split; [reflexivity|]. split; [cbn; congruence|].
    intros g' [<- | Hg']; [eauto | auto].
Qed.

Lemma active_with_guid_in_spec gs d row :
  In row (active_with_guid_in gs d)
  <-> In row (people d) /\ People.is_active row = true /\ In (People.guid row) gs.
Proof.
  unfold active_with_guid_in, OnlyActiveManager.
  rewrite filter_In, order_by_name_In, filter_In, mem_guid_In. tauto.
Qed.

Lemma validated_people_exist d texts u guids :
  Views.validate_people d texts = Views.JsonResponse u ->
  Views.to_python texts = inr guids ->
  texts <> [] ->
  exists person rest, active_with_guid_in guids d = person :: rest.
Proof.
  intros Hv Hp Hne. destruct (validate_people_Ok d texts u Hv) as (gs & Hp' & Hlen & Hall).
  rewrite Hp in Hp'. injection Hp' as <-.
  destruct guids as [|g guids]; [destruct texts; [congruence | discriminate]|].
  destruct (Hall g (or_introl eq_refl)) as [row Hrow].
  assert (In row (active_with_guid_in (g :: guids) d)) as Hin.
  { assert (In row (active_with_guid g d)) as H by (rewrite Hrow; left; reflexivity).
    apply active_with_guid_spec in H as (H1 & H2 & H3).
    apply active_with_guid_in_spec. split; [exact H1|]. split; [exact H2|].
    left. symmetry. exact H3. }
  destruct (active_with_guid_in (g :: guids) d); [destruct Hin | eauto].
Qed.

(** X18: the common-friends endpoint needs a row of [EyeColor] for
    [brown]: on a store without one, a request whose identifiers are all
    valid is not answered, [EyeColor.DoesNotExist] gets through. *)
Theorem commonfriends_needs_the_brown_eye_colour (d : DB) (people_uuids : string) :
  Views.validate_people d (Text.split ":" people_uuids) = Views.JsonResponse tt ->
  (forall e, In e (eye_colors d) -> EyeColor.color e <> "brown") ->
  Views.commonfriends d people_uuids = Views.Uncaught Views.DoesNotExist.
Proof.
  intros Hv Hnone. unfold Views.commonfriends. rewrite Hv.
  destruct (validate_people_Ok _ _ _ Hv) as (guids & Hp & _ & _). rewrite Hp.
  destruct (validated_people_exist _ _ _ _ Hv Hp) as (person & rest & ->).
  { destruct (split_cons ":" people_uuids) as (x & xs & ->). discriminate. }
  cbn [Views.friend_sets]. unfold Views.friend_set.
  rewrite filter_none; [reflexivity|].
  intros e He. apply String.eqb_neq. apply Hnone. exact He.
Qed.

Lemma friend_sets_brown d brown persons :
  List.filter (fun e => String.eqb (EyeColor.color e) "brown") (eye_colors d) = [brown] ->
  exists sets,
    Views.friend_sets d persons = inr sets
    /\ length sets = length persons
    /\ forall g, (forall s, In s sets -> In g s)
         <-> forall person, In person persons ->
               exists f, In f (people d)
                 /\ In (People.id person, People.id f) (people_to_friend d)
                 /\ People.guid f = g
                 /\ People.eye_color_id f = EyeColor.id brown
                 /\ People.has_died f = Some false.
Proof.
  intros Hb. induction persons as [|person rest (sets & IH & Hlen & Hall)];
    cbn [Views.friend_sets].
  { exists []. split; [reflexivity|]. split; [reflexivity|].
    intros g. split; intros _ ? []. }
  unfold Views.friend_set at 1. rewrite Hb. cbn [Views.get]. rewrite IH.
  eexists. split; [reflexivity|]. split; [cbn; congruence|].
  intros g.
  assert (forall s0 : list Guid,
            s0 = dedup (map People.guid
                     (List.filter
                        (fun f => N.eqb (People.eye_color_id f) (EyeColor.id brown)
                                  && People.option_eqb Bool.eqb (People.has_died f)
                                                       (Some false))
                        (friends_all (People.id person) d))) ->
            In g s0 <->
            exists f, In f (people d)
              /\ In (People.id person, People.id f) (people_to_friend d)
              /\ People.guid f = g
              /\ People.eye_color_id f = EyeColor.id brown
              /\ People.has_died f = Some false) as Hset.
  { intros s0 ->. rewrite dedup_In, in_map_iff. split.
    - intros (f & Hg & Hf). apply filter_In in Hf as [Hf Hc].
      apply andb_true_iff in Hc as [Hc1 Hc2]. apply N.eqb_eq in Hc1.
      unfold friends_all in Hf. apply (proj1 (order_by_name_In _ _)) in Hf.
      apply filter_In in Hf as [Hf Hrel]. apply (proj1 (related_In _ _ _)) in Hrel.
      exists f. repeat split; try assumption.
      destruct (People.has_died f) as [[]|]; cbn in Hc2; congruence.
    - intros (f & Hf & Hrel & Hg & Hc1 & Hc2). exists f. split; [exact Hg|].
      apply filter_In. split.
      + unfold friends_all. apply order_by_name_In. apply filter_In.
        split; [exact Hf|]. apply related_In. exact Hrel.
      + rewrite Hc1, Hc2, N.eqb_refl. reflexivity. }
  split.
  - intros H p [<- | Hp].
    + apply (Hset _ eq_refl). apply H. left. reflexivity.
    + apply Hall; [|exact Hp]. intros s Hs. apply H. right. exact Hs.
  - intros H s [<- | Hs].
    + apply (Hset _ eq_refl). apply H. left. reflexivity.
    + revert s Hs. apply Hall. intros p Hp. apply H. right. exact Hp.
Qed.

Lemma fold_intersection others : forall first g,
  In g (fold_left Views.intersection others first)
  <-> forall s, In s (first :: others) -> In g s.
Proof.
  induction others as [|s others IH]; intros first g; cbn [fold_left].
  - split; [intros H s [<- | []]; exact H | intros H; apply H; left; reflexivity].
  - rewrite IH. unfold Views.intersection at 1. split.
    + intros H s0 [<- | [<- | Hs0]].
      * specialize (H _ (or_introl eq_refl)). apply filter_In in H as [H _]. exact H.
      * specialize (H _ (or_introl eq_refl)). apply filter_In in H as [_ H].
        apply mem_guid_In. exact H.
      * apply H. right. exact Hs0.
    + intros H s0 [<- | Hs0].
      * apply filter_In. split; [apply H; left; reflexivity|].
        apply mem_guid_In. apply H. right. left. reflexivity.
      * apply H. right. right. exact Hs0.
Qed.

(** X19: on a store with one eye colour [brown], a request for the common
    friends of persons whose identifiers are all valid is answered.  The
    persons listed are the active rows of the identifiers given, and a name
    is listed as a common friend exactly when it is the name of an active
    row whose external identifier is that of a brown-eyed friend, recorded
    as not dead, of each of these persons. *)
Theorem commonfriends_lists_the_friends_shared_by_all
    (d : DB) (people_uuids : string) (brown : EyeColor.t) :
  Views.validate_people d (Text.split ":" people_uuids) = Views.JsonResponse tt ->
  List.filter (fun e => String.eqb (EyeColor.color e) "brown") (eye_colors d) = [brown] ->
  exists guids payload,
    Views.to_python (Text.split ":" people_uuids) = inr guids
    /\ Views.commonfriends d people_uuids = Views.JsonResponse payload
    /\ Views.individuals_details payload
       = map (fun p => Views.mk_individual (People.name p) (People.age p)
                                           (People.address p) (People.phone p))
             (active_with_guid_in guids d)
    /\ forall name,
         In name (Views.common_browneyed_alive_friends payload)
         <-> exists row, In row (people d) /\ People.is_active row = true
               /\ People.name row = name
               /\ forall person, In person (active_with_guid_in guids d) ->
                    exists f, In f (people d)
                      /\ In (People.id person, People.id f) (people_to_friend d)
                      /\ People.guid f = People.guid row
                      /\ People.eye_color_id f = EyeColor.id brown
                      /\ People.has_died f = Some false.
Proof.
  intros Hv Hb. unfold Views.commonfriends. rewrite Hv.
  destruct (validate_people_Ok _ _ _ Hv) as (guids & Hp & _ & _). rewrite Hp.
  exists guids.
  destruct (validated_people_exist _ _ _ _ Hv Hp) as (person & rest & Hpeople).
  { destruct (split_cons ":" people_uuids) as (x & xs & ->). discriminate. }
  destruct (friend_sets_brown d brown (active_with_guid_in guids d) Hb)
    as (sets & Hsets & Hlen & Hall).
  rewrite Hsets. destruct sets as [|first others].
  { rewrite Hpeople in Hlen. discriminate. }
  eexists. split; [reflexivity|]. split; [reflexivity|]. split; [reflexivity|].
  intros name. cbn [Views.common_browneyed_alive_friends]. rewrite in_map_iff. split.
  - intros (row & <- & Hrow). apply active_with_guid_in_spec in Hrow as (H1 & H2 & H3).
    exists row. split; [exact H1|]. split; [exact H2|]. split; [reflexivity|].
    apply Hall. apply fold_intersection. exact H3.
  - intros (row & H1 & H2 & <- & H3). exists row. split; [reflexivity|].
    apply active_with_guid_in_spec. split; [exact H1|]. split; [exact H2|].
    apply fold_intersection. apply Hall. exact H3.
Qed.

(** *** The start-up hook *)

Lemma append_cons a s t : String.append (String a s) t = String a (String.append s t).
Proof. reflexivity. Qed.

Lemma append_assoc (a b c : string) :
  String.append (String.append a b) c = String.append a (String.append b c).
Proof.
  induction a as [|x a IH]; [reflexivity|].
  rewrite !append_cons, IH. reflexivity.
Qed.

Lemma drop_prefix_append p s : Py.drop_prefix p (String.append p s) = Some s.
Proof.
  induction p as [|a p IH]; [destruct s; reflexivity|].
  rewrite append_cons. cbn [Py.drop_prefix]. rewrite Ascii.eqb_refl. exact IH.
Qed.

Lemma drop_prefix_Some p : forall s rest,
  Py.drop_prefix p s = Some rest -> s = String.append p rest.
Proof.
  induction p as [|a p IH]; intros s rest.
  - destruct s; cbn; intros [= <-]; reflexivity.
  - destruct s as [|b s]; cbn [Py.drop_prefix]; [discriminate|].
    destruct (Ascii.eqb a b) eqn:E; [|discriminate].
    apply Ascii.eqb_eq in E. subst b. intros H. rewrite (IH _ _ H). reflexivity.
Qed.

Lemma contains_intro needle pre suf :
  Text.contains needle (String.append pre (String.append needle suf)) = true.
Proof.
  induction pre as [|a pre IH].
  - change (String.append EmptyString ?x) with x.
    destruct (String.append needle suf) eqn:E; cbn [Text.contains];
      rewrite <- E, drop_prefix_append; reflexivity.
  - rewrite append_cons. cbn [Text.contains]. rewrite IH.
    destruct (Py.drop_prefix _ _); reflexivity.
Qed.

Lemma contains_elim needle hay :
  Text.contains needle hay = true ->
  exists pre suf, hay = String.append pre (String.append needle suf).
Proof.
  induction hay as [|a hay IH]; cbn [Text.contains].
  - destruct (Py.drop_prefix needle EmptyString) as [rest|] eqn:E; [|discriminate].
    intros _. exists EmptyString, rest. exact (drop_prefix_Some _ _ _ E).
  - destruct (Py.drop_prefix needle (String a hay)) as [rest|] eqn:E.
    + intros _. exists EmptyString, rest. exact (drop_prefix_Some _ _ _ E).
    + intros H. destruct (IH H) as (pre & suf & ->).
      exists (String a pre), suf. reflexivity.
Qed.

Lemma join_app l1 l2 :
  Text.join (l1 ++ l2) = String.append (Text.join l1) (Text.join l2).
Proof.
  induction l1 as [|x l1 IH]; cbn [Text.join app]; [reflexivity|].
  rewrite IH, append_assoc. reflexivity.
Qed.

Lemma contains_join needle a argv :
  In a argv -> Text.contains needle a = true ->
  Text.contains needle (Text.join argv) = true.
Proof.
  intros Hin Hc. apply in_split in Hin as (l1 & l2 & ->).
  apply contains_elim in Hc as (pre & suf & ->).
  rewrite join_app. cbn [Text.join]. rewrite !append_assoc, <- append_assoc.
  apply contains_intro.
Qed.

Section StartUpProperties.

Variable currency_db_text : string -> option string.
Variable md5_hexdigest : string -> string.

(** X20: the start-up hook leaves the store alone, and issues no
    statement, whenever one of the words of the command line contains
    [migrate] or [makemigrations], wherever in the command line that word
    stands and whatever the command is. *)
Theorem ready_skips_the_ingestion_for_migrations
    (argv : list string) (word : string)
    (company_file : DataFile (list Json.Company.t))
    (people_file : DataFile (list Json.Person.t)) (w : World) :
  In word argv ->
  Text.contains "migrate" word = true \/ Text.contains "makemigrations" word = true ->
  ready currency_db_text md5_hexdigest argv company_file people_file w = (w, Ok tt).
Proof.
  intros Hin Hc. unfold ready.
  destruct Hc as [Hc | Hc]; rewrite (contains_join _ _ _ Hin Hc); cbn;
    [reflexivity | rewrite andb_false_r; reflexivity].
Qed.

End StartUpProperties.

(** *** Friends *)

Section Friends.

Variable currency_db_text : string -> option string.

(** X21: the round of the last loop on a stored person replaces the
    friends of that person: whatever rows it was related to before, it is
    related afterwards to exactly the rows, of any version, that are
    flagged active under one of the external identifiers recorded for it.
    The relations of the other persons and the identity, external
    identifier and flag of every row are as they were. *)
Theorem linking_replaces_the_friends_of_a_person
    (person : People.instance) (friends : list Guid) (w : World) :
  saveable currency_db_text person ->
  stored person (db w) ->
  exists w',
    link_friends currency_db_text tt (person, friends) w = (w', Ok tt)
    /\ triples (db w') = triples (db w)
    /\ (forall s t, s <> People.id (People.fields person) ->
          (In (s, t) (people_to_friend (db w'))
           <-> In (s, t) (people_to_friend (db w))))
    /\ (forall i, linked (db w') (People.id (People.fields person)) i
                  <-> active_in (db w) friends i).
Proof.
  intros Hs Hst.
  destruct (link_friends_step currency_db_text person friends w Hs Hst)
    as (w' & H1 & H2 & _ & H4 & H5).
  exists w'. auto.
Qed.

End Friends.

(** *** The first loop and what it resolves *)

Lemma add_key_In k l x : In x (add_key k l) <-> x = k \/ In x l.
Proof.
  unfold add_key. destruct (existsb (String.eqb k) l) eqn:E.
  - apply (proj1 (existsb_eqb_In _ _)) in E.
    split; [auto | intros [-> | H]; assumption].
  - rewrite in_app_iff. cbn. split; [intros [H | [<- | []]]; auto | intros [-> | H]; auto].
Qed.

Lemma fold_add_key_In ks : forall l x,
  In x (fold_left (fun acc k => add_key k acc) ks l) <-> In x ks \/ In x l.
Proof.
  induction ks as [|k ks IH]; intros l x; cbn [fold_left]; [cbn; tauto|].
  rewrite IH, add_key_In. cbn. split; [intros [H | [-> | H]]; auto | intros [[<- | H] | H]; auto].
Qed.

Lemma harvest_loop_inv (l : list Json.Person.t) : forall h w w' h',
  for_each l harvest_person h w = (w', Ok h') ->
  (forall p, In p l ->
     In (Json.Person.eyeColor p) (eyecolors h')
     /\ In (Json.Person.gender p) (genders_seen h')
     /\ (forall t, In t (Json.Person.tags p) -> In t (tags_seen h'))
     /\ (forall f, In f (Json.Person.favouriteFood p) -> In f (foods_seen h'))
     /\ is_Some (Py.UUID (Json.Person.guid p)))
  /\ (forall x, In x (eyecolors h) -> In x (eyecolors h'))
  /\ (forall x, In x (genders_seen h) -> In x (genders_seen h'))
  /\ (forall x, In x (tags_seen h) -> In x (tags_seen h'))
  /\ (forall x, In x (foods_seen h) -> In x (foods_seen h'))
  /\ (forall i, is_Some (people_index_uuid h' !! i)
        <-> is_Some (people_index_uuid h !! i)
            \/ exists p, In p l /\ Json.Person.index p = i)
  /\ (forall i, (forall p, In p l -> Json.Person.index p <> i) ->
        people_index_uuid h' !! i = people_index_uuid h !! i).
Proof.
  induction l as [|x l IH]; intros h w w' h' Hrun.
  - cbn in Hrun. injection Hrun as <- <-.
    split; [intros ? []|]. do 4 (split; [auto|]). split; [|auto].
    intros i. split; [auto | intros [H | (p & [] & _)]; exact H].
  - cbn [for_each] in Hrun. apply bind_Ok in Hrun as (w1 & h1 & Hstep & Hrun).
    unfold harvest_person, uuid_UUID in Hstep.
    destruct (Py.UUID (Json.Person.guid x)) as [g|] eqn:Eg; [|discriminate].
    cbn in Hstep. injection Hstep as <- <-.
    destruct (IH _ _ _ _ Hrun) as (H1 & H2 & H3 & H4 & H5 & H6 & H7).
    cbn [eyecolors genders_seen tags_seen foods_seen people_index_uuid] in *.
    split; [|split; [|split; [|split; [|split; [|split]]]]].
    + intros p [<- | Hp]; [|auto]. split; [apply H2, add_key_In; auto|].
      split; [apply H3, add_key_In; auto|].
      split; [intros t Ht; apply H4, fold_add_key_In; auto|].
      split; [intros f Hf; apply H5, fold_add_key_In; auto | rewrite Eg; eauto].
    + intros y Hy. apply H2, add_key_In. auto.
    + intros y Hy. apply H3, add_key_In. auto.
    + intros y Hy. apply H4, fold_add_key_In. auto.
    + intros y Hy. apply H5, fold_add_key_In. auto.
    + intros i. rewrite H6. split.
      * intros [Hi | (p & Hp & Ei)]; [|right; exists p; split; [right; exact Hp | exact Ei]].
        destruct (Z.eq_dec (Json.Person.index x) i) as [E | Hne].
        -- right. exists x. split; [left; reflexivity | exact E].
        -- rewrite lookup_insert_ne in Hi by exact Hne. left. exact Hi.
      * intros [Hi | (p & [<- | Hp] & Ei)].
        -- left. destruct (Z.eq_dec (Json.Person.index x) i) as [<- | Hne];
             [rewrite lookup_insert_eq; eauto | rewrite lookup_insert_ne by exact Hne; exact Hi].
        -- left. subst i. rewrite lookup_insert_eq. eauto.
        -- right. exists p. split; [exact Hp | exact Ei].
    + intros i Hi. rewrite H7 by (intros p Hp; apply Hi; right; exact Hp).
      apply lookup_insert_ne. apply Hi. left. reflexivity.
Qed.

Lemma harvest_last (l2 : list Json.Person.t) : forall l1 p h w w' h',
  for_each (l1 ++ p :: l2) harvest_person h w = (w', Ok h') ->
  (forall q, In q l2 -> Json.Person.index q <> Json.Person.index p) ->
  people_index_uuid h' !! Json.Person.index p = Py.UUID (Json.Person.guid p).
Proof.
  intros l1. induction l1 as [|x l1 IH]; intros p h w w' h' Hrun Hlast.
  - cbn [app for_each] in Hrun. apply bind_Ok in Hrun as (w1 & h1 & Hstep & Hrun).
    unfold harvest_person, uuid_UUID in Hstep.
    destruct (Py.UUID (Json.Person.guid p)) as [g|] eqn:Eg; [|discriminate].
    cbn in Hstep. injection Hstep as <- <-.
    destruct (harvest_loop_inv _ _ _ _ _ Hrun) as (_ & _ & _ & _ & _ & _ & H7).
    rewrite H7 by exact Hlast. cbn. apply lookup_insert_eq.
  - cbn [app for_each] in Hrun. apply bind_Ok in Hrun as (w1 & h1 & _ & Hrun).
    exact (IH _ _ _ _ _ Hrun Hlast).
Qed.

Lemma build_lookups_inv people cl w w1 lk :
  build_lookups people cl w = (w1, Ok lk) ->
  exists h,
    harvest people w = (w, Ok h)
    /\ company_lookup lk = cl
    /\ index_uuid lk = people_index_uuid h
    /\ (forall v, In v (foods_seen h) -> is_Some (foods_lookup lk !! v))
    /\ (forall v, In v (tags_seen h) -> is_Some (tags_lookup lk !! v))
    /\ (forall v, In v (genders_seen h) -> is_Some (gender_lookup lk !! v))
    /\ (forall v, In v (eyecolors h) -> is_Some (eye_color_lookup lk !! v)).
Proof.
  unfold build_lookups. intros H.
  apply bind_Ok in H as (w0 & h & Hh & H).
  pose proof (pure_harvest people w) as Hp. rewrite Hh in Hp. cbn in Hp. subst w0.
  apply bind_Ok in H as (wa & fl & Hf & H).
  apply bind_Ok in H as (wb & tl & Ht & H).
  apply bind_Ok in H as (wc & gl & Hg & H).
  apply bind_Ok in H as (wd & el & He & H).
  injection H as <- <-. exists h. cbn.
  unfold create_lookup in Hf, Ht, Hg, He.
  apply lookup_loop_sound in Hf as (_ & _ & Hf & _).
  apply lookup_loop_sound in Ht as (_ & _ & Ht & _).
  apply lookup_loop_sound in Hg as (_ & _ & Hg & _).
  apply lookup_loop_sound in He as (_ & _ & He & _).
  repeat split; auto.
Qed.

(** X22: the index that the first loop keeps for the friends is keyed by
    [index] without a check for repeats: when several records of a file
    carry the same [index], that index stands for the external identifier
    of the last of them. *)
Theorem a_repeated_index_stands_for_the_last_record
    (before after : list Json.Person.t) (person : Json.Person.t)
    (company_lookup : gmap Z Company.t) (w w' : World) (lk : Lookups) :
  (forall q, In q after -> Json.Person.index q <> Json.Person.index person) ->
  build_lookups (before ++ person :: after) company_lookup w = (w', Ok lk) ->
  index_uuid lk !! Json.Person.index person = Py.UUID (Json.Person.guid person)
  /\ is_Some (Py.UUID (Json.Person.guid person)).
Proof.
  intros Hlast Hrun.
  apply build_lookups_inv in Hrun as (h & Hh & _ & -> & _).
  unfold harvest in Hh. split; [exact (harvest_last _ _ _ _ _ _ _ Hh Hlast)|].
  destruct (harvest_loop_inv _ _ _ _ _ Hh) as (H1 & _).
  apply (H1 person). apply in_or_app. right. left. reflexivity.
Qed.

Lemma comprehension_keys {A B} (f : A -> M B) (known : A -> bool) (l : list A) :
  (forall x, known x = true -> exists y, forall w, f x w = (w, Ok y)) ->
  (forall x, known x = false -> forall w, f x w = (w, Raise KeyError)) ->
  forall w,
    if forallb known l
    then exists ys, comprehension f l w = (w, Ok ys)
    else comprehension f l w = (w, Raise KeyError).
Proof.
  intros Hyes Hno. induction l as [|x l IH]; intros w; cbn [forallb comprehension].
  - eexists. reflexivity.
  - destruct (known x) eqn:Ex; cbn [andb].
    + destruct (Hyes x Ex) as [y Hy]. rewrite (bind_step _ _ _ _ _ (Hy w)).
      specialize (IH w). destruct (forallb known l).
      * destruct IH as [ys Hys]. rewrite (bind_step _ _ _ _ _ Hys). eexists. reflexivity.
      * rewrite (bind_fail _ _ _ _ _ IH). reflexivity.
    + rewrite (bind_fail _ _ _ _ _ (Hno x Ex w)). reflexivity.
Qed.

Lemma comprehension_present {A B} (f : A -> M B) (l : list A) :
  (forall x, In x l -> exists y, forall w, f x w = (w, Ok y)) ->
  forall w, exists ys, comprehension f l w = (w, Ok ys).
Proof.
  intros Hyes. induction l as [|x l IH]; intros w; cbn [comprehension].
  - eexists. reflexivity.
  - destruct (Hyes x (or_introl eq_refl)) as [y Hy].
    rewrite (bind_step _ _ _ _ _ (Hy w)).
    destruct (IH (fun z Hz => Hyes z (or_intror Hz)) w) as [ys Hys].
    rewrite (bind_step _ _ _ _ _ Hys). eexists. reflexivity.
Qed.

Lemma getitem_present {K V} `{Countable K} (m : gmap K V) k :
  is_Some (m !! k) -> exists v, forall w, getitem m k w = (w, Ok v).
Proof. intros [v Hv]. exists v. intros w. unfold getitem. rewrite Hv. reflexivity. Qed.

(** X23: for a record of the file, once the lookups are built, the
    second loop resolves the record in this order.  An entry of [friends]
    that is the [index] of no record of the file raises [KeyError],
    whatever the rest of the record; with the friends known, a [registered]
    text that is matched but out of range raises [ValueError]; with the
    friends known and the text parsed, a [company_id] whose predecessor is
    no key of the organisation mapping raises [KeyError], and otherwise the
    record is resolved, with the timestamp parsed and the organisation
    found under that key.  The state is left as it is in every case. *)
Theorem resolve_fails_for_friends_timestamp_or_company_only
    (file : list Json.Person.t) (mapping : gmap Z Company.t)
    (w w1 w2 : World) (lk : Lookups) (person : Json.Person.t) :
  build_lookups file mapping w = (w1, Ok lk) ->
  In person file ->
  let stamp := Py.parse_datetime (Py.remove_spaces (Json.Person.registered person)) in
  let employer := mapping !! (Json.Person.company_id person - 1) in
  (friends_known file person = false ->
   resolve lk person w2 = (w2, Raise KeyError))
  /\ (friends_known file person = true -> stamp = Py.OutOfRange ->
      resolve lk person w2 = (w2, Raise ValueError))
  /\ (forall t, friends_known file person = true -> stamp = Py.Parsed t ->
      employer = None ->
      resolve lk person w2 = (w2, Raise KeyError))
  /\ (forall t c, friends_known file person = true -> stamp = Py.Parsed t ->
      employer = Some c ->
      exists r, resolve lk person w2 = (w2, Ok r)
                /\ r_company r = c /\ r_registered r = Some t).
Proof.
  intros Hb Hin stamp employer.
  apply build_lookups_inv in Hb as (h & Hh & Hcl & Hidx & Hf & Ht & Hg & He).
  unfold harvest in Hh.
  destruct (harvest_loop_inv _ _ _ _ _ Hh) as (Hp & _ & _ & _ & _ & Hi & _).
  destruct (Hp person Hin) as (Pe & Pg & Pt & Pf & [g Pu]).
  assert (forall w, exists ys,
            comprehension (fun this_food => f <- getitem (foods_lookup lk) this_food;;
                                            ret (Food.id f))
                          (Json.Person.favouriteFood person) w = (w, Ok ys)) as Hfoods.
  { apply comprehension_present. intros x Hx.
    destruct (getitem_present (foods_lookup lk) x (Hf x (Pf x Hx))) as [v Hv].
    exists (Food.id v). intros w0. rewrite (bind_step _ _ _ _ _ (Hv w0)). reflexivity. }
  assert (forall w, exists ys,
            comprehension (fun this_tag => t <- getitem (tags_lookup lk) this_tag;;
                                           ret (Tag.id t))
                          (Json.Person.tags person) w = (w, Ok ys)) as Htags.
  { apply comprehension_present. intros x Hx.
    destruct (getitem_present (tags_lookup lk) x (Ht x (Pt x Hx))) as [v Hv].
    exists (Tag.id v). intros w0. rewrite (bind_step _ _ _ _ _ (Hv w0)). reflexivity. }
  pose proof (comprehension_keys
                (fun friend => getitem (index_uuid lk) friend)
                (fun i => existsb (fun q => Z.eqb (Json.Person.index q) i) file)
                (Json.Person.friends person)) as Hfriends.
  assert (forall i, existsb (fun q => Z.eqb (Json.Person.index q) i) file = true
                    <-> is_Some (index_uuid lk !! i)) as Hknown.
  { intros i. rewrite Hidx, Hi, existsb_exists. split.
    - intros (q & Hq & E). apply Z.eqb_eq in E. right. eauto.
    - intros [[x Hx] | (q & Hq & E)];
        [cbn in Hx; rewrite lookup_empty in Hx; discriminate|].
      exists q. split; [exact Hq | apply Z.eqb_eq; exact E]. }
  specialize (Hfriends
    ltac:(intros i Hi'; apply getitem_present; apply Hknown; exact Hi')
    ltac:(intros i Hi' w0; unfold getitem;
          destruct (index_uuid lk !! i) eqn:E; [|reflexivity];
          assert (existsb (fun q => Z.eqb (Json.Person.index q) i) file = true)
            by (apply Hknown; eauto); congruence)
    w2).
  fold (friends_known file person) in Hfriends.
  destruct (Hfoods w2) as [fs Hfs]. destruct (Htags w2) as [ts Hts].
  destruct (getitem_present (gender_lookup lk) _ (Hg _ Pg)) as [gd Hgd].
  destruct (getitem_present (eye_color_lookup lk) _ (He _ Pe)) as [ec Hec].
  unfold resolve.
  rewrite (bind_step _ _ _ _ _ Hfs), (bind_step _ _ _ _ _ Hts).
  destruct (friends_known file person).
  2:{ rewrite (bind_fail _ _ _ _ _ Hfriends).
      split; [reflexivity|]. split; [discriminate|].
      split; intros; discriminate. }
  destruct Hfriends as [gs Hgs]. rewrite (bind_step _ _ _ _ _ Hgs).
  split; [discriminate|].
  assert (uuid_UUID (Json.Person.guid person) w2 = (w2, Ok g)) as Hu.
  { unfold uuid_UUID. rewrite Pu. reflexivity. }
  assert (forall c, employer = Some c ->
            getitem (company_lookup lk) (Json.Person.company_id person - 1) w2
            = (w2, Ok c)) as Hsome.
  { intros c Hc. unfold getitem. rewrite Hcl. fold employer. rewrite Hc. reflexivity. }
  assert (employer = None ->
          getitem (company_lookup lk) (Json.Person.company_id person - 1) w2
          = (w2, Raise KeyError)) as Hnone.
  { intros Hc. unfold getitem. rewrite Hcl. fold employer. rewrite Hc. reflexivity. }
  assert (forall t, stamp = Py.Parsed t ->
            parse_registered (Json.Person.registered person) w2 = (w2, Ok (Some t)))
    as Hparsed.
  { intros t Hs. unfold parse_registered. fold stamp. rewrite Hs. reflexivity. }
  assert (stamp = Py.OutOfRange ->
          parse_registered (Json.Person.registered person) w2 = (w2, Raise ValueError))
    as Hrange.
  { intros Hs. unfold parse_registered. fold stamp. rewrite Hs. reflexivity. }
  split; [|split].
  - intros _ Hs. rewrite (bind_fail _ _ _ _ _ (Hrange Hs)). reflexivity.
  - intros t _ Hs Hc.
    rewrite (bind_step _ _ _ _ _ (Hparsed t Hs)), (bind_step _ _ _ _ _ Hu).
    rewrite (bind_fail _ _ _ _ _ (Hnone Hc)). reflexivity.
  - intros t c _ Hs Hc.
    rewrite (bind_step _ _ _ _ _ (Hparsed t Hs)), (bind_step _ _ _ _ _ Hu).
    rewrite (bind_step _ _ _ _ _ (Hsome c Hc)).
    rewrite (bind_step _ _ _ _ _ (Hgd w2)), (bind_step _ _ _ _ _ (Hec w2)).
    eexists. repeat split; reflexivity.
Qed.

(** *** A file that matches the store *)

Lemma constant_ret {A} (a : A) : constant (ret a).
Proof. exists (Ok a). reflexivity. Qed.

Lemma constant_raise {A} e : constant (raise (A := A) e).
Proof. exists (Raise e). reflexivity. Qed.

Lemma constant_bind {A B} (m : M A) (k : A -> M B) :
  constant m -> (forall a, constant (k a)) -> constant (bind m k).
Proof.
  intros [[a|e] Hm] Hk.
  - destruct (Hk a) as [y Hy]. exists y. intros w. unfold bind. rewrite Hm. apply Hy.
  - exists (Raise e). intros w. unfold bind. rewrite Hm. reflexivity.
Qed.

Lemma constant_getitem {K V} `{Countable K} (d : gmap K V) k : constant (getitem d k).
Proof. unfold getitem. destruct (d !! k); [apply constant_ret | apply constant_raise]. Qed.

Lemma constant_comprehension {A B} (f : A -> M B) l :
  (forall x, constant (f x)) -> constant (comprehension f l).
Proof.
  intros Hf. induction l as [|x l IH]; cbn [comprehension]; [apply constant_ret|].
  apply constant_bind; [apply Hf|]. intros y.
  apply constant_bind; [exact IH|]. intros ys. apply constant_ret.
Qed.

Lemma constant_resolve lk person : constant (resolve lk person).
Proof.
  unfold resolve.
  apply constant_bind.
  { apply constant_comprehension. intros x.
    apply constant_bind; [apply constant_getitem | intros; apply constant_ret]. }
  intros fs. apply constant_bind.
  { apply constant_comprehension. intros x.
    apply constant_bind; [apply constant_getitem | intros; apply constant_ret]. }
  intros ts. apply constant_bind.
  { apply constant_comprehension. intros x. apply constant_getitem. }
  intros gs. apply constant_bind.
  { unfold parse_registered.
    destruct (Py.parse_datetime _); [apply constant_ret | apply constant_ret | apply constant_raise]. }
  intros reg. apply constant_bind.
  { unfold uuid_UUID. destruct (Py.UUID _); [apply constant_ret | apply constant_raise]. }
  intros g. apply constant_bind; [apply constant_getitem|].
  intros c. apply constant_bind; [apply constant_getitem|].
  intros gd. apply constant_bind; [apply constant_getitem|].
  intros ec. apply constant_ret.
Qed.

Lemma resolve_anywhere lk person w w' x :
  resolve lk person w = (w', x) -> forall w0, resolve lk person w0 = (w0, x).
Proof.
  intros H w0. destruct (constant_resolve lk person) as [y Hy].
  rewrite Hy in H. injection H as _ <-. apply Hy.
Qed.

Section Matching.

Variable currency_db_text : string -> option string.

(** X24: a file all of whose records match the store leaves it alone.
    When every record is resolved and equals, by the comparison of the
    second loop, the first active row of its external identifier, the
    second loop returns with the store and the list of statements as they
    were and with no person recorded, so that the last loop has nothing
    to do. *)
Theorem a_file_that_matches_the_store_writes_nothing
    (lk : Lookups) (file : list Json.Person.t) (w : World) :
  (forall person, In person file ->
     exists r row rest,
       resolve lk person w = (w, Ok r)
       /\ active_with_guid (r_guid r) (db w) = row :: rest
       /\ forall w0 w1 o, People_init person r w0 = (w1, Ok o) ->
            unchanged (db w) o (from_db row) r = true) ->
  exists w',
    for_each file (reconcile currency_db_text lk) [] w = (w', Ok [])
    /\ db w' = db w /\ writes w' = writes w
    /\ for_each [] (link_friends currency_db_text) tt w' = (w', Ok tt).
Proof.
  intros Hall.
  assert (forall l w0,
            (forall p, In p l -> In p file) -> db w0 = db w -> writes w0 = writes w ->
            exists w', for_each l (reconcile currency_db_text lk) [] w0 = (w', Ok [])
                       /\ db w' = db w /\ writes w' = writes w) as Hloop.
  { induction l as [|p l IH]; intros w0 Hsub Hd Hw; cbn [for_each].
    { exists w0. auto. }
    destruct (Hall p (Hsub p (or_introl eq_refl))) as (r & row & rest & Hr & Ha & Hu).
    destruct (reconcile_leaves_matching_record currency_db_text lk [] p w0 r row rest)
      as (w1 & Hrun & Hd1 & Hw1).
    - exact (resolve_anywhere _ _ _ _ _ Hr w0).
    - rewrite Hd. exact Ha.
    - intros w2 o Hinit. rewrite Hd. exact (Hu _ _ _ Hinit).
    - rewrite (bind_step _ _ _ _ _ Hrun).
      apply IH; [intros q Hq; apply Hsub; right; exact Hq | congruence | congruence]. }
  destruct (Hloop file w (fun p Hp => Hp) eq_refl eq_refl) as (w' & H1 & H2 & H3).
  exists w'. repeat split; assumption.
Qed.

End Matching.

(** ** The properties on the sample data *)

Module Examples.
Import Sample.

Example first_run_links_al_to_acme :
  snd (ingest acme al empty_world) = Ok tt
  /\ versions after_al = [(6%N, 10%N, "Al", true, 1%N)]
  /\ employers after_al = [("Al", ["Acme"])].
Proof. vm_compute. auto. Qed.

(** C1, as stated, fails.  With a single organisation of index 1, a person
    whose [company_id] is 1 is not linked to it: the run raises [KeyError].
    With organisations of index 0 and 1, that person is linked to the one
    of index 0. *)
Lemma company_id_is_not_the_organisation_index :
  snd (ingest acme_at_1 al empty_world) = Raise KeyError
  /\ employers (fst (ingest acme_and_globex al empty_world)) = [("Al", ["Acme"])].
Proof. vm_compute. auto. Qed.

Lemma company_is_resolved_by_company_id_minus_one_witness :
  ingest_companies acme empty_world
  = (fst (ingest_companies acme empty_world),
     Ok (<[0 := Company.mk 1%N "Acme"]> ∅))
  /\ ((forall lk person w w' r,
         company_lookup lk = <[0 := Company.mk 1%N "Acme"]> ∅ ->
         resolve lk person w = (w', Ok r) ->
         (exists rec, In rec (file_json acme)
            /\ Json.Company.index rec = Json.Person.company_id person - 1
            /\ Json.Company.company rec = Company.name (r_company r))
         /\ forall w2 w3 o,
              People_init person r w2 = (w3, Ok o) ->
              People.company_id (People.fields o) = Company.id (r_company r))
      /\ (forall person,
            In person (file_json al) ->
            (forall rec, In rec (file_json acme) ->
               Json.Company.index rec <> Json.Person.company_id person - 1) ->
            forall w, exists w' e,
              ingest_people as_written al (<[0 := Company.mk 1%N "Acme"]> ∅) w
              = (w', Raise e))).
Proof.
  split; [vm_compute; reflexivity|].
  apply (company_is_resolved_by_company_id_minus_one as_written acme al
           empty_world (fst (ingest_companies acme empty_world))).
  vm_compute. reflexivity.
Defined.

(** C2, as stated, fails.  A text of the form [YYYY-MM-DD HH:MM +HH:MM]
    loses the blank between its date and its time with the others; what is
    left is not parsed, [registered] is left empty and the run raises when
    the person is saved. *)
Lemma registered_with_blank_is_not_parsed :
  blank_stamp = registered_text " " " " 2020 1 1 0 0 false 0 0
  /\ parse_registered blank_stamp empty_world = (empty_world, Ok None)
  /\ snd (ingest acme registered_with_blank empty_world) = Raise IntegrityError.
Proof. vm_compute. auto. Qed.

Lemma registered_joined_by_T_is_parsed_witness :
  Py.remove_spaces stamp = registered_text "T" EmptyString 2016 7 13 12 29 true 10 0
  /\ 0 <= 10 < 100 /\ 0 <= 0 < 100
  /\ Py.datetime_valid (registered_value 2016 7 13 12 29 true 10 0) = true
  /\ parse_registered stamp empty_world
     = (empty_world, Ok (Some (registered_value 2016 7 13 12 29 true 10 0))).
Proof.
  split; [reflexivity|]. split; [lia|]. split; [lia|]. split; [reflexivity|].
  apply (registered_joined_by_T_is_parsed stamp 2016 7 13 12 29 true 10 0);
    [reflexivity | lia | lia | reflexivity].
Defined.

(** C3.  Al is ingested, then ingested again under the name Bo: the run
    succeeds and leaves two rows with Al's external identifier, both with
    [is_active] true, and the manager of active rows returns both. *)
Theorem two_active_versions_after_a_change :
  snd (ingest acme bo after_al) = Ok tt
  /\ versions after_bo
     = [(6%N, 10%N, "Al", true, 5%N); (8%N, 10%N, "Bo", true, 4%N)]
  /\ map People.id (active_with_guid 10%N (db after_bo)) = [6%N; 8%N].
Proof. vm_compute. auto. Qed.

Lemma ingest_data_second_run_is_noop_witness :
  ingest_data as_written digest acme al empty_world = (after_al, Ok tt)
  /\ recorded digest acme al (db after_al)
  /\ ingest_data as_written digest acme al after_al = (after_al, Ok tt).
Proof.
  split; [vm_compute; reflexivity|].
  apply (ingest_data_second_run_is_noop as_written digest acme al empty_world).
  vm_compute. reflexivity.
Defined.

(** C5.  Al's favourite food goes from apple to carrot.  The new version
    is saved with its tag and its food, it is linked to its friend, and the
    old version has its [updated_at] stamped; but the old version keeps
    [is_active] true. *)
Theorem old_version_is_stamped_but_stays_active :
  versions after_apple
  = [(6%N, 10%N, "Al", true, 1%N); (7%N, 11%N, "Bea", true, 3%N)]
  /\ snd (ingest acme likes_carrot after_apple) = Ok tt
  /\ versions after_carrot
     = [(6%N, 10%N, "Al", true, 7%N); (7%N, 11%N, "Bea", true, 3%N);
        (10%N, 10%N, "Al", true, 6%N)]
  /\ map Tag.name (tags_all 10%N (db after_carrot)) = ["x"]
  /\ map Food.name (favourite_food_all 10%N (db after_carrot)) = ["carrot"]
  /\ map People.name (friends_all 10%N (db after_carrot)) = ["Bea"].
Proof. vm_compute. repeat split. Qed.

(** C6.  After Al was ingested under the name Bo, the file that names him
    Bo is ingested once more, with a changed organisation file: its record
    equals the latest version, yet a third row is created and the oldest
    row has its [updated_at] stamped again.  The record is compared with the
    first row the manager of active rows returns, which is the oldest,
    still flagged active. *)
Theorem unchanged_file_is_versioned_again :
  versions after_bo
  = [(6%N, 10%N, "Al", true, 5%N); (8%N, 10%N, "Bo", true, 4%N)]
  /\ snd (ingest acme_and_globex bo after_bo) = Ok tt
  /\ versions after_bo_again
     = [(6%N, 10%N, "Al", true, 9%N); (8%N, 10%N, "Bo", true, 4%N);
        (11%N, 10%N, "Bo", true, 8%N)].
Proof. vm_compute. repeat split. Qed.

(** Al's list of friends goes from Bea and Cy to Bea: the new version of
    Al has Bea's row as its only friend. *)
Example friend_list_shrinks :
  people_to_friend (db after_two_friends) = [(4%N, 5%N); (4%N, 6%N)]
  /\ versions after_one_friend
     = [(4%N, 10%N, "Al", true, 9%N); (5%N, 11%N, "Bea", true, 3%N);
        (6%N, 12%N, "Cy", true, 5%N); (8%N, 10%N, "Al", true, 8%N)]
  /\ map People.name (friends_all 8%N (db after_one_friend)) = ["Bea"].
Proof. vm_compute. repeat split. Qed.

(** C7, on the code, fails.  Al lists Bea and Cy, then Bea only, while Bea
    is renamed Bee.  The last loop does replace the friends of Al's new
    row, and Cy is not among them; but they are not the current identity
    of Bea alone: Bea's first row, superseded by the row named Bee, is
    still flagged active, so the new row of Al is related to both, and
    Al's own first row, still flagged active as well, keeps Bea and Cy. *)
Theorem relinked_person_is_related_to_a_superseded_row :
  versions after_two_friends
  = [(4%N, 10%N, "Al", true, 1%N); (5%N, 11%N, "Bea", true, 3%N);
     (6%N, 12%N, "Cy", true, 5%N)]
  /\ people_to_friend (db after_two_friends) = [(4%N, 5%N); (4%N, 6%N)]
  /\ snd (ingest acme one_friend_bee after_two_friends) = Ok tt
  /\ versions after_one_friend_bee
     = [(4%N, 10%N, "Al", true, 9%N); (5%N, 11%N, "Bea", true, 12%N);
        (6%N, 12%N, "Cy", true, 5%N); (8%N, 10%N, "Al", true, 8%N);
        (9%N, 11%N, "Bee", true, 11%N)]
  /\ map (fun r => (People.id r, People.name r))
         (friends_all 8%N (db after_one_friend_bee))
     = [(5%N, "Bea"); (9%N, "Bee")]
  /\ map (fun r => (People.id r, People.name r))
         (friends_all 4%N (db after_one_friend_bee))
     = [(5%N, "Bea"); (6%N, "Cy")].
Proof. vm_compute. repeat split. Qed.

Lemma ingest_companies_rejects_duplicates_witness :
  (shares Json.Company.index (file_json acme_twice)
   \/ shares Json.Company.company (file_json acme_twice))
  /\ ingest_companies acme_twice after_al = (after_al, Raise AssertionError)
  /\ forall people_file,
       ~ recorded digest acme_twice people_file (db after_al) ->
       ingest_data as_written digest acme_twice people_file after_al
       = (after_al, Raise AssertionError).
Proof.
  assert (H : shares Json.Company.index (file_json acme_twice)
              \/ shares Json.Company.company (file_json acme_twice)).
  { right. exists 0%nat, 1%nat, (Json.Company.mk 0 "Acme"), (Json.Company.mk 1 "Acme").
    split; [lia|]. split; [reflexivity|]. split; reflexivity. }
  split; [exact H|].
  exact (ingest_companies_rejects_duplicates as_written digest acme_twice after_al H).
Defined.

(** C9, as stated, fails.  For one new tag, [create_lookup] issues two
    statements: the insert of [get_or_create] and the update of the [save]
    that follows. *)
Lemma create_lookup_issues_two_statements :
  writes (fst (create_lookup (R := Tag.t) ["x"] None empty_world))
  = [Insert TTag 1%N; Update TTag 1%N]
  /\ length (writes (fst (create_lookup (R := Tag.t) ["x"] None empty_world)))
     <> 1%nat.
Proof. vm_compute. split; [reflexivity | discriminate]. Qed.

Lemma create_lookup_creates_each_new_value_once_witness :
  NoDup (keys (R := Tag.t) (db after_al))
  /\ supply_fresh (R := Tag.t) after_al
  /\ (let news :=
         new_values (known_values (R := Tag.t) None (db after_al)) ["x"; "y"; "y"] in
       (NoDup news
        /\ forall v, In v news <->
              In v ["x"; "y"; "y"]
              /\ ~ In v (known_values (R := Tag.t) None (db after_al)))
       /\ exists w' lookup,
            create_lookup (R := Tag.t) ["x"; "y"; "y"] None after_al = (w', Ok lookup)
            /\ keys (R := Tag.t) (db w') = keys (R := Tag.t) (db after_al) ++ news
            /\ (exists ws, writes w' = writes after_al ++ ws
                           /\ length ws = (2 * length news)%nat)
            /\ forall again, again = None \/ again = Some lookup ->
                 exists lookup',
                   create_lookup (R := Tag.t) ["x"; "y"; "y"] again w' = (w', Ok lookup')).
Proof.
  assert (H1 : NoDup (keys (R := Tag.t) (db after_al))).
  { vm_compute. apply NoDup_singleton. }
  assert (H2 : supply_fresh (R := Tag.t) after_al).
  { vm_compute. intros r [<-|[]]. reflexivity. }
  split; [exact H1|]. split; [exact H2|].
  exact (create_lookup_creates_each_new_value_once ["x"; "y"; "y"] None after_al H1 H2).
Defined.

(** C10.  Al lists Bea as a friend and does not change; Bea is renamed.
    Al's row and its one edge are as they were, and the edge points to
    Bea's first row, not to her new one; but that first row is not
    inactive: its [is_active] is still true. *)
Theorem stale_edge_points_to_a_row_still_active :
  versions after_bea
  = [(4%N, 10%N, "Al", true, 1%N); (5%N, 11%N, "Bea", true, 3%N)]
  /\ people_to_friend (db after_bea) = [(4%N, 5%N)]
  /\ snd (ingest acme friend_bee after_bea) = Ok tt
  /\ versions after_bee
     = [(4%N, 10%N, "Al", true, 1%N); (5%N, 11%N, "Bea", true, 9%N);
        (8%N, 11%N, "Bee", true, 8%N)]
  /\ people_to_friend (db after_bee) = [(4%N, 5%N)]
  /\ map People.is_active (friends_all 4%N (db after_bee)) = [true].
Proof. vm_compute. repeat split. Qed.

End Examples.

(** ** The further properties on the sample data *)

Module Checks.

Import Sample.

Lemma ingest_data_records_completed_runs_only_witness :
  ~ recorded digest acme al (db empty_world)
  /\ ingest_data as_written digest acme al empty_world = (after_al, Ok tt)
  /\ exists f,
       ingested_files (db after_al) = ingested_files (db empty_world) ++ [f]
       /\ IngestedFiles.companyfile_hash f = get_hash digest acme
       /\ IngestedFiles.peoplefile_hash f = get_hash digest al.
Proof.
  assert (~ recorded digest acme al (db empty_world)) as Hnot.
  { intros (f & [] & _). }
  assert (ingest_data as_written digest acme al empty_world = (after_al, Ok tt))
    as Hrun by (vm_compute; reflexivity).
  split; [exact Hnot|]. split; [exact Hrun|].
  exact (ingest_data_records_completed_runs_only as_written digest acme al
           empty_world after_al (Ok tt) Hnot Hrun).
Defined.


Lemma registered_with_a_blank_separator_is_read_as_None_witness :
  0 <= 2020 < 10000 /\ 0 <= 1 < 100 /\ 0 <= 1 < 100 /\ 0 <= 0 < 100
  /\ parse_registered (registered_text " " " " 2020 1 1 0 0 false 0 0) empty_world
     = (empty_world, Ok None).
Proof.
  assert (0 <= 2020 < 10000) as Hy by lia.
  assert (0 <= 1 < 100) as Hm by lia.
  assert (0 <= 0 < 100) as Hh by lia.
  repeat (split; [assumption|]).
  exact (registered_with_a_blank_separator_is_read_as_None " " 2020 1 1 0 0
           false 0 0 empty_world Hy Hm Hm Hh).
Defined.

Lemma blank_separated_registered_stops_ingest_people_witness :
  In (person 0 guid_a "Al" 1 [] [] [] blank_stamp) (file_json registered_with_blank)
  /\ Json.Person.registered (person 0 guid_a "Al" 1 [] [] [] blank_stamp)
     = registered_text " " " " 2020 1 1 0 0 false 0 0
  /\ 0 <= 2020 < 10000 /\ 0 <= 1 < 100 /\ 0 <= 1 < 100 /\ 0 <= 0 < 100
  /\ registered_not_null (db after_al)
  /\ (exists w' e,
        ingest_people as_written registered_with_blank acme_by_index after_al
        = (w', Raise e))
  /\ snd (ingest_people as_written registered_with_blank acme_by_index after_al)
     = Raise IntegrityError
  /\ snd (ingest_people as_written al acme_by_index after_al) = Ok tt.
Proof.
  assert (In (person 0 guid_a "Al" 1 [] [] [] blank_stamp)
             (file_json registered_with_blank)) as Hin by (left; reflexivity).
  assert (Json.Person.registered (person 0 guid_a "Al" 1 [] [] [] blank_stamp)
          = registered_text " " " " 2020 1 1 0 0 false 0 0) as Htext
    by (vm_compute; reflexivity).
  assert (0 <= 2020 < 10000) as Hy by lia.
  assert (0 <= 1 < 100) as Hm by lia.
  assert (0 <= 0 < 100) as Hh by lia.
  assert (registered_not_null (db after_al)) as Hnn.
  { unfold registered_not_null. vm_compute. intros row [<- | []].
    eexists; reflexivity. }
  split; [exact Hin|]. split; [exact Htext|].
  split; [exact Hy|]. split; [exact Hm|]. split; [exact Hm|]. split; [exact Hh|].
  split; [exact Hnn|]. split.
  - exact (blank_separated_registered_stops_ingest_people as_written
             registered_with_blank _ acme_by_index after_al " " 2020 1 1 0 0
             false 0 0 Hin Htext Hy Hm Hm Hh Hnn).
  - split; vm_compute; reflexivity.
Defined.

Lemma create_lookup_maps_each_value_to_its_row_witness :
  let lookup : gmap string Food.t :=
    <["tofu" := Food.mk 2%N "tofu" Food.UNCLASSIFIED]>
      (<["apple" := Food.mk 1%N "apple" Food.FRUIT]> ∅) in
  let w' := fst (create_lookup (R := Food.t) ["apple"; "tofu"] None empty_world) in
  create_lookup (R := Food.t) ["apple"; "tofu"] None empty_world = (w', Ok lookup)
  /\ (forall v, In v ["apple"; "tofu"] -> exists r, lookup !! v = Some r)
  /\ (forall v r, (∅ : gmap string Food.t) !! v = Some r -> lookup !! v = Some r)
  /\ (forall v r, lookup !! v = Some r ->
        (∅ : gmap string Food.t) !! v = Some r
        \/ (In v ["apple"; "tofu"] /\ In r (foods (db w')) /\ Food.name r = v))
  /\ extends (foods (db empty_world)) (foods (db w')).
Proof.
  intros lookup w'.
  assert (create_lookup (R := Food.t) ["apple"; "tofu"] None empty_world
          = (w', Ok lookup)) as Hrun by (vm_compute; reflexivity).
  split; [exact Hrun|].
  exact (create_lookup_maps_each_value_to_its_row ["apple"; "tofu"] None
           empty_world w' lookup Hrun).
Defined.

Lemma ingest_companies_creates_the_missing_organisations_witness :
  NoDup (map Json.Company.index (file_json acme_and_globex))
  /\ NoDup (map Json.Company.company (file_json acme_and_globex))
  /\ (forall c, In c (companies (db after_al)) -> (Company.id c < next_uuid after_al)%N)
  /\ exists w' lookup new,
       ingest_companies acme_and_globex after_al = (w', Ok lookup)
       /\ db w' = with_companies (companies (db after_al) ++ new) (db after_al)
       /\ map Company.name new
          = missing_names (db after_al)
              (map Json.Company.company (file_json acme_and_globex))
       /\ writes w' = writes after_al ++ map (fun c => Insert TCompany (Company.id c)) new
       /\ forall rec, In rec (file_json acme_and_globex) ->
            exists c, lookup !! Json.Company.index rec = Some c
              /\ Company.name c = Json.Company.company rec
              /\ In c (companies (db w')).
Proof.
  assert (NoDup (map Json.Company.index (file_json acme_and_globex))) as H1.
  { refine (bool_decide_unpack _ _). vm_compute. exact I. }
  assert (NoDup (map Json.Company.company (file_json acme_and_globex))) as H2.
  { refine (bool_decide_unpack _ _). vm_compute. exact I. }
  assert (forall c, In c (companies (db after_al)) ->
            (Company.id c < next_uuid after_al)%N) as H3.
  { vm_compute. intros c [<- | []]. reflexivity. }
  split; [exact H1|]. split; [exact H2|]. split; [exact H3|].
  exact (ingest_companies_creates_the_missing_organisations acme_and_globex
           after_al H1 H2 H3).
Defined.

Lemma ingest_companies_again_changes_nothing_witness :
  let w' := fst (ingest_companies acme_and_globex after_al) in
  let lookup : gmap Z Company.t :=
    <[1 := Company.mk 8%N "Globex"]> (<[0 := Company.mk 1%N "Acme"]> ∅) in
  NoDup (map Company.name (companies (db after_al)))
  /\ ingest_companies acme_and_globex after_al = (w', Ok lookup)
  /\ ingest_companies acme_and_globex w' = (w', Ok lookup).
Proof.
  intros w' lookup.
  assert (NoDup (map Company.name (companies (db after_al)))) as H1.
  { refine (bool_decide_unpack _ _). vm_compute. exact I. }
  assert (ingest_companies acme_and_globex after_al = (w', Ok lookup)) as H2
    by (vm_compute; reflexivity).
  split; [exact H1|]. split; [exact H2|].
  exact (ingest_companies_again_changes_nothing acme_and_globex after_al w'
           lookup H1 H2).
Defined.


Lemma changed_record_leaves_two_active_versions_witness :
  let w := fst (staged acme bo after_al) in
  let lk := snd (staged acme bo after_al) in
  let r := resolved lk bo_record w in
  let row := first_active (r_guid r) w in
  let rest := tl (active_with_guid (r_guid r) (db w)) in
  let w' := fst (reconciled bo (staged acme bo after_al)) in
  let combos' := snd (reconciled bo (staged acme bo after_al)) in
  resolve lk bo_record w = (w, Ok r)
  /\ active_with_guid (r_guid r) (db w) = row :: rest
  /\ (forall w1 o, People_init bo_record r w = (w1, Ok o) ->
        unchanged (db w) o (from_db row) r = false)
  /\ reconcile as_written lk [] bo_record w = (w', Ok combos')
  /\ exists old new,
       In old (people (db w')) /\ In new (people (db w'))
       /\ People.id old = People.id row /\ People.id new = next_uuid w
       /\ People.id old <> People.id new
       /\ People.guid old = r_guid r /\ People.guid new = r_guid r
       /\ People.is_active old = true /\ People.is_active new = true
       /\ People.updated_at old = N.succ (N.succ (clock w))
       /\ length (people (db w')) = S (length (people (db w))).
Proof.
  intros w lk r row rest w' combos'.
  assert (resolve lk bo_record w = (w, Ok r)) as H1 by (vm_compute; reflexivity).
  assert (active_with_guid (r_guid r) (db w) = row :: rest) as H2
    by (vm_compute; reflexivity).
  assert (forall w1 o, People_init bo_record r w = (w1, Ok o) ->
            unchanged (db w) o (from_db row) r = false) as H3.
  { intros w1 o Hinit. rewrite (People_init_value _ _ _ _ _ Hinit).
    vm_compute. reflexivity. }
  assert (reconcile as_written lk [] bo_record w = (w', Ok combos')) as H4
    by (vm_compute; reflexivity).
  repeat (split; [assumption|]).
  exact (changed_record_leaves_two_active_versions as_written lk [] combos'
           bo_record w w' r row rest H1 H2 H3 H4).
Defined.

Lemma two_active_versions_break_the_person_endpoints_witness :
  let d := db after_bo in
  let old := row_at 0 after_bo in
  let new := row_at 1 after_bo in
  Py.UUID guid_a = Some 10%N
  /\ In old (people d) /\ In new (people d)
  /\ People.id old <> People.id new
  /\ People.guid old = 10%N /\ People.guid new = 10%N
  /\ People.is_active old = true /\ People.is_active new = true
  /\ (forall rest,
        Views.validate_people d (guid_a :: rest)
        = Views.Uncaught Views.MultipleObjectsReturned)
  /\ Views.favourite_foods d guid_a = Views.Uncaught Views.MultipleObjectsReturned
  /\ forall people_uuids rest,
       Text.split ":" people_uuids = guid_a :: rest ->
       Views.commonfriends d people_uuids
       = Views.Uncaught Views.MultipleObjectsReturned.
Proof.
  intros d old new.
  assert (Py.UUID guid_a = Some 10%N) as H1 by (vm_compute; reflexivity).
  assert (In old (people d)) as H2 by (vm_compute; left; reflexivity).
  assert (In new (people d)) as H3 by (vm_compute; right; left; reflexivity).
  assert (People.id old <> People.id new) as H4 by (vm_compute; discriminate).
  assert (People.guid old = 10%N) as H5 by (vm_compute; reflexivity).
  assert (People.guid new = 10%N) as H6 by (vm_compute; reflexivity).
  assert (People.is_active old = true) as H7 by (vm_compute; reflexivity).
  assert (People.is_active new = true) as H8 by (vm_compute; reflexivity).
  repeat (split; [assumption|]).
  exact (two_active_versions_break_the_person_endpoints d guid_a 10%N old new
           H1 H2 H3 H4 H5 H6 H7 H8).
Defined.

Lemma company_lists_the_active_employees_by_name_witness :
  let d := db after_bo in
  NoDup (map Company.name (companies d))
  /\ ((forall c, In c (companies d) -> Company.name c <> "Acme") ->
      Views.company d "Acme"
      = Views.Http404 (String.append "Company, " (String.append "Acme" ", does not exist")))
  /\ forall c, In c (companies d) -> Company.name c = "Acme" ->
       exists employees,
         Views.company d "Acme"
         = Views.JsonResponse (Views.mk_company_payload "Acme" employees)
         /\ Permutation employees
              (map People.name
                 (List.filter
                    (fun p => People.is_active p
                              && N.eqb (People.company_id p) (Company.id c))
                    (people d)))
         /\ StronglySorted (fun a b => String.leb a b = true) employees.
Proof.
  intros d.
  assert (NoDup (map Company.name (companies d))) as H1.
  { refine (bool_decide_unpack _ _). vm_compute. exact I. }
  split; [exact H1|].
  exact (company_lists_the_active_employees_by_name d "Acme" H1).
Defined.


Lemma commonfriends_needs_the_brown_eye_colour_witness :
  Views.validate_people without_eye_colours (Text.split ":" guid_a)
  = Views.JsonResponse tt
  /\ (forall e, In e (eye_colors without_eye_colours) -> EyeColor.color e <> "brown")
  /\ Views.commonfriends without_eye_colours guid_a
     = Views.Uncaught Views.DoesNotExist.
Proof.
  assert (Views.validate_people without_eye_colours (Text.split ":" guid_a)
          = Views.JsonResponse tt) as H1 by (vm_compute; reflexivity).
  assert (forall e, In e (eye_colors without_eye_colours) ->
            EyeColor.color e <> "brown") as H2 by (intros e []).
  split; [exact H1|]. split; [exact H2|].
  exact (commonfriends_needs_the_brown_eye_colour without_eye_colours guid_a H1 H2).
Defined.

Lemma commonfriends_lists_the_friends_shared_by_all_witness :
  let d := db after_bea in
  let brown := first_eye_colour after_bea in
  Views.validate_people d (Text.split ":" guid_a) = Views.JsonResponse tt
  /\ List.filter (fun e => String.eqb (EyeColor.color e) "brown") (eye_colors d)
     = [brown]
  /\ exists guids payload,
       Views.to_python (Text.split ":" guid_a) = inr guids
       /\ Views.commonfriends d guid_a = Views.JsonResponse payload
       /\ Views.individuals_details payload
          = map (fun p => Views.mk_individual (People.name p) (People.age p)
                                              (People.address p) (People.phone p))
                (active_with_guid_in guids d)
       /\ forall name,
            In name (Views.common_browneyed_alive_friends payload)
            <-> exists row, In row (people d) /\ People.is_active row = true
                  /\ People.name row = name
                  /\ forall person, In person (active_with_guid_in guids d) ->
                       exists f, In f (people d)
                         /\ In (People.id person, People.id f) (people_to_friend d)
                         /\ People.guid f = People.guid row
                         /\ People.eye_color_id f = EyeColor.id brown
                         /\ People.has_died f = Some false.
Proof.
  intros d brown.
  assert (Views.validate_people d (Text.split ":" guid_a) = Views.JsonResponse tt)
    as H1 by (vm_compute; reflexivity).
  assert (List.filter (fun e => String.eqb (EyeColor.color e) "brown") (eye_colors d)
          = [brown]) as H2 by (vm_compute; reflexivity).
  split; [exact H1|]. split; [exact H2|].
  exact (commonfriends_lists_the_friends_shared_by_all d guid_a brown H1 H2).
Defined.

Lemma ready_skips_the_ingestion_for_migrations_witness :
  In "migrate" ["manage.py"; "migrate"]
  /\ (Text.contains "migrate" "migrate" = true
      \/ Text.contains "makemigrations" "migrate" = true)
  /\ ready as_written digest ["manage.py"; "migrate"] acme al empty_world
     = (empty_world, Ok tt).
Proof.
  assert (In "migrate" ["manage.py"; "migrate"]) as H1 by (right; left; reflexivity).
  assert (Text.contains "migrate" "migrate" = true
          \/ Text.contains "makemigrations" "migrate" = true) as H2
    by (left; vm_compute; reflexivity).
  split; [exact H1|]. split; [exact H2|].
  exact (ready_skips_the_ingestion_for_migrations as_written digest
           ["manage.py"; "migrate"] "migrate" acme al empty_world H1 H2).
Defined.

Lemma linking_replaces_the_friends_of_a_person_witness :
  let w := after_two_friends in
  let person := from_db (row_at 0 after_two_friends) in
  saveable as_written person
  /\ stored person (db w)
  /\ exists w',
       link_friends as_written tt (person, [11%N]) w = (w', Ok tt)
       /\ triples (db w') = triples (db w)
       /\ (forall s t, s <> People.id (People.fields person) ->
             (In (s, t) (people_to_friend (db w'))
              <-> In (s, t) (people_to_friend (db w))))
       /\ (forall i, linked (db w') (People.id (People.fields person)) i
                     <-> active_in (db w) [11%N] i).
Proof.
  intros w person.
  assert (saveable as_written person) as H1.
  { vm_compute. split; [reflexivity|]. split; eexists; reflexivity. }
  assert (stored person (db w)) as H2.
  { vm_compute. split; [eexists; eexists; left; reflexivity|].
    intros g a [H | [H | [H | []]]]; inversion H; split; reflexivity. }
  split; [exact H1|]. split; [exact H2|].
  exact (linking_replaces_the_friends_of_a_person as_written person [11%N] w H1 H2).
Defined.

Lemma a_repeated_index_stands_for_the_last_record_witness :
  let run := build_lookups ([al_at_0] ++ bea_at_0 :: []) ∅ empty_world in
  (forall q, In q [] -> Json.Person.index q <> Json.Person.index bea_at_0)
  /\ build_lookups ([al_at_0] ++ bea_at_0 :: []) ∅ empty_world
     = (fst run, Ok (lookups_of run))
  /\ index_uuid (lookups_of run) !! Json.Person.index bea_at_0
     = Py.UUID (Json.Person.guid bea_at_0)
  /\ is_Some (Py.UUID (Json.Person.guid bea_at_0)).
Proof.
  intros run.
  assert (forall q : Json.Person.t, In q [] ->
            Json.Person.index q <> Json.Person.index bea_at_0) as H1
    by (intros q []).
  assert (build_lookups ([al_at_0] ++ bea_at_0 :: []) ∅ empty_world
          = (fst run, Ok (lookups_of run))) as H2 by (vm_compute; reflexivity).
  split; [exact H1|]. split; [exact H2|].
  exact (a_repeated_index_stands_for_the_last_record [al_at_0] [] bea_at_0 ∅
           empty_world (fst run) (lookups_of run) H1 H2).
Defined.

Lemma resolve_fails_for_friends_timestamp_or_company_only_witness :
  let lookups file mapping := lookups_of (build_lookups file mapping empty_world) in
  let start file mapping := fst (build_lookups file mapping empty_world) in
  let read p := Py.parse_datetime (Py.remove_spaces (Json.Person.registered p)) in
  (build_lookups [with_a_stranger] acme_by_index empty_world
   = (start [with_a_stranger] acme_by_index, Ok (lookups [with_a_stranger] acme_by_index))
   /\ In with_a_stranger [with_a_stranger]
   /\ friends_known [with_a_stranger] with_a_stranger = false
   /\ resolve (lookups [with_a_stranger] acme_by_index) with_a_stranger empty_world
      = (empty_world, Raise KeyError))
  /\ (build_lookups [in_month_13] acme_by_index empty_world
      = (start [in_month_13] acme_by_index, Ok (lookups [in_month_13] acme_by_index))
      /\ In in_month_13 [in_month_13]
      /\ friends_known [in_month_13] in_month_13 = true
      /\ read in_month_13 = Py.OutOfRange
      /\ resolve (lookups [in_month_13] acme_by_index) in_month_13 empty_world
         = (empty_world, Raise ValueError))
  /\ (build_lookups [al_record] ∅ empty_world
      = (start [al_record] ∅, Ok (lookups [al_record] ∅))
      /\ In al_record [al_record]
      /\ friends_known [al_record] al_record = true
      /\ read al_record = Py.Parsed (registered_value 2016 7 13 12 29 true 10 0)
      /\ (∅ : gmap Z Company.t) !! (Json.Person.company_id al_record - 1) = None
      /\ resolve (lookups [al_record] ∅) al_record empty_world
         = (empty_world, Raise KeyError))
  /\ (build_lookups [al_record] acme_by_index empty_world
      = (start [al_record] acme_by_index, Ok (lookups [al_record] acme_by_index))
      /\ In al_record [al_record]
      /\ friends_known [al_record] al_record = true
      /\ read al_record = Py.Parsed (registered_value 2016 7 13 12 29 true 10 0)
      /\ acme_by_index !! (Json.Person.company_id al_record - 1)
         = Some (Company.mk 1%N "Acme")
      /\ exists r,
           resolve (lookups [al_record] acme_by_index) al_record empty_world
           = (empty_world, Ok r)
           /\ r_company r = Company.mk 1%N "Acme"
           /\ r_registered r = Some (registered_value 2016 7 13 12 29 true 10 0)).
Proof.
  intros lookups start read.
  assert (forall p : Json.Person.t, In p [p]) as Hin by (intros p; left; reflexivity).
  assert (build_lookups [with_a_stranger] acme_by_index empty_world
          = (start [with_a_stranger] acme_by_index,
             Ok (lookups [with_a_stranger] acme_by_index))) as A1
    by (vm_compute; reflexivity).
  assert (friends_known [with_a_stranger] with_a_stranger = false) as A2
    by (vm_compute; reflexivity).
  assert (build_lookups [in_month_13] acme_by_index empty_world
          = (start [in_month_13] acme_by_index,
             Ok (lookups [in_month_13] acme_by_index))) as B1
    by (vm_compute; reflexivity).
  assert (friends_known [in_month_13] in_month_13 = true) as B2
    by (vm_compute; reflexivity).
  assert (read in_month_13 = Py.OutOfRange) as B3 by (vm_compute; reflexivity).
  assert (build_lookups [al_record] ∅ empty_world
          = (start [al_record] ∅, Ok (lookups [al_record] ∅))) as C1
    by (vm_compute; reflexivity).
  assert (friends_known [al_record] al_record = true) as C2
    by (vm_compute; reflexivity).
  assert (read al_record = Py.Parsed (registered_value 2016 7 13 12 29 true 10 0))
    as C3 by (vm_compute; reflexivity).
  assert ((∅ : gmap Z Company.t) !! (Json.Person.company_id al_record - 1) = None)
    as C4 by (vm_compute; reflexivity).
  assert (build_lookups [al_record] acme_by_index empty_world
          = (start [al_record] acme_by_index,
             Ok (lookups [al_record] acme_by_index))) as D1
    by (vm_compute; reflexivity).
  assert (acme_by_index !! (Json.Person.company_id al_record - 1)
          = Some (Company.mk 1%N "Acme")) as D4 by (vm_compute; reflexivity).
  split; [|split; [|split]].
  - repeat (split; [first [exact A1 | exact (Hin _) | exact A2]|]).
    exact (proj1 (resolve_fails_for_friends_timestamp_or_company_only
                    [with_a_stranger] acme_by_index empty_world _ empty_world _
                    with_a_stranger A1 (Hin _)) A2).
  - repeat (split; [first [exact B1 | exact (Hin _) | exact B2 | exact B3]|]).
    exact (proj1 (proj2 (resolve_fails_for_friends_timestamp_or_company_only
                           [in_month_13] acme_by_index empty_world _ empty_world _
                           in_month_13 B1 (Hin _))) B2 B3).
  - repeat (split; [first [exact C1 | exact (Hin _) | exact C2 | exact C3 | exact C4]|]).
    exact (proj1 (proj2 (proj2 (resolve_fails_for_friends_timestamp_or_company_only
                                  [al_record] ∅ empty_world _ empty_world _
                                  al_record C1 (Hin _)))) _ C2 C3 C4).
  - repeat (split; [first [exact D1 | exact (Hin _) | exact C2 | exact C3 | exact D4]|]).
    exact (proj2 (proj2 (proj2 (resolve_fails_for_friends_timestamp_or_company_only
                                  [al_record] acme_by_index empty_world _ empty_world _
                                  al_record D1 (Hin _)))) _ _ C2 C3 D4).
Defined.

Lemma a_file_that_matches_the_store_writes_nothing_witness :
  let w := fst (staged acme al after_al) in
  let lk := snd (staged acme al after_al) in
  (forall person, In person (file_json al) ->
     exists r row rest,
       resolve lk person w = (w, Ok r)
       /\ active_with_guid (r_guid r) (db w) = row :: rest
       /\ forall w0 w1 o, People_init person r w0 = (w1, Ok o) ->
            unchanged (db w) o (from_db row) r = true)
  /\ exists w',
       for_each (file_json al) (reconcile as_written lk) [] w = (w', Ok [])
       /\ db w' = db w /\ writes w' = writes w
       /\ for_each [] (link_friends as_written) tt w' = (w', Ok tt).
Proof.
  intros w lk.
  assert (forall person, In person (file_json al) ->
            exists r row rest,
              resolve lk person w = (w, Ok r)
              /\ active_with_guid (r_guid r) (db w) = row :: rest
              /\ forall w0 w1 o, People_init person r w0 = (w1, Ok o) ->
                   unchanged (db w) o (from_db row) r = true) as H.
  { intros person [<- | []].
    exists (resolved lk al_record w), (first_active 10%N w),
           (tl (active_with_guid 10%N (db w))).
    split; [vm_compute; reflexivity|]. split; [vm_compute; reflexivity|].
    intros w0 w1 o Hinit. rewrite (People_init_value _ _ _ _ _ Hinit).
    vm_compute. reflexivity. }
  split; [exact H|].
  exact (a_file_that_matches_the_store_writes_nothing as_written lk (file_json al) w H).
Defined.

End Checks.
